(** * Vitest report summaries

    A shallow embedding of the four report scripts
    [check_full.py], [failed_details.py], [temp_decode.py] and
    [vitest-report-summary.py].

    Each script reads one file, decodes it, hands the text to
    [json.loads] and prints lines computed from the resulting object.
    The embedding follows that pipeline:

    - a Python [str] is a list of code points ([text]);
    - the object built by [json.loads] is a [value];
    - an exception is a constructor of [exn], and the part of a script
      that prints runs in the monad [W], which keeps what was printed
      before an exception was raised;
    - a whole script is a function of the [world] (the files and the
      standard output).  *)

From Stdlib Require Import List NArith ZArith String Ascii Bool.
From Stdlib Require Import DecimalString Lia.
Import ListNotations.

Set Warnings "-register-all".

(** ** Text *)

(** A Python [str]: its code points, in order. *)
Definition text := list N.

(** An ASCII literal of the source, as text. *)
Definition lit (s : string) : text := map N_of_ascii (list_ascii_of_string s).

(** [str(n)] for an [int]. *)
Definition dec (z : Z) : text := lit (NilZero.string_of_int (Z.to_int z)).

Definition NL : N := 10%N.

Fixpoint text_eqb (a b : text) : bool :=
  match a, b with
  | [], [] => true
  | x :: a', y :: b' => N.eqb x y && text_eqb a' b'
  | _, _ => false
  end.

Fixpoint prefixb (p s : text) : bool :=
  match p, s with
  | [], _ => true
  | x :: p', y :: s' => N.eqb x y && prefixb p' s'
  | _ :: _, [] => false
  end.

(** [needle in hay] for two strings. *)
Fixpoint contains (needle hay : text) : bool :=
  prefixb needle hay ||
  match hay with
  | [] => false
  | _ :: hay' => contains needle hay'
  end.

(** The same, as a proposition: [hay] has [needle] as a substring. *)
Definition substring (needle hay : text) : Prop :=
  exists before after, hay = before ++ needle ++ after.

(** [s.split(sep)] for a one-character separator: the pieces between
    the occurrences of [sep]; the result is never empty. *)
Fixpoint split_on (sep : N) (s : text) : list text :=
  match s with
  | [] => [[]]
  | c :: s' =>
      if N.eqb c sep then [] :: split_on sep s'
      else match split_on sep s' with
           | [] => [[c]]
           | piece :: pieces => (c :: piece) :: pieces
           end
  end.

(** [s.split(sep, 1)]: cut at the first occurrence only. *)
Fixpoint split_on_1 (sep : N) (s : text) : list text :=
  match s with
  | [] => [[]]
  | c :: s' =>
      if N.eqb c sep then [[]; s']
      else match split_on_1 sep s' with
           | [] => [[c]]
           | piece :: pieces => (c :: piece) :: pieces
           end
  end.

(** [sep.join(pieces)]. *)
Fixpoint join (sep : text) (pieces : list text) : text :=
  match pieces with
  | [] => []
  | [p] => p
  | p :: ps => p ++ sep ++ join sep ps
  end.

(** The text up to the first newline: what both scripts keep of a
    failure message. *)
Fixpoint first_line_of (s : text) : text :=
  match s with
  | [] => []
  | c :: s' => if N.eqb c NL then [] else c :: first_line_of s'
  end.

(** ** Objects *)

(** What [json.loads] builds.  A [dict] keeps its keys in insertion
    order and holds each key once.  A [float] keeps the number literal
    it was read from: the scripts never compute with one. *)
Inductive value : Type :=
| JNull
| JBool (b : bool)
| JInt (z : Z)
| JFloat (literal : text)
| JStr (s : text)
| JList (l : list value)
| JDict (d : list (text * value)).

Fixpoint dict_get (k : text) (d : list (text * value)) : option value :=
  match d with
  | [] => None
  | (k', v) :: d' => if text_eqb k k' then Some v else dict_get k d'
  end.

(** [d[k] = v]: an existing key keeps its place. *)
Fixpoint dict_set (k : text) (v : value) (d : list (text * value))
  : list (text * value) :=
  match d with
  | [] => [(k, v)]
  | (k', v') :: d' =>
      if text_eqb k k' then (k, v) :: d' else (k', v') :: dict_set k v d'
  end.

(** ** Exceptions *)

(** The exceptions the scripts can meet.  [Unmodelled] is not a Python
    exception: it marks an operation whose result this embedding does
    not compute ([str()] of a float, list or dict, truth of a float). *)
Inductive exn : Type :=
| FileNotFoundError
| UnicodeDecodeError
| JSONDecodeError
| KeyError (key : value)
| TypeError
| AttributeError
| IndexError
| Unmodelled.

Inductive res (A : Type) : Type :=
| Ok (a : A)
| Raise (e : exn).

Arguments Ok {A} a.
Arguments Raise {A} e.

Definition res_bind {A B} (m : res A) (k : A -> res B) : res B :=
  match m with
  | Ok a => k a
  | Raise e => Raise e
  end.

(** ** Operations on objects *)

(** [v[k]] for a string [k]. *)
Definition subscript (v : value) (k : text) : res value :=
  match v with
  | JDict d =>
      match dict_get k d with
      | Some x => Ok x
      | None => Raise (KeyError (JStr k))
      end
  | _ => Raise TypeError
  end.

(** [v.get(k)]. *)
Definition get (v : value) (k : text) : res value :=
  match v with
  | JDict d =>
      match dict_get k d with
      | Some x => Ok x
      | None => Ok JNull
      end
  | _ => Raise AttributeError
  end.

(** [v.get(k, default)]. *)
Definition get_default (v : value) (k : text) (default : value) : res value :=
  match v with
  | JDict d =>
      match dict_get k d with
      | Some x => Ok x
      | None => Ok default
      end
  | _ => Raise AttributeError
  end.

(** [v == s] for a string [s]. *)
Definition eq_str (v : value) (s : text) : bool :=
  match v with
  | JStr s' => text_eqb s' s
  | _ => false
  end.

(** The items a [for] loop sees: the elements of a list, the keys of
    a dict, the characters of a string. *)
Definition iter (v : value) : res (list value) :=
  match v with
  | JList l => Ok l
  | JDict d => Ok (map (fun kv => JStr (fst kv)) d)
  | JStr s => Ok (map (fun c => JStr [c]) s)
  | _ => Raise TypeError
  end.

(** [needle in v] for a string [needle]. *)
Definition py_in (needle : text) (v : value) : res bool :=
  match v with
  | JStr s => Ok (contains needle s)
  | JList l => Ok (existsb (fun x => eq_str x needle) l)
  | JDict d =>
      match dict_get needle d with
      | Some _ => Ok true
      | None => Ok false
      end
  | _ => Raise TypeError
  end.

(** Truth of an object, as [if] and [or] test it. *)
Definition truth (v : value) : res bool :=
  match v with
  | JNull => Ok false
  | JBool b => Ok b
  | JInt z => Ok (negb (Z.eqb z 0))
  | JFloat _ => Raise Unmodelled
  | JStr s => Ok (match s with [] => false | _ => true end)
  | JList l => Ok (match l with [] => false | _ => true end)
  | JDict d => Ok (match d with [] => false | _ => true end)
  end.

(** [v[0]]. *)
Definition index0 (v : value) : res value :=
  match v with
  | JList [] => Raise IndexError
  | JList (x :: _) => Ok x
  | JStr [] => Raise IndexError
  | JStr (c :: _) => Ok (JStr [c])
  | JDict _ => Raise (KeyError (JInt 0))
  | _ => Raise TypeError
  end.

(** [v.split('\n')] and [v.split('\n', 1)]: only a string has them. *)
Definition split (v : value) : res (list text) :=
  match v with
  | JStr s => Ok (split_on NL s)
  | _ => Raise AttributeError
  end.

Definition split1 (v : value) : res (list text) :=
  match v with
  | JStr s => Ok (split_on_1 NL s)
  | _ => Raise AttributeError
  end.

(** [l[0]] for the list a [split] returned. *)
Definition head_piece (l : list text) : res text :=
  match l with
  | [] => Raise IndexError
  | p :: _ => Ok p
  end.

(** The items of a [join]: every one must be a string. *)
Fixpoint strings_of (l : list value) : res (list text) :=
  match l with
  | [] => Ok []
  | JStr s :: l' => res_bind (strings_of l') (fun ss => Ok (s :: ss))
  | _ :: _ => Raise TypeError
  end.

(** ['\n'.join(v)]. *)
Definition join_lines (v : value) : res text :=
  res_bind (iter v) (fun items =>
  res_bind (strings_of items) (fun ss => Ok (join [NL] ss))).

(** ['\n' + v]. *)
Definition concat_after (prefix : text) (v : value) : res text :=
  match v with
  | JStr s => Ok (prefix ++ s)
  | _ => Raise TypeError
  end.

(** [str(v)], which [print], [format] and an f-string field apply. *)
Definition str (v : value) : res text :=
  match v with
  | JNull => Ok (lit "None")
  | JBool true => Ok (lit "True")
  | JBool false => Ok (lit "False")
  | JInt z => Ok (dec z)
  | JStr s => Ok s
  | JFloat _ | JList _ | JDict _ => Raise Unmodelled
  end.

(** ** Printing *)

(** A computation that prints: the lines printed, one per call of
    [print] and without the newline that ends each, and the result or
    the exception that stopped it. *)
Definition W (A : Type) : Type := (list text * res A)%type.

Definition ret {A} (a : A) : W A := ([], Ok a).

Definition bind {A B} (m : W A) (k : A -> W B) : W B :=
  match m with
  | (out, Ok a) => let (out', r) := k a in (out ++ out', r)
  | (out, Raise e) => (out, Raise e)
  end.

Definition lift {A} (r : res A) : W A := ([], r).

Definition print (line : text) : W unit := ([line], Ok tt).

Declare Scope W_scope.
Delimit Scope W_scope with W.
Notation "x <- m ;; k" := (bind m (fun x => k))
  (at level 61, m at next level, right associativity) : W_scope.
Notation "m ;;; k" := (bind m (fun _ => k))
  (at level 61, right associativity) : W_scope.
Notation "x <~ r ;; k" := (bind (lift r) (fun x => k))
  (at level 61, r at next level, right associativity) : W_scope.
Open Scope W_scope.

(** A [for] loop over a list. *)
Fixpoint for_each {A} (l : list A) (body : A -> W unit) : W unit :=
  match l with
  | [] => ret tt
  | x :: l' => body x ;;; for_each l' body
  end.

(** A list comprehension with a condition that may raise. *)
Fixpoint filter_res {A} (cond : A -> res bool) (l : list A) : res (list A) :=
  match l with
  | [] => Ok []
  | x :: l' =>
      res_bind (cond x) (fun keep =>
      res_bind (filter_res cond l') (fun rest =>
      Ok (if keep then x :: rest else rest)))
  end.

(** [[a for a in s.get('assertionResults',[]) if a.get('status')=='failed']] *)
Definition failed_assertions (s : value) : res (list value) :=
  res_bind (get_default s (lit "assertionResults") (JList [])) (fun rs =>
  res_bind (iter rs) (fun items =>
  filter_res (fun a =>
    res_bind (get a (lit "status")) (fun st => Ok (eq_str st (lit "failed"))))
    items)).

(** ** check_full.py *)

Module CheckFull.

Definition totals (j : value) : W unit :=
  total <~ subscript j (lit "numTotalTests") ;;
  total <~ str total ;;
  passed <~ subscript j (lit "numPassedTests") ;;
  passed <~ str passed ;;
  failed <~ subscript j (lit "numFailedTests") ;;
  failed <~ str failed ;;
  failedSuites <~ subscript j (lit "numFailedTestSuites") ;;
  failedSuites <~ str failedSuites ;;
  print (lit "total=" ++ total ++ lit " passed=" ++ passed
         ++ lit " failed=" ++ failed
         ++ lit " failedSuites=" ++ failedSuites).

Definition suite_line (s : value) : W unit :=
  status <~ get s (lit "status") ;;
  if eq_str status (lit "failed") then
    fails <~ failed_assertions s ;;
    name <~ subscript s (lit "name") ;;
    name <~ str name ;;
    print (name ++ lit " :: " ++ dec (Z.of_nat (List.length fails)))
  else ret tt.

Definition main (j : value) : W unit :=
  totals j ;;;
  testResults <~ subscript j (lit "testResults") ;;
  suites <~ iter testResults ;;
  for_each suites suite_line.

End CheckFull.

(** ** failed_details.py *)

Module FailedDetails.

Definition assertion_lines (a : value) : W unit :=
  msg <~ (res_bind (get a (lit "failureMessages")) (fun messages =>
          res_bind (truth messages) (fun some =>
          res_bind (index0 (if some then messages else JList [JStr []]))
            (fun first =>
          res_bind (split first) head_piece)))) ;;
  fullName <~ subscript a (lit "fullName") ;;
  fullName <~ str fullName ;;
  print (lit "- " ++ fullName) ;;;
  print (lit "   " ++ msg).

Definition suite_block (suite : value) : W unit :=
  fails <~ failed_assertions suite ;;
  match fails with
  | [] => ret tt
  | _ :: _ =>
      name <~ subscript suite (lit "name") ;;
      header <~ concat_after [NL] name ;;
      print header ;;;
      for_each fails assertion_lines
  end.

Definition main (j : value) : W unit :=
  testResults <~ subscript j (lit "testResults") ;;
  suites <~ iter testResults ;;
  for_each suites suite_block.

End FailedDetails.

(** ** temp_decode.py *)

Module TempDecode.

Definition main (data : value) : W unit :=
  failed <~ subscript data (lit "numFailedTests") ;;
  failed <~ str failed ;;
  print failed.

End TempDecode.

(** ** vitest-report-summary.py *)

Module VitestReportSummary.

(** A loop that updates a variable: here [failures], which the
    script extends with [append]. *)
Fixpoint for_acc {A S} (l : list A) (body : S -> A -> res S) (s : S)
  : res S :=
  match l with
  | [] => Ok s
  | x :: l' => res_bind (body s x) (for_acc l' body)
  end.

Definition failure_record (suite_name fullName : value) (msg : text)
  : value :=
  JDict [(lit "suite", suite_name); (lit "fullName", fullName);
         (lit "message", JStr msg)].

Definition collect_assertion (suite_name : value)
    (failures : list value) (assertion : value) : res (list value) :=
  res_bind (subscript assertion (lit "status")) (fun status =>
  if eq_str status (lit "failed") then
    res_bind (get_default assertion (lit "failureMessages") (JList []))
      (fun messages =>
    res_bind (join_lines messages) (fun msg =>
    res_bind (subscript assertion (lit "fullName")) (fun fullName =>
    Ok (failures ++ [failure_record suite_name fullName msg]))))
  else Ok failures).

Definition collect_suite (failures : list value) (suite : value)
  : res (list value) :=
  res_bind (subscript suite (lit "name")) (fun suite_name =>
  res_bind (subscript suite (lit "assertionResults")) (fun results =>
  res_bind (iter results) (fun assertions =>
  for_acc assertions (collect_assertion suite_name) failures))).

Definition counters_line (data : value) (title : text)
    (k1 k2 k3 k4 : text) : W unit :=
  total <~ subscript data k1 ;;
  passed <~ subscript data k2 ;;
  failed <~ subscript data k3 ;;
  pending <~ subscript data k4 ;;
  total <~ str total ;;
  passed <~ str passed ;;
  failed <~ str failed ;;
  pending <~ str pending ;;
  print (title ++ lit " " ++ total ++ lit " PASS " ++ passed
         ++ lit " FAIL " ++ failed ++ lit " SKIPPED " ++ pending).

Definition e2e_name : text := lit "e2e-quality-orchestration.test.ts".

(** The loop that ends at [break]. *)
Fixpoint e2e_file_status (suites : list value) : W unit :=
  match suites with
  | [] => ret tt
  | suite :: rest =>
      name <~ subscript suite (lit "name") ;;
      found <~ py_in e2e_name name ;;
      if found then
        name <~ subscript suite (lit "name") ;;
        status <~ subscript suite (lit "status") ;;
        name <~ str name ;;
        status <~ str status ;;
        print (lit "   " ++ name ++ lit " " ++ status)
      else e2e_file_status rest
  end.

Definition failure_line (failure : value) : W unit :=
  message <~ subscript failure (lit "message") ;;
  some <~ truth message ;;
  first_line <~ (if some then
                   res_bind (subscript failure (lit "message")) (fun m =>
                   res_bind (split1 m) head_piece)
                 else Ok (lit "No message")) ;;
  fullName <~ subscript failure (lit "fullName") ;;
  fullName <~ str fullName ;;
  print (lit "- " ++ fullName ++ lit ": " ++ first_line).

Definition main (data : value) : W unit :=
  counters_line data (lit "TOTAL SUITES")
    (lit "numTotalTestSuites") (lit "numPassedTestSuites")
    (lit "numFailedTestSuites") (lit "numPendingTestSuites") ;;;
  counters_line data (lit "TOTAL TESTS")
    (lit "numTotalTests") (lit "numPassedTests")
    (lit "numFailedTests") (lit "numPendingTests") ;;;
  testResults <~ get_default data (lit "testResults") (JList []) ;;
  suites <~ iter testResults ;;
  failures <~ for_acc suites collect_suite [] ;;
  print (lit "FAILURE COUNT " ++ dec (Z.of_nat (List.length failures))) ;;;
  print (lit "E2E FILE STATUS:") ;;;
  testResults <~ get_default data (lit "testResults") (JList []) ;;
  suites <~ iter testResults ;;
  e2e_file_status suites ;;;
  print (NL :: lit "FAILURES:") ;;;
  for_each failures failure_line.

End VitestReportSummary.

(** ** Decoding the file *)

(** The [errors] argument of [read_text]. *)
Inductive error_handler : Type := strict | ignore.

(** What a decoder does with bytes it cannot decode: raise, or drop
    them and go on with [continue]. *)
Definition on_error (errors : error_handler) (continue : res text)
  : res text :=
  match errors with
  | strict => Raise UnicodeDecodeError
  | ignore => continue
  end.

Definition emit (c : N) (rest : res text) : res text :=
  res_bind rest (fun t => Ok (c :: t)).

Definition is_continuation (b : N) : bool :=
  (128 <=? b)%N && (b <? 192)%N.

(** The UTF-8 decoder, on byte values.  A byte that cannot start a
    sequence is an error of one byte; a sequence broken by a byte that
    cannot continue it is an error of the bytes before that byte; a
    sequence cut by the end of the data is an error of all that is
    left. *)
Fixpoint utf8_decode (errors : error_handler) (s : list N) : res text :=
  match s with
  | [] => Ok []
  | ch :: s1 =>
    if (ch <? 128)%N then emit ch (utf8_decode errors s1)
    else if (ch <? 194)%N then on_error errors (utf8_decode errors s1)
    else if (ch <? 224)%N then
      match s1 with
      | [] => on_error errors (Ok [])
      | ch2 :: s2 =>
        if is_continuation ch2
        then emit (ch * 64 + ch2 - 12416)%N (utf8_decode errors s2)
        else on_error errors (utf8_decode errors s1)
      end
    else if (ch <? 240)%N then
      match s1 with
      | [] => on_error errors (Ok [])
      | ch2 :: s2 =>
        if negb (is_continuation ch2)
           || (if (ch2 <? 160)%N then (ch =? 224)%N else (ch =? 237)%N)
        then on_error errors (utf8_decode errors s1)
        else
          match s2 with
          | [] => on_error errors (Ok [])
          | ch3 :: s3 =>
            if is_continuation ch3
            then emit (ch * 4096 + ch2 * 64 + ch3 - 925824)%N
                      (utf8_decode errors s3)
            else on_error errors (utf8_decode errors s2)
          end
      end
    else if (ch <? 245)%N then
      match s1 with
      | [] => on_error errors (Ok [])
      | ch2 :: s2 =>
        if negb (is_continuation ch2)
           || (if (ch2 <? 144)%N then (ch =? 240)%N else (ch =? 244)%N)
        then on_error errors (utf8_decode errors s1)
        else
          match s2 with
          | [] => on_error errors (Ok [])
          | ch3 :: s3 =>
            if is_continuation ch3 then
              match s3 with
              | [] => on_error errors (Ok [])
              | ch4 :: s4 =>
                if is_continuation ch4
                then emit (ch * 262144 + ch2 * 4096 + ch3 * 64 + ch4
                           - 63447168)%N
                          (utf8_decode errors s4)
                else on_error errors (utf8_decode errors s3)
              end
            else on_error errors (utf8_decode errors s2)
          end
      end
    else on_error errors (utf8_decode errors s1)
  end.

Definition is_surrogate (c : N) : bool := (55296 <=? c)%N && (c <? 57344)%N.
Definition is_high_surrogate (c : N) : bool :=
  (55296 <=? c)%N && (c <? 56320)%N.
Definition is_low_surrogate (c : N) : bool :=
  (56320 <=? c)%N && (c <? 57344)%N.
Definition join_surrogates (hi lo : N) : N :=
  (65536 + (hi - 55296) * 1024 + (lo - 56320))%N.

(** The UTF-16 decoder, little-endian and without a byte-order mark.
    A low surrogate that comes first, or a high surrogate that no low
    surrogate follows, is an error of that unit alone; a high
    surrogate at the end of the data, or a single byte left over, is
    an error of all that is left. *)
Fixpoint utf16_le_decode (errors : error_handler) (q : list N) : res text :=
  match q with
  | [] => Ok []
  | [_] => on_error errors (Ok [])
  | lo :: hi :: q2 =>
    let ch := (hi * 256 + lo)%N in
    if negb (is_surrogate ch) then emit ch (utf16_le_decode errors q2)
    else if negb (is_high_surrogate ch)
    then on_error errors (utf16_le_decode errors q2)
    else
      match q2 with
      | lo2 :: hi2 :: q4 =>
        let ch2 := (hi2 * 256 + lo2)%N in
        if is_low_surrogate ch2
        then emit (join_surrogates ch ch2) (utf16_le_decode errors q4)
        else on_error errors (utf16_le_decode errors q2)
      | _ => on_error errors (Ok [])
      end
  end.

(** The encoder of UTF-8, which says what a well-encoded file is.
    A surrogate has no encoding. *)
Definition utf8_encode_char (c : N) : option (list N) :=
  if (c <? 128)%N then Some [c]
  else if (c <? 2048)%N then Some [192 + c / 64; 128 + c mod 64]%N
  else if (c <? 65536)%N then
    if is_surrogate c then None
    else Some [224 + c / 4096; 128 + (c / 64) mod 64; 128 + c mod 64]%N
  else if (c <? 1114112)%N then
    Some [240 + c / 262144; 128 + (c / 4096) mod 64;
          128 + (c / 64) mod 64; 128 + c mod 64]%N
  else None.

Fixpoint utf8_encode (t : text) : option (list N) :=
  match t with
  | [] => Some []
  | c :: t' =>
    match utf8_encode_char c, utf8_encode t' with
    | Some bs, Some bs' => Some (bs ++ bs')
    | _, _ => None
    end
  end.

(** The encoder of UTF-16, little-endian. *)
Definition utf16_le_encode_char (c : N) : option (list N) :=
  if (c <? 65536)%N then
    if is_surrogate c then None
    else Some [c mod 256; c / 256]%N
  else if (c <? 1114112)%N then
    let hi := (55296 + (c - 65536) / 1024)%N in
    let lo := (56320 + (c - 65536) mod 1024)%N in
    Some [hi mod 256; hi / 256; lo mod 256; lo / 256]%N
  else None.

Fixpoint utf16_le_encode (t : text) : option (list N) :=
  match t with
  | [] => Some []
  | c :: t' =>
    match utf16_le_encode_char c, utf16_le_encode t' with
    | Some bs, Some bs' => Some (bs ++ bs')
    | _, _ => None
    end
  end.

Inductive encoding : Type := utf_8 | utf_16_le | utf_8_sig.

(** The byte-order mark that [utf-8-sig] skips when a file starts
    with it. *)
Definition BOM_UTF8 : list N := [239; 187; 191]%N.

(** The first byte, or the first two bytes, of the mark and nothing
    else.  The decoder of a file waits for the rest of the mark, and
    at the end of the file gives no text and no error. *)
Definition starts_mark (bytes : list N) : bool :=
  match bytes with
  | [b1] => (b1 =? 239)%N
  | [b1; b2] => (b1 =? 239)%N && (b2 =? 187)%N
  | _ => false
  end.

Definition decode (enc : encoding) (errors : error_handler)
    (bytes : list N) : res text :=
  match enc with
  | utf_8 => utf8_decode errors bytes
  | utf_16_le => utf16_le_decode errors bytes
  | utf_8_sig =>
      match bytes with
      | b1 :: b2 :: b3 :: bytes' =>
          if ((b1 =? 239) && (b2 =? 187) && (b3 =? 191))%N
          then utf8_decode errors bytes'
          else utf8_decode errors bytes
      | _ =>
          if starts_mark bytes then Ok [] else utf8_decode errors bytes
      end
  end.

(** The bytes are the encoding of some text: the file was written in
    the encoding the script assumes.  For [utf-8-sig] the mark may be
    there or not. *)
Definition well_encoded (enc : encoding) (bytes : list N) : Prop :=
  match enc with
  | utf_8 => exists t, utf8_encode t = Some bytes
  | utf_16_le => exists t, utf16_le_encode t = Some bytes
  | utf_8_sig =>
      exists t bs, utf8_encode t = Some bs
                   /\ (bytes = bs \/ bytes = BOM_UTF8 ++ bs)
  end.

(** A file opened in text mode turns every line ending into ['\n']. *)
Fixpoint universal_newlines (t : text) : text :=
  match t with
  | [] => []
  | c :: t' =>
    if (c =? 13)%N then
      match t' with
      | c' :: t'' =>
          if (c' =? 10)%N then NL :: universal_newlines t''
          else NL :: universal_newlines t'
      | [] => [NL]
      end
    else c :: universal_newlines t'
  end.

(** ** json.loads *)

(** The scanner, as the interpreter's accelerated [json] module has
    it.  Limits of the interpreter (the depth of nesting, the length
    of an integer literal) are not part of the embedding. *)

Definition ch (a : ascii) : N := N_of_ascii a.

(** The double quote. *)
Definition QUOTE : N := 34%N.

Inductive parsed (A : Type) : Type :=
| Parsed (a : A) (rest : text)
| Fail
| OutOfFuel.

Arguments Parsed {A} a rest.
Arguments Fail {A}.
Arguments OutOfFuel {A}.

Definition is_whitespace (c : N) : bool :=
  ((c =? 32) || (c =? 9) || (c =? 10) || (c =? 13))%N.

Fixpoint skip_whitespace (s : text) : text :=
  match s with
  | c :: s' => if is_whitespace c then skip_whitespace s' else s
  | [] => []
  end.

Definition is_digit (c : N) : bool := (48 <=? c)%N && (c <=? 57)%N.

Definition hex_digit (c : N) : option N :=
  if is_digit c then Some (c - 48)%N
  else if (97 <=? c)%N && (c <=? 102)%N then Some (c - 97 + 10)%N
  else if (65 <=? c)%N && (c <=? 70)%N then Some (c - 65 + 10)%N
  else None.

Definition hex4 (h1 h2 h3 h4 : N) : option N :=
  match hex_digit h1, hex_digit h2, hex_digit h3, hex_digit h4 with
  | Some d1, Some d2, Some d3, Some d4 =>
      Some (d1 * 4096 + d2 * 256 + d3 * 16 + d4)%N
  | _, _, _, _ => None
  end.

(** The character a backslash escape other than [\u] stands for. *)
Definition simple_escape (c : N) : option N :=
  if (c =? QUOTE)%N then Some c
  else if (c =? ch "\")%N then Some c
  else if (c =? ch "/")%N then Some c
  else if (c =? ch "b")%N then Some 8%N
  else if (c =? ch "f")%N then Some 12%N
  else if (c =? ch "n")%N then Some 10%N
  else if (c =? ch "r")%N then Some 13%N
  else if (c =? ch "t")%N then Some 9%N
  else None.

Definition push (c : N) (p : parsed text) : parsed text :=
  match p with
  | Parsed t rest => Parsed (c :: t) rest
  | Fail => Fail
  | OutOfFuel => OutOfFuel
  end.

(** The body of a string, after its opening quote, up to and with the
    closing quote.  An escaped high surrogate that an escaped low
    surrogate follows is one character with it. *)
Fixpoint scanstring (s : text) : parsed text :=
  match s with
  | [] => Fail
  | c :: s1 =>
    if (c =? QUOTE)%N then Parsed [] s1
    else if (c =? ch "\")%N then
      match s1 with
      | [] => Fail
      | e :: s2 =>
        if (e =? ch "u")%N then
          match s2 with
          | h1 :: h2 :: h3 :: h4 :: s6 =>
            match hex4 h1 h2 h3 h4 with
            | None => Fail
            | Some c1 =>
              if is_high_surrogate c1 then
                match s6 with
                | b :: u :: g1 :: g2 :: g3 :: g4 :: s12 =>
                  if ((b =? ch "\") && (u =? ch "u"))%N then
                    match hex4 g1 g2 g3 g4 with
                    | None => Fail
                    | Some c2 =>
                      if is_low_surrogate c2
                      then push (join_surrogates c1 c2) (scanstring s12)
                      else push c1 (scanstring s6)
                    end
                  else push c1 (scanstring s6)
                | _ => push c1 (scanstring s6)
                end
              else push c1 (scanstring s6)
            end
          | _ => Fail
          end
        else
          match simple_escape e with
          | Some c' => push c' (scanstring s2)
          | None => Fail
          end
      end
    else if (c <=? 31)%N then Fail
    else push c (scanstring s1)
  end.

(** The longest run of digits at the head of [s], and what follows. *)
Fixpoint span_digits (s : text) : text * text :=
  match s with
  | c :: s' =>
    if is_digit c then let (ds, rest) := span_digits s' in (c :: ds, rest)
    else ([], s)
  | [] => ([], [])
  end.

Definition int_of_digits (ds : text) : Z :=
  fold_left (fun acc c => (acc * 10 + Z.of_N (c - 48))%Z) ds 0%Z.

(** A number: an optional minus sign, then [0] or a run of digits
    that does not start with [0]; then, if a dot and a digit follow, a
    fraction; then, if [e] or [E], an optional sign and a digit
    follow, an exponent.  With a fraction or an exponent it is a
    float.  Each part gives the characters it takes and what is
    left. *)
Definition sign_part (s : text) : text * text :=
  match s with
  | c :: s' => if (c =? ch "-")%N then ([c], s') else ([], s)
  | [] => ([], s)
  end.

Definition int_part (c : N) (s2 : text) : text * text :=
  if (c =? ch "0")%N then ([c], s2)
  else let (ds, rest) := span_digits s2 in (c :: ds, rest).

Definition frac_part (s3 : text) : text * text :=
  match s3 with
  | dot :: d :: s' =>
    if (dot =? ch ".")%N && is_digit d
    then let (ds, rest) := span_digits s' in (dot :: d :: ds, rest)
    else ([], s3)
  | _ => ([], s3)
  end.

Definition exp_part (s4 : text) : text * text :=
  match s4 with
  | e :: s' =>
    if ((e =? ch "e") || (e =? ch "E"))%N then
      let (esign, s'') :=
        match s' with
        | c' :: r =>
          if ((c' =? ch "-") || (c' =? ch "+"))%N then ([c'], r)
          else ([], s')
        | [] => ([], s')
        end in
      match span_digits s'' with
      | ([], _) => ([], s4)
      | (ds, rest) => (e :: esign ++ ds, rest)
      end
    else ([], s4)
  | [] => ([], s4)
  end.

Definition match_number (s : text) : parsed value :=
  let (sign, s1) := sign_part s in
  match s1 with
  | [] => Fail
  | c :: s2 =>
    if is_digit c then
      let (int_digits, s3) := int_part c s2 in
      let (frac, s4) := frac_part s3 in
      let (exponent, s5) := exp_part s4 in
      match frac, exponent with
      | [], [] =>
        Parsed (JInt (match sign with
                      | [] => int_of_digits int_digits
                      | _ => - int_of_digits int_digits
                      end)%Z) s5
      | _, _ => Parsed (JFloat (sign ++ int_digits ++ frac ++ exponent)) s5
      end
    else Fail
  end.

(** A named constant at the head of [s]. *)
Definition constant (name : string) (v : value) (s : text)
  : option (parsed value) :=
  if prefixb (lit name) s
  then Some (Parsed v (skipn (String.length name) s))
  else None.

Definition then_close {A} (p : parsed A) (k : A -> text -> parsed value)
  : parsed value :=
  match p with
  | Parsed a rest => k a rest
  | Fail => Fail
  | OutOfFuel => OutOfFuel
  end.

(** One JSON term at the head of the text; the members of an object
    after its opening brace; the elements of an array after its
    opening bracket. *)
Fixpoint scan_once (fuel : nat) (s : text) : parsed value :=
  match fuel with
  | O => OutOfFuel
  | S fuel' =>
    match s with
    | [] => Fail
    | c :: s1 =>
      if (c =? QUOTE)%N then
        then_close (scanstring s1) (fun t rest => Parsed (JStr t) rest)
      else if (c =? ch "{")%N then
        match skip_whitespace s1 with
        | [] => Fail
        | c' :: s2 =>
          if (c' =? ch "}")%N then Parsed (JDict []) s2
          else parse_object fuel' [] (c' :: s2)
        end
      else if (c =? ch "[")%N then
        match skip_whitespace s1 with
        | [] => Fail
        | c' :: s2 =>
          if (c' =? ch "]")%N then Parsed (JList []) s2
          else parse_array fuel' [] (c' :: s2)
        end
      else
        match constant "null" JNull s with
        | Some p => p
        | None =>
        match constant "true" (JBool true) s with
        | Some p => p
        | None =>
        match constant "false" (JBool false) s with
        | Some p => p
        | None =>
        match constant "NaN" (JFloat (lit "NaN")) s with
        | Some p => p
        | None =>
        match constant "Infinity" (JFloat (lit "Infinity")) s with
        | Some p => p
        | None =>
        match constant "-Infinity" (JFloat (lit "-Infinity")) s with
        | Some p => p
        | None => match_number s
        end end end end end end
    end
  end
with parse_object (fuel : nat) (rval : list (text * value)) (s : text)
  : parsed value :=
  match fuel with
  | O => OutOfFuel
  | S fuel' =>
    match s with
    | [] => Fail
    | c :: s1 =>
      if (c =? QUOTE)%N then
        then_close (scanstring s1) (fun key s2 =>
        match skip_whitespace s2 with
        | [] => Fail
        | c2 :: s3 =>
          if (c2 =? ch ":")%N then
            then_close (scan_once fuel' (skip_whitespace s3)) (fun val s4 =>
            let rval := dict_set key val rval in
            match skip_whitespace s4 with
            | [] => Fail
            | c3 :: s5 =>
              if (c3 =? ch "}")%N then Parsed (JDict rval) s5
              else if (c3 =? ch ",")%N
              then parse_object fuel' rval (skip_whitespace s5)
              else Fail
            end)
          else Fail
        end)
      else Fail
    end
  end
with parse_array (fuel : nat) (rval : list value) (s : text)
  : parsed value :=
  match fuel with
  | O => OutOfFuel
  | S fuel' =>
    then_close (scan_once fuel' s) (fun val s1 =>
    let rval := rval ++ [val] in
    match skip_whitespace s1 with
    | [] => Fail
    | c :: s2 =>
      if (c =? ch "]")%N then Parsed (JList rval) s2
      else if (c =? ch ",")%N
      then parse_array fuel' rval (skip_whitespace s2)
      else Fail
    end)
  end.

(** [json.loads(s)]: one term, with nothing but white space around.
    The scanner is given more fuel than the text has characters,
    which is as good as any larger amount. *)
Definition json_loads (s : text) : res value :=
  let s := skip_whitespace s in
  match scan_once (S (List.length s)) s with
  | Parsed obj rest =>
      match skip_whitespace rest with
      | [] => Ok obj
      | _ :: _ => Raise JSONDecodeError
      end
  | _ => Raise JSONDecodeError
  end.

(** ** The scripts, from file to output *)

(** What a script can see and change: the files, by path, and what
    has been written to the standard output. *)
Record world : Type := {
  files : string -> option (list Byte.byte);
  stdout : list text
}.

Definition IO (A : Type) : Type := world -> world * res A.

Definition io_ret {A} (a : A) : IO A := fun w => (w, Ok a).

Definition io_bind {A B} (m : IO A) (k : A -> IO B) : IO B :=
  fun w =>
    match m w with
    | (w', Ok a) => k a w'
    | (w', Raise e) => (w', Raise e)
    end.

(** [Path(path).read_text(encoding=..., errors=...)]. *)
Definition read_text (path : string) (enc : encoding)
    (errors : error_handler) : IO text :=
  fun w =>
    match files w path with
    | None => (w, Raise FileNotFoundError)
    | Some bytes =>
        (w, res_bind (decode enc errors (map Byte.to_N bytes))
              (fun t => Ok (universal_newlines t)))
    end.

Definition loads (s : text) : IO value := fun w => (w, json_loads s).

(** Running the part that prints: its lines go to the standard
    output. *)
Definition run {A} (m : W A) : IO A :=
  fun w => ({| files := files w; stdout := stdout w ++ fst m |}, snd m).

Declare Scope IO_scope.
Delimit Scope IO_scope with IO.
Notation "x <- m ;; k" := (io_bind m (fun x => k))
  (at level 61, m at next level, right associativity) : IO_scope.

Definition check_full : IO unit :=
  (text <- read_text "vitest-results.json" utf_8 ignore ;;
   j <- loads text ;;
   run (CheckFull.main j))%IO.

Definition failed_details : IO unit :=
  (text <- read_text "vitest-results.json" utf_8 ignore ;;
   j <- loads text ;;
   run (FailedDetails.main j))%IO.

Definition temp_decode : IO unit :=
  (text <- read_text "vitest-results.json" utf_16_le ignore ;;
   data <- loads text ;;
   run (TempDecode.main data))%IO.

Definition vitest_report_summary : IO unit :=
  (text <- read_text "vitest-results-clean.json" utf_8_sig strict ;;
   data <- loads text ;;
   run (VitestReportSummary.main data))%IO.

(** A world with one file and nothing printed yet. *)
Definition one_file (path : string) (bytes : list Byte.byte) : world :=
  {| files := fun p => if String.eqb p path then Some bytes else None;
     stdout := [] |}.

(** What a script prints, and how it ends, when the file at [path]
    holds [bytes]. *)
Definition output_on (path : string) (bytes : list Byte.byte)
    (script : IO unit) : list text * res unit :=
  let (w, r) := script (one_file path bytes) in (stdout w, r).

(** ** The report, as the specification describes it *)

(** A report has eight counters and a sequence of suites; a suite has
    a name, a status and a sequence of assertions; an assertion has a
    full name, a status and, when it failed, failure messages. *)

Definition is_str (v : value) : bool :=
  match v with JStr _ => true | _ => false end.

Definition is_int (v : value) : bool :=
  match v with JInt _ => true | _ => false end.

Definition has (d : list (text * value)) (k : string) (p : value -> bool)
  : bool :=
  match dict_get (lit k) d with
  | Some v => p v
  | None => false
  end.

Definition wf_assertion (a : value) : bool :=
  match a with
  | JDict d =>
      has d "fullName" is_str && has d "status" is_str
      && match dict_get (lit "failureMessages") d with
         | None => true
         | Some (JList l) => forallb is_str l
         | Some _ => false
         end
  | _ => false
  end.

Definition wf_suite (s : value) : bool :=
  match s with
  | JDict d =>
      has d "name" is_str && has d "status" is_str
      && match dict_get (lit "assertionResults") d with
         | Some (JList l) => forallb wf_assertion l
         | _ => false
         end
  | _ => false
  end.

Definition wf_report (data : value) : bool :=
  match data with
  | JDict d =>
      has d "numTotalTests" is_int && has d "numPassedTests" is_int
      && has d "numFailedTests" is_int && has d "numPendingTests" is_int
      && has d "numTotalTestSuites" is_int
      && has d "numPassedTestSuites" is_int
      && has d "numFailedTestSuites" is_int
      && has d "numPendingTestSuites" is_int
      && match dict_get (lit "testResults") d with
         | Some (JList l) => forallb wf_suite l
         | _ => false
         end
  | _ => false
  end.

(** The fields of a document, with an empty value where a field is
    absent or of another type. *)
Definition field (k : string) (v : value) : option value :=
  match v with
  | JDict d => dict_get (lit k) d
  | _ => None
  end.

Definition text_field (k : string) (v : value) : text :=
  match field k v with
  | Some (JStr s) => s
  | _ => []
  end.

Definition counter (k : string) (v : value) : Z :=
  match field k v with
  | Some (JInt z) => z
  | _ => 0%Z
  end.

Definition list_field (k : string) (v : value) : list value :=
  match field k v with
  | Some (JList l) => l
  | _ => []
  end.

Definition suites_of (data : value) : list value :=
  list_field "testResults" data.

Definition assertions_of (suite : value) : list value :=
  list_field "assertionResults" suite.

Fixpoint texts_of (l : list value) : list text :=
  match l with
  | [] => []
  | JStr s :: l' => s :: texts_of l'
  | _ :: l' => texts_of l'
  end.

Definition messages_of (a : value) : list text :=
  texts_of (list_field "failureMessages" a).

(** An assertion with failed status. *)
Definition is_failed (a : value) : bool :=
  match field "status" a with
  | Some st => eq_str st (lit "failed")
  | None => false
  end.

Definition failed_of (suite : value) : list value :=
  filter is_failed (assertions_of suite).

(** The sum, over all suites, of the number of assertions with failed
    status. *)
Definition failed_total (data : value) : nat :=
  list_sum (map (fun suite => List.length (failed_of suite))
                (suites_of data)).

(** The first line of the first failure message of an assertion, and
    the empty string when it has none. *)
Definition first_message_line (a : value) : text :=
  match messages_of a with
  | [] => []
  | m :: _ => first_line_of m
  end.

(** What [failed_details.py] is to print for one suite. *)
Definition details_of (suite : value) : list text :=
  match failed_of suite with
  | [] => []
  | fails =>
      (NL :: text_field "name" suite)
      :: flat_map (fun a => [lit "- " ++ text_field "fullName" a;
                             lit "   " ++ first_message_line a]) fails
  end.

(** What [vitest-report-summary.py] prints for one failed assertion. *)
Definition summary_failure_line (a : value) : text :=
  lit "- " ++ text_field "fullName" a ++ lit ": "
  ++ match join [NL] (messages_of a) with
     | [] => lit "No message"
     | _ :: _ => first_message_line a
     end.

(** The first suite whose name contains [needle]. *)
Definition named_suite (needle : text) (data : value) : option value :=
  find (fun suite => contains needle (text_field "name" suite))
       (suites_of data).

Definition counters_text (title : text) (a b c d : Z) : text :=
  title ++ lit " " ++ dec a ++ lit " PASS " ++ dec b
  ++ lit " FAIL " ++ dec c ++ lit " SKIPPED " ++ dec d.

(** What [vitest-report-summary.py] prints before its list of
    failures: the counters, the failure count and the status of the
    named suite. *)
Definition summary_head (data : value) : list text :=
  [counters_text (lit "TOTAL SUITES")
     (counter "numTotalTestSuites" data) (counter "numPassedTestSuites" data)
     (counter "numFailedTestSuites" data)
     (counter "numPendingTestSuites" data);
   counters_text (lit "TOTAL TESTS")
     (counter "numTotalTests" data) (counter "numPassedTests" data)
     (counter "numFailedTests" data) (counter "numPendingTests" data);
   lit "FAILURE COUNT " ++ dec (Z.of_nat (failed_total data));
   lit "E2E FILE STATUS:"]
  ++ match named_suite VitestReportSummary.e2e_name data with
     | Some suite =>
         [lit "   " ++ text_field "name" suite ++ lit " "
          ++ text_field "status" suite]
     | None => []
     end.

(** The whole output of [vitest-report-summary.py]. *)
Definition summary_of (data : value) : list text :=
  summary_head data
  ++ (NL :: lit "FAILURES:")
  :: map summary_failure_line (flat_map failed_of (suites_of data)).

(** The record [vitest-report-summary.py] keeps of a failed assertion
    of a suite, and the list of all of them: the extracted failure
    list. *)
Definition failure_of (suite a : value) : value :=
  VitestReportSummary.failure_record
    (JStr (text_field "name" suite)) (JStr (text_field "fullName" a))
    (join [NL] (messages_of a)).


(** ** Sample files *)

(** The bytes of an ASCII text in which an apostrophe stands for a
    double quote. *)
Definition quoted (s : string) : list Byte.byte :=
  map (fun b => match b with Byte.x27 => Byte.x22 | _ => b end)
      (list_byte_of_string s).

(** The lines of an output, for reading. *)
Definition shown (out : list text * res unit) : list string * res unit :=
  (map (fun t => string_of_list_ascii (map ascii_of_N t)) (fst out), snd out).

(** The object a well-encoded file holds. *)
Definition loaded (bytes : list Byte.byte) : value :=
  match res_bind (decode utf_8 strict (map Byte.to_N bytes)) json_loads with
  | Ok v => v
  | Raise _ => JNull
  end.

Definition entries (v : value) : list (text * value) :=
  match v with
  | JDict d => d
  | _ => []
  end.

(** A report of two suites: the end-to-end suite, which passed, and a
    suite with two failed assertions, one of them without a message. *)
Definition sample_report : list Byte.byte :=
  quoted "{'numTotalTestSuites': 2, 'numPassedTestSuites': 1,
 'numFailedTestSuites': 1, 'numPendingTestSuites': 0,
 'numTotalTests': 3, 'numPassedTests': 1, 'numFailedTests': 2,
 'numPendingTests': 0,
 'testResults': [
  {'name': 'a/b/e2e-quality-orchestration.test.ts', 'status': 'passed',
   'assertionResults': [
     {'fullName': 'runs the pipeline', 'status': 'passed',
      'failureMessages': []}]},
  {'name': 'src/team.test.ts', 'status': 'failed',
   'assertionResults': [
     {'fullName': 'assigns a lead', 'status': 'failed',
      'failureMessages': ['AssertionError: expected 1 to be 2\n    at team.test.ts:10']},
     {'fullName': 'times out', 'status': 'failed',
      'failureMessages': []}]}]}".

(** A report with one suite, the end-to-end suite, which passed. *)
Definition e2e_report : list Byte.byte :=
  quoted "{'numTotalTestSuites': 1, 'numPassedTestSuites': 1,
 'numFailedTestSuites': 0, 'numPendingTestSuites': 0,
 'numTotalTests': 0, 'numPassedTests': 0, 'numFailedTests': 0,
 'numPendingTests': 0,
 'testResults': [
  {'name': 'a/b/e2e-quality-orchestration.test.ts', 'status': 'passed',
   'assertionResults': []}]}".

(** A report whose failed suite has no [assertionResults]. *)
Definition report_without_assertions : list Byte.byte :=
  quoted "{'numTotalTests': 1, 'numPassedTests': 0, 'numFailedTests': 1,
 'numFailedTestSuites': 1,
 'testResults': [{'name': 'src/team.test.ts', 'status': 'failed'}]}".

(** A report without the counters of the tests. *)
Definition report_without_totals : list Byte.byte :=
  quoted "{'numTotalTestSuites': 0, 'numPassedTestSuites': 0,
 'numFailedTestSuites': 0, 'numPendingTestSuites': 0, 'testResults': []}".

(** A report with all its counters, whose suite has no
    [assertionResults]. *)
Definition report_with_bare_suite : list Byte.byte :=
  quoted "{'numTotalTestSuites': 1, 'numPassedTestSuites': 0,
 'numFailedTestSuites': 1, 'numPendingTestSuites': 0,
 'numTotalTests': 1, 'numPassedTests': 0, 'numFailedTests': 1,
 'numPendingTests': 0,
 'testResults': [{'name': 'src/team.test.ts', 'status': 'failed'}]}".

(** A report with all its counters and no [testResults]. *)
Definition report_without_results : list Byte.byte :=
  quoted "{'numTotalTestSuites': 0, 'numPassedTestSuites': 0,
 'numFailedTestSuites': 0, 'numPendingTestSuites': 0,
 'numTotalTests': 0, 'numPassedTests': 0, 'numFailedTests': 0,
 'numPendingTests': 0}".

(** ** Effects *)

(** A computation that leaves every file as it was. *)
Definition preserves_files {A} (m : IO A) : Prop :=
  forall w, files (fst (m w)) = files w.




(** A report in UTF-8 but for one name, written in Latin-1: the byte
    [E9] before a dot is no UTF-8. *)
Definition latin1_report : list Byte.byte :=
  quoted "{'numTotalTests': 1, 'numPassedTests': 0, 'numFailedTests': 1,
 'numFailedTestSuites': 1,
 'testResults': [{'name': 'src/caf"
  ++ [Byte.xe9]
  ++ quoted ".test.ts', 'status': 'failed',
   'assertionResults': [{'fullName': 'orders', 'status': 'failed'}]}]}".

(** The UTF-16 encoding, little-endian, of ASCII bytes. *)
Definition utf16_le_bytes (s : list Byte.byte) : list Byte.byte :=
  flat_map (fun b => [b; Byte.x00]) s.

(** A report in UTF-16 with one byte too many at its end. *)
Definition truncated_utf16_report : list Byte.byte :=
  utf16_le_bytes (quoted "{'numFailedTests': 3}") ++ [Byte.x0a].

(** ** Serialising the failure list *)

(** The repository has no code that writes the failure list back.
    The round trip of the specification is taken with [json.dumps],
    with its default arguments, as the serialiser and [json.loads] as
    the reader. *)











(** A text the scanner reads as the value [v], whatever follows. *)
Definition reads_as (v : value) (item : text) : Prop :=
  (forall k tail,
     scan_once (S (S (S (S (S k))))) (item ++ tail) = Parsed v tail)
  /\ (exists item', item = ch "{" :: item')
  /\ (6 <= List.length item)%nat.

(** ** What the other scripts print *)

(** The first line of [check_full.py]. *)
Definition totals_text (data : value) : text :=
  lit "total=" ++ dec (counter "numTotalTests" data)
  ++ lit " passed=" ++ dec (counter "numPassedTests" data)
  ++ lit " failed=" ++ dec (counter "numFailedTests" data)
  ++ lit " failedSuites=" ++ dec (counter "numFailedTestSuites" data).

(** The suites with failed status, in the order of the report. *)
Definition failed_suites (data : value) : list value :=
  filter is_failed (suites_of data).

(** The line of a suite in [check_full.py]: its name and the number
    of its assertions with failed status. *)
Definition suite_count_line (suite : value) : text :=
  text_field "name" suite ++ lit " :: "
  ++ dec (Z.of_nat (List.length (failed_of suite))).

(** The whole output of [check_full.py]. *)
Definition check_full_of (data : value) : list text :=
  totals_text data :: map suite_count_line (failed_suites data).


(** ** Files of bytes below 128 *)

Definition is_ascii (bytes : list Byte.byte) : bool :=
  forallb (fun b => (Byte.to_N b <? 128)%N) bytes.

Definition no_nul (bytes : list Byte.byte) : bool :=
  forallb (fun b => negb (Byte.to_N b =? 0)%N) bytes.

Definition is_blank (bytes : list Byte.byte) : bool :=
  forallb (fun b => is_whitespace (Byte.to_N b)) bytes.

(** A document that is an object. *)
Definition is_dict (v : value) : bool :=
  match v with JDict _ => true | _ => false end.

(** The eight counters of a report are there and are integers. *)
Definition has_counters (d : list (text * value)) : bool :=
  has d "numTotalTests" is_int && has d "numPassedTests" is_int
  && has d "numFailedTests" is_int && has d "numPendingTests" is_int
  && has d "numTotalTestSuites" is_int && has d "numPassedTestSuites" is_int
  && has d "numFailedTestSuites" is_int
  && has d "numPendingTestSuites" is_int.

(** ** Line endings *)

(** The same file with the line endings of Windows: a carriage return
    before every line feed. *)
Definition crlf (bytes : list Byte.byte) : list Byte.byte :=
  flat_map (fun b => if (Byte.to_N b =? 10)%N then [Byte.x0d; Byte.x0a]
                     else [b]) bytes.

(** A text without carriage returns. *)
Definition no_cr (t : text) : bool :=
  forallb (fun c => negb (c =? 13)%N) t.

(** ** The fields a script reads *)

(** Two objects hold the same value, or both nothing, at each of the
    keys. *)
Definition agree_on (keys : list string) (d1 d2 : list (text * value))
  : Prop :=
  forall k, In k keys -> dict_get (lit k) d1 = dict_get (lit k) d2.

(** ** Results of the scanner *)

(** The same result, with the text that is left turned into
    another. *)
Definition on_rest {A} (f : text -> text) (p : parsed A) : parsed A :=
  match p with
  | Parsed a rest => Parsed a (f rest)
  | Fail => Fail
  | OutOfFuel => OutOfFuel
  end.

(** ** Bytes that are dropped *)

(** [kept_of kept bytes]: [kept] is what is left of [bytes] when
    some of them are dropped; the others stay, in their order. *)
Inductive kept_of {A : Type} : list A -> list A -> Prop :=
| kept_nil : kept_of [] []
| kept_keep (x : A) (l1 l2 : list A) :
    kept_of l1 l2 -> kept_of (x :: l1) (x :: l2)
| kept_drop (x : A) (l1 l2 : list A) :
    kept_of l1 l2 -> kept_of l1 (x :: l2).

(** * Properties *)

Ltac Zify.zify_post_hook ::= Z.to_euclidean_division_equations.

(** ** Text *)

Lemma text_eqb_eq (a b : text) : text_eqb a b = true <-> a = b.
Proof.
  revert b; induction a as [|x a IH]; intros [|y b]; simpl;
    try (split; intro H; [discriminate || reflexivity | discriminate || reflexivity]).
  rewrite andb_true_iff, N.eqb_eq, IH.
  split; [intros [-> ->]; reflexivity | intros [= -> ->]; auto].
Qed.

Lemma text_eqb_refl (a : text) : text_eqb a a = true.
Proof. apply text_eqb_eq; reflexivity. Qed.

Lemma prefixb_app (p s : text) : prefixb p (p ++ s) = true.
Proof. induction p; simpl; [reflexivity | now rewrite N.eqb_refl]. Qed.

Lemma prefixb_true (p s : text) :
  prefixb p s = true -> exists after, s = p ++ after.
Proof.
  revert s; induction p as [|x p IH]; intros s H; simpl in *.
  - now exists s.
  - destruct s as [|y s]; [discriminate|].
    apply andb_true_iff in H as [Hx Hp]. apply N.eqb_eq in Hx as ->.
    destruct (IH _ Hp) as [after ->]. now exists after.
Qed.

Lemma contains_prefix (p s : text) : prefixb p s = true -> contains p s = true.
Proof. intros H. destruct s; simpl; rewrite H; reflexivity. Qed.

(** [needle in hay] decides the substring relation. *)
Lemma contains_substring (needle hay : text) :
  contains needle hay = true <-> substring needle hay.
Proof.
  split.
  - induction hay as [|c hay IH]; simpl; rewrite orb_true_iff.
    + intros [H|H]; [|discriminate].
      destruct (prefixb_true _ _ H) as [after E]. now exists [], after.
    + intros [H|H].
      * destruct (prefixb_true _ _ H) as [after E]. now exists [], after.
      * destruct (IH H) as (before & after & ->). now exists (c :: before), after.
  - intros (before & after & ->).
    induction before as [|c before IH].
    + simpl app. apply contains_prefix, prefixb_app.
    + simpl. rewrite IH. apply orb_true_r.
Qed.

Lemma substring_here (before needle after : text) :
  substring needle (before ++ needle ++ after).
Proof. now exists before, after. Qed.

(** ** Printing *)

Lemma bind_lift_ok {A B} (a : A) (k : A -> W B) : bind (lift (Ok a)) k = k a.
Proof. unfold bind, lift. destruct (k a). reflexivity. Qed.

Lemma bind_lift_raise {A B} (e : exn) (k : A -> W B) :
  bind (lift (Raise e)) k = ([], Raise e).
Proof. reflexivity. Qed.

Lemma bind_print {B} (line : text) (k : unit -> W B) :
  bind (print line) k = (line :: fst (k tt), snd (k tt)).
Proof. unfold bind, print. destruct (k tt). reflexivity. Qed.

Lemma bind_out {A B} (out : list text) (a : A) (k : A -> W B) :
  bind (out, Ok a) k = (out ++ fst (k a), snd (k a)).
Proof. unfold bind. destruct (k a). reflexivity. Qed.

Lemma bind_ret {A B} (a : A) (k : A -> W B) : bind (ret a) k = k a.
Proof. unfold bind, ret. destruct (k a). reflexivity. Qed.

Lemma for_each_app {A} (l1 l2 : list A) (body : A -> W unit) :
  for_each (l1 ++ l2) body = (for_each l1 body ;;; for_each l2 body).
Proof.
  induction l1 as [|x l1 IH]; simpl.
  - unfold bind, ret. destruct (for_each l2 body). reflexivity.
  - rewrite IH. unfold bind.
    destruct (body x) as [o1 [[]|e1]]; [|reflexivity].
    destruct (for_each l1 body) as [o2 [[]|e2]]; [|reflexivity].
    destruct (for_each l2 body) as [o3 r3]. now rewrite app_assoc.
Qed.

(** ** Well-formed reports *)

Arguments lit : simpl never.
Arguments dec : simpl never.

Lemma has_inv d k p :
  has d k p = true -> exists v, dict_get (lit k) d = Some v /\ p v = true.
Proof.
  unfold has. destruct (dict_get (lit k) d) as [v|]; [|discriminate].
  intros H. now exists v.
Qed.

Lemma is_str_inv v : is_str v = true -> exists s, v = JStr s.
Proof. destruct v; try discriminate. intros _. now eexists. Qed.

Lemma is_int_inv v : is_int v = true -> exists z, v = JInt z.
Proof. destruct v; try discriminate. intros _. now eexists. Qed.

Lemma has_str d k :
  has d k is_str = true -> exists s, dict_get (lit k) d = Some (JStr s).
Proof.
  intros H. destruct (has_inv _ _ _ H) as (v & Hv & Hs).
  destruct (is_str_inv _ Hs) as [s ->]. now exists s.
Qed.

Lemma has_int d k :
  has d k is_int = true -> exists z, dict_get (lit k) d = Some (JInt z).
Proof.
  intros H. destruct (has_inv _ _ _ H) as (v & Hv & Hs).
  destruct (is_int_inv _ Hs) as [z ->]. now exists z.
Qed.

Lemma strings_of_texts l :
  forallb is_str l = true -> strings_of l = Ok (texts_of l).
Proof.
  induction l as [|v l IH]; simpl; [reflexivity|].
  rewrite andb_true_iff. intros [Hv Hl].
  destruct (is_str_inv _ Hv) as [s ->]. now rewrite (IH Hl).
Qed.

Lemma wf_assertion_inv a :
  wf_assertion a = true ->
  exists d fullName status,
    a = JDict d
    /\ dict_get (lit "fullName") d = Some (JStr fullName)
    /\ dict_get (lit "status") d = Some (JStr status)
    /\ (dict_get (lit "failureMessages") d = None
        \/ exists l, dict_get (lit "failureMessages") d = Some (JList l)
                     /\ forallb is_str l = true).
Proof.
  destruct a as [| | | | |l|d]; try discriminate. unfold wf_assertion.
  rewrite !andb_true_iff. intros [[Hn Hs] Hm].
  destruct (has_str _ _ Hn) as [fullName Hn'].
  destruct (has_str _ _ Hs) as [status Hs'].
  exists d, fullName, status. repeat split; auto.
  destruct (dict_get (lit "failureMessages") d) as [[| | | | |l|]|];
    try discriminate; [right; now exists l | now left].
Qed.

Lemma wf_suite_inv s :
  wf_suite s = true ->
  exists d name status l,
    s = JDict d
    /\ dict_get (lit "name") d = Some (JStr name)
    /\ dict_get (lit "status") d = Some (JStr status)
    /\ dict_get (lit "assertionResults") d = Some (JList l)
    /\ forallb wf_assertion l = true.
Proof.
  destruct s as [| | | | |l|d]; try discriminate. unfold wf_suite.
  rewrite !andb_true_iff. intros [[Hn Hs] Hm].
  destruct (has_str _ _ Hn) as [name Hn'].
  destruct (has_str _ _ Hs) as [status Hs'].
  destruct (dict_get (lit "assertionResults") d) as [[| | | | |l|]|] eqn:E;
    try discriminate.
  exists d, name, status, l. repeat split; auto.
Qed.

(** ** The first line of a message *)

Lemma split_on_head (s : text) :
  exists rest, split_on NL s = first_line_of s :: rest.
Proof.
  induction s as [|c s [rest IH]]; simpl.
  - now exists [].
  - destruct (c =? NL)%N; [now eexists|]. rewrite IH. now eexists.
Qed.

Lemma split_on_1_head (s : text) :
  exists rest, split_on_1 NL s = first_line_of s :: rest.
Proof.
  induction s as [|c s [rest IH]]; simpl.
  - now exists [].
  - destruct (c =? NL)%N; [now eexists|]. rewrite IH. now eexists.
Qed.

Lemma first_line_of_app_nl (m rest : text) :
  first_line_of (m ++ NL :: rest) = first_line_of m.
Proof.
  induction m as [|c m IH]; simpl.
  - reflexivity.
  - destruct (c =? NL)%N; [reflexivity | now rewrite IH].
Qed.

Lemma first_line_of_join (m : text) (ms : list text) :
  first_line_of (join [NL] (m :: ms)) = first_line_of m.
Proof.
  destruct ms as [|m' ms]; [reflexivity|].
  change (join [NL] (m :: m' :: ms)) with (m ++ NL :: join [NL] (m' :: ms)).
  apply first_line_of_app_nl.
Qed.

(** ** vitest-report-summary.py on a well-formed report *)

Section Summary.
Import VitestReportSummary.

Lemma collect_assertion_wf name acc a :
  wf_assertion a = true ->
  collect_assertion (JStr name) acc a
  = Ok (acc ++ if is_failed a
               then [failure_record (JStr name)
                       (JStr (text_field "fullName" a))
                       (join [NL] (messages_of a))]
               else []).
Proof.
  intros H. destruct (wf_assertion_inv _ H)
    as (d & fullName & status & -> & Hn & Hs & Hm).
  unfold collect_assertion, is_failed, text_field, messages_of, list_field,
    field, subscript, get_default.
  rewrite Hs, Hn. cbn [res_bind].
  destruct (eq_str (JStr status) (lit "failed")); [|now rewrite app_nil_r].
  destruct Hm as [-> | (l & -> & Hl)].
  - reflexivity.
  - unfold join_lines. cbn [iter res_bind].
    rewrite (strings_of_texts _ Hl). reflexivity.
Qed.

Lemma for_acc_collect name l acc :
  forallb wf_assertion l = true ->
  for_acc l (collect_assertion (JStr name)) acc
  = Ok (acc ++ map (fun a => failure_record (JStr name)
                               (JStr (text_field "fullName" a))
                               (join [NL] (messages_of a)))
                   (filter is_failed l)).
Proof.
  revert acc; induction l as [|a l IH]; intros acc; simpl.
  - intros _. now rewrite app_nil_r.
  - rewrite andb_true_iff. intros [Ha Hl].
    rewrite (collect_assertion_wf _ _ _ Ha). cbn [res_bind].
    rewrite (IH _ Hl). destruct (is_failed a); simpl.
    + now rewrite <- app_assoc.
    + now rewrite app_nil_r.
Qed.

Lemma collect_suite_wf acc suite :
  wf_suite suite = true ->
  collect_suite acc suite
  = Ok (acc ++ map (failure_of suite) (failed_of suite)).
Proof.
  intros H. destruct (wf_suite_inv _ H)
    as (d & name & status & l & -> & Hn & Hs & Hl & Hwf).
  unfold collect_suite, failure_of, failed_of, assertions_of, list_field,
    text_field, field, subscript.
  rewrite Hn, Hl. cbn [res_bind iter].
  apply for_acc_collect, Hwf.
Qed.

Lemma collect_wf suites acc :
  forallb wf_suite suites = true ->
  for_acc suites collect_suite acc
  = Ok (acc ++ flat_map (fun suite => map (failure_of suite)
                                          (failed_of suite)) suites).
Proof.
  revert acc; induction suites as [|s suites IH]; intros acc; simpl.
  - intros _. now rewrite app_nil_r.
  - rewrite andb_true_iff. intros [Hs Hl].
    rewrite (collect_suite_wf _ _ Hs). cbn [res_bind].
    rewrite (IH _ Hl). now rewrite <- app_assoc.
Qed.

Lemma length_failures suites :
  List.length (flat_map (fun suite => map (failure_of suite)
                                          (failed_of suite)) suites)
  = list_sum (map (fun suite => List.length (failed_of suite)) suites).
Proof.
  induction suites as [|s suites IH]; simpl; [reflexivity|].
  now rewrite length_app, length_map, IH.
Qed.

Lemma failure_line_of suite a :
  failure_line (failure_of suite a) = ([summary_failure_line a], Ok tt).
Proof.
  unfold failure_line, failure_of, summary_failure_line.
  change (subscript (failure_record ?n ?f ?m) (lit "message"))
    with (Ok (JStr m)).
  change (subscript (failure_record ?n ?f ?m) (lit "fullName"))
    with (Ok f).
  rewrite bind_lift_ok. unfold truth, first_message_line.
  destruct (messages_of a) as [|m ms] eqn:E.
  - reflexivity.
  - destruct (join [NL] (m :: ms)) as [|c msg] eqn:J.
    + reflexivity.
    + rewrite bind_lift_ok. unfold split1. cbn [res_bind].
      destruct (split_on_1_head (c :: msg)) as [rest ->].
      rewrite <- J, first_line_of_join. reflexivity.
Qed.

Lemma failure_lines_of suite l :
  for_each (map (failure_of suite) l) failure_line
  = (map summary_failure_line l, Ok tt).
Proof.
  induction l as [|a l IH]; simpl; [reflexivity|].
  rewrite failure_line_of, IH. reflexivity.
Qed.

Lemma all_failure_lines suites :
  for_each (flat_map (fun suite => map (failure_of suite)
                                       (failed_of suite)) suites)
           failure_line
  = (map summary_failure_line (flat_map failed_of suites), Ok tt).
Proof.
  induction suites as [|s suites IH]; simpl; [reflexivity|].
  rewrite for_each_app, failure_lines_of, IH, map_app. reflexivity.
Qed.

Lemma e2e_file_status_wf suites :
  forallb wf_suite suites = true ->
  e2e_file_status suites
  = (match find (fun suite => contains e2e_name (text_field "name" suite))
                suites with
     | Some suite => [lit "   " ++ text_field "name" suite ++ lit " "
                      ++ text_field "status" suite]
     | None => []
     end, Ok tt).
Proof.
  induction suites as [|s suites IH]; [reflexivity|].
  cbn [forallb e2e_file_status find].
  rewrite andb_true_iff. intros [Hs Hl].
  destruct (wf_suite_inv _ Hs)
    as (d & name & status & l & -> & Hn & Hst & _).
  assert (Tn : text_field "name" (JDict d) = name)
    by (unfold text_field, field; now rewrite Hn).
  assert (Ts : text_field "status" (JDict d) = status)
    by (unfold text_field, field; now rewrite Hst).
  rewrite Tn. unfold subscript. rewrite Hn, Hst.
  rewrite bind_lift_ok. unfold py_in. rewrite bind_lift_ok.
  destruct (contains e2e_name name).
  - rewrite !bind_lift_ok. unfold str. rewrite !bind_lift_ok.
    now rewrite Tn, Ts.
  - apply IH, Hl.
Qed.

Lemma counters_line_wf d title k1 k2 k3 k4 :
  has d k1 is_int = true -> has d k2 is_int = true ->
  has d k3 is_int = true -> has d k4 is_int = true ->
  counters_line (JDict d) title (lit k1) (lit k2) (lit k3) (lit k4)
  = ([counters_text title (counter k1 (JDict d)) (counter k2 (JDict d))
        (counter k3 (JDict d)) (counter k4 (JDict d))], Ok tt).
Proof.
  intros H1 H2 H3 H4.
  destruct (has_int _ _ H1) as [z1 E1]. destruct (has_int _ _ H2) as [z2 E2].
  destruct (has_int _ _ H3) as [z3 E3]. destruct (has_int _ _ H4) as [z4 E4].
  unfold counters_line, counter, field, subscript.
  rewrite E1, E2, E3, E4. reflexivity.
Qed.

(** On a well-formed report the script ends normally and prints
    [summary_of]. *)
Lemma main_wf data :
  wf_report data = true -> main data = (summary_of data, Ok tt).
Proof.
  destruct data as [| | | | |l|d]; try discriminate. unfold wf_report.
  rewrite !andb_true_iff.
  intros [[[[[[[[H1 H2] H3] H4] H5] H6] H7] H8] H9].
  destruct (dict_get (lit "testResults") d) as [[| | | | |suites|]|] eqn:E;
    try discriminate.
  unfold main, summary_of, summary_head, named_suite, failed_total, suites_of, list_field,
    field.
  rewrite !counters_line_wf by assumption.
  unfold get_default. rewrite E.
  rewrite !bind_out. cbv beta. rewrite !bind_lift_ok. cbn [iter].
  rewrite !bind_lift_ok, (collect_wf _ _ H9), !bind_lift_ok.
  rewrite !bind_print, ?bind_lift_ok. cbn [iter].
  cbn [app]. rewrite ?bind_lift_ok, length_failures, (e2e_file_status_wf _ H9).
  rewrite !bind_out. cbv beta. rewrite ?bind_print, all_failure_lines.
  cbn [fst snd app]. reflexivity.
Qed.

End Summary.

(** ** The failed assertions of a suite *)

Lemma filter_res_failed l :
  forallb wf_assertion l = true ->
  filter_res (fun a =>
      res_bind (get a (lit "status"))
               (fun st => Ok (eq_str st (lit "failed")))) l
  = Ok (filter is_failed l).
Proof.
  induction l as [|a l IH]; [reflexivity|].
  cbn [forallb filter_res filter].
  rewrite andb_true_iff. intros [Ha Hl].
  destruct (wf_assertion_inv _ Ha) as (d & fullName & status & -> & _ & Hs & _).
  assert (Hf : is_failed (JDict d) = eq_str (JStr status) (lit "failed"))
    by (unfold is_failed, field; now rewrite Hs).
  assert (Hg : get (JDict d) (lit "status") = Ok (JStr status))
    by (unfold get; now rewrite Hs).
  rewrite Hg, Hf. cbn [res_bind].
  rewrite (IH Hl). reflexivity.
Qed.

Lemma failed_assertions_wf suite :
  wf_suite suite = true -> failed_assertions suite = Ok (failed_of suite).
Proof.
  intros H. destruct (wf_suite_inv _ H)
    as (d & name & status & l & -> & _ & _ & Hl & Hwf).
  unfold failed_assertions, failed_of, assertions_of, list_field, field,
    get_default.
  rewrite Hl. cbn [res_bind iter]. apply filter_res_failed, Hwf.
Qed.

Lemma failed_of_wf suite :
  wf_suite suite = true -> forallb wf_assertion (failed_of suite) = true.
Proof.
  intros H. destruct (wf_suite_inv _ H)
    as (d & name & status & l & -> & _ & _ & Hl & Hwf).
  unfold failed_of, assertions_of, list_field, field. rewrite Hl.
  rewrite forallb_forall in *. intros a Ha.
  apply filter_In in Ha as [Ha _]. now apply Hwf.
Qed.

(** ** failed_details.py on a well-formed report *)

Section Details.
Import FailedDetails.

Lemma assertion_lines_wf a :
  wf_assertion a = true ->
  assertion_lines a
  = ([lit "- " ++ text_field "fullName" a;
      lit "   " ++ first_message_line a], Ok tt).
Proof.
  intros H. destruct (wf_assertion_inv _ H)
    as (d & fullName & status & -> & Hn & Hs & Hm).
  unfold assertion_lines, first_message_line, messages_of, list_field,
    text_field, field, get, subscript.
  rewrite Hn.
  destruct Hm as [-> | (l & -> & Hl)]; cbn [res_bind truth].
  - reflexivity.
  - destruct l as [|m l]; [reflexivity|].
    cbn [forallb] in Hl. apply andb_true_iff in Hl as [Hm _].
    destruct (is_str_inv _ Hm) as [s ->].
    cbn [index0 res_bind split texts_of].
    destruct (split_on_head s) as [rest ->]. reflexivity.
Qed.

Lemma for_each_assertion_lines l :
  forallb wf_assertion l = true ->
  for_each l assertion_lines
  = (flat_map (fun a => [lit "- " ++ text_field "fullName" a;
                         lit "   " ++ first_message_line a]) l, Ok tt).
Proof.
  induction l as [|a l IH]; [reflexivity|].
  cbn [forallb for_each flat_map]. rewrite andb_true_iff. intros [Ha Hl].
  rewrite (assertion_lines_wf _ Ha), (IH Hl). reflexivity.
Qed.

Lemma suite_block_wf suite :
  wf_suite suite = true -> suite_block suite = (details_of suite, Ok tt).
Proof.
  intros H. unfold suite_block, details_of.
  rewrite (failed_assertions_wf _ H), bind_lift_ok.
  pose proof (failed_of_wf _ H) as Hf.
  destruct (failed_of suite) as [|a fails]; [reflexivity|].
  destruct (wf_suite_inv _ H) as (d & name & status & l & -> & Hn & _).
  unfold text_field, field, subscript. rewrite Hn.
  rewrite bind_lift_ok. unfold concat_after.
  rewrite bind_lift_ok, bind_print, (for_each_assertion_lines _ Hf).
  reflexivity.
Qed.

Lemma for_each_suite_block suites :
  forallb wf_suite suites = true ->
  for_each suites suite_block = (flat_map details_of suites, Ok tt).
Proof.
  induction suites as [|s suites IH]; [reflexivity|].
  cbn [forallb for_each flat_map]. rewrite andb_true_iff. intros [Hs Hl].
  rewrite (suite_block_wf _ Hs), (IH Hl). reflexivity.
Qed.

Lemma details_main_wf data :
  wf_report data = true ->
  main data = (flat_map details_of (suites_of data), Ok tt).
Proof.
  destruct data as [| | | | |l|d]; try discriminate. unfold wf_report.
  rewrite !andb_true_iff. intros [_ H].
  destruct (dict_get (lit "testResults") d) as [[| | | | |suites|]|] eqn:E;
    try discriminate.
  unfold main, suites_of, list_field, field, subscript. rewrite E.
  rewrite bind_lift_ok. cbn [iter]. rewrite bind_lift_ok.
  apply for_each_suite_block, H.
Qed.

End Details.

(** ** The failure count *)

(** C2. On a well-formed report [vitest-report-summary.py] ends
    normally and its third line is [FAILURE COUNT n], where [n] is the
    sum over all suites of the number of assertions whose status is
    failed; the status of a suite and the counter [numFailedTests]
    play no part. *)
Theorem failure_count_is_sum (data : value) :
  wf_report data = true ->
  exists suites_line tests_line rest,
    VitestReportSummary.main data
    = (suites_line :: tests_line
       :: (lit "FAILURE COUNT " ++ dec (Z.of_nat (failed_total data)))
       :: rest, Ok tt).
Proof.
  intros H. rewrite (main_wf _ H).
  unfold summary_of, summary_head. cbn [app]. eauto.
Qed.

Lemma failure_count_is_sum_witness :
  wf_report (loaded sample_report) = true
  /\ failed_total (loaded sample_report) = 2%nat
  /\ exists suites_line tests_line rest,
       VitestReportSummary.main (loaded sample_report)
       = (suites_line :: tests_line
          :: (lit "FAILURE COUNT "
              ++ dec (Z.of_nat (failed_total (loaded sample_report))))
          :: rest, Ok tt).
Proof.
  split; [vm_compute; reflexivity|].
  split; [vm_compute; reflexivity|].
  apply (failure_count_is_sum (loaded sample_report)).
  vm_compute; reflexivity.
Defined.

(** ** The named suite *)

Lemma e2e_no_match suites :
  forallb wf_suite suites = true ->
  forallb (fun suite => negb (contains VitestReportSummary.e2e_name
                                (text_field "name" suite))) suites = true ->
  VitestReportSummary.e2e_file_status suites = ([], Ok tt).
Proof.
  intros Hwf Hno. rewrite (e2e_file_status_wf _ Hwf).
  destruct (find _ suites) as [s|] eqn:F; [|reflexivity].
  apply find_some in F as [Hin Hc].
  rewrite forallb_forall in Hno. specialize (Hno _ Hin).
  rewrite Hc in Hno. discriminate.
Qed.

Lemma e2e_first_match before suite after :
  forallb wf_suite before = true ->
  forallb (fun suite => negb (contains VitestReportSummary.e2e_name
                                (text_field "name" suite))) before = true ->
  wf_suite suite = true ->
  contains VitestReportSummary.e2e_name (text_field "name" suite) = true ->
  VitestReportSummary.e2e_file_status (before ++ suite :: after)
  = ([lit "   " ++ text_field "name" suite ++ lit " "
      ++ text_field "status" suite], Ok tt).
Proof.
  intros Hwf Hno Hs Hc.
  induction before as [|s before IH].
  - change (VitestReportSummary.e2e_file_status ([] ++ suite :: after))
      with (VitestReportSummary.e2e_file_status ([suite] ++ after)).
    cbn [app VitestReportSummary.e2e_file_status].
    destruct (wf_suite_inv _ Hs) as (d & name & status & l & -> & Hn & Hst & _).
    assert (Tn : text_field "name" (JDict d) = name)
      by (unfold text_field, field; now rewrite Hn).
    assert (Ts : text_field "status" (JDict d) = status)
      by (unfold text_field, field; now rewrite Hst).
    rewrite Tn in *. rewrite Ts. unfold subscript. rewrite Hn, Hst.
    rewrite bind_lift_ok. unfold py_in. rewrite bind_lift_ok, Hc.
    rewrite !bind_lift_ok. unfold str. rewrite !bind_lift_ok. reflexivity.
  - cbn [forallb] in Hwf, Hno.
    apply andb_true_iff in Hwf as [Hs0 Hwf].
    apply andb_true_iff in Hno as [Hn0 Hno].
    cbn [app VitestReportSummary.e2e_file_status].
    destruct (wf_suite_inv _ Hs0) as (d & name & status & l & -> & Hn & _).
    assert (Tn : text_field "name" (JDict d) = name)
      by (unfold text_field, field; now rewrite Hn).
    rewrite Tn in Hn0. unfold subscript at 1. rewrite Hn.
    rewrite bind_lift_ok. unfold py_in at 1. rewrite bind_lift_ok.
    apply negb_true_iff in Hn0. rewrite Hn0. now apply IH.
Qed.

(** C5. The lookup goes through the suites in order and prints the
    name and status of the first one whose name contains
    [e2e-quality-orchestration.test.ts], and of no other; when no name
    contains it, it prints nothing; on a well-formed report the script
    prints, between [E2E FILE STATUS:] and the list of failures, the
    line of that first suite or no line; and on a report whose one
    suite is [a/b/e2e-quality-orchestration.test.ts] with status
    [passed] the script prints that name with [passed]. *)
Theorem named_suite_lookup :
  (forall before suite after,
     forallb wf_suite before = true ->
     forallb (fun s => negb (contains VitestReportSummary.e2e_name
                               (text_field "name" s))) before = true ->
     wf_suite suite = true ->
     contains VitestReportSummary.e2e_name (text_field "name" suite) = true ->
     VitestReportSummary.e2e_file_status (before ++ suite :: after)
     = ([lit "   " ++ text_field "name" suite ++ lit " "
         ++ text_field "status" suite], Ok tt))
  /\ (forall suites,
        forallb wf_suite suites = true ->
        forallb (fun s => negb (contains VitestReportSummary.e2e_name
                                  (text_field "name" s))) suites = true ->
        VitestReportSummary.e2e_file_status suites = ([], Ok tt))
  /\ (forall data,
        wf_report data = true ->
        exists suites_line tests_line count_line failure_lines,
          VitestReportSummary.main data
          = (suites_line :: tests_line :: count_line
             :: lit "E2E FILE STATUS:"
             :: match named_suite VitestReportSummary.e2e_name data with
                | Some suite =>
                    [lit "   " ++ text_field "name" suite ++ lit " "
                     ++ text_field "status" suite]
                | None => []
                end
             ++ (NL :: lit "FAILURES:") :: failure_lines, Ok tt)
          /\ Forall (fun line => prefixb (lit "- ") line = true)
                    failure_lines)
  /\ shown (output_on "vitest-results-clean.json" e2e_report
              vitest_report_summary)
     = (["TOTAL SUITES 1 PASS 1 FAIL 0 SKIPPED 0";
         "TOTAL TESTS 0 PASS 0 FAIL 0 SKIPPED 0";
         "FAILURE COUNT 0";
         "E2E FILE STATUS:";
         "   a/b/e2e-quality-orchestration.test.ts passed";
         String "010" "FAILURES:"]%string, Ok tt).
Proof.
  split; [exact e2e_first_match|].
  split; [exact e2e_no_match|].
  split; [|vm_compute; reflexivity].
  intros data H. rewrite (main_wf _ H).
  unfold summary_of, summary_head. cbn [app].
  eexists _, _, _, _. split; [reflexivity|].
  apply Forall_forall. intros line Hin.
  apply in_map_iff in Hin as (a & <- & _).
  unfold summary_failure_line. apply prefixb_app.
Qed.

Lemma named_suite_lookup_witness :
  VitestReportSummary.e2e_file_status
    ([] ++ nth 0 (suites_of (loaded sample_report)) JNull
        :: tl (suites_of (loaded sample_report)))
  = ([lit "   "
      ++ text_field "name" (nth 0 (suites_of (loaded sample_report)) JNull)
      ++ lit " "
      ++ text_field "status" (nth 0 (suites_of (loaded sample_report)) JNull)],
     Ok tt)
  /\ VitestReportSummary.e2e_file_status
       (tl (suites_of (loaded sample_report))) = ([], Ok tt)
  /\ exists suites_line tests_line count_line failure_lines,
       VitestReportSummary.main (loaded sample_report)
       = (suites_line :: tests_line :: count_line
          :: lit "E2E FILE STATUS:"
          :: match named_suite VitestReportSummary.e2e_name
                     (loaded sample_report) with
             | Some suite =>
                 [lit "   " ++ text_field "name" suite ++ lit " "
                  ++ text_field "status" suite]
             | None => []
             end
          ++ (NL :: lit "FAILURES:") :: failure_lines, Ok tt)
       /\ Forall (fun line => prefixb (lit "- ") line = true) failure_lines.
Proof.
  destruct named_suite_lookup as (L1 & L2 & L3 & _).
  repeat apply conj.
  - apply L1; vm_compute; reflexivity.
  - apply L2; vm_compute; reflexivity.
  - apply L3. vm_compute. reflexivity.
Defined.

(** ** The failure details *)

(** C4, as stated, fails on [vitest-report-summary.py]: for the failed
    assertion [times out] of [sample_report], which has no failure
    message, the script prints [No message], not the empty string. *)
Lemma no_message_is_printed :
  let data := loaded sample_report in
  let a := nth 1 (flat_map failed_of (suites_of data)) JNull in
  text_field "fullName" a = lit "times out"
  /\ messages_of a = []
  /\ shown (output_on "vitest-results-clean.json" sample_report
              vitest_report_summary)
     = (["TOTAL SUITES 2 PASS 1 FAIL 1 SKIPPED 0";
         "TOTAL TESTS 3 PASS 1 FAIL 2 SKIPPED 0";
         "FAILURE COUNT 2";
         "E2E FILE STATUS:";
         "   a/b/e2e-quality-orchestration.test.ts passed";
         String "010" "FAILURES:";
         "- assigns a lead: AssertionError: expected 1 to be 2";
         "- times out: No message"]%string, Ok tt)
  /\ ~ In (lit "- times out: ")
          (fst (output_on "vitest-results-clean.json" sample_report
                  vitest_report_summary)).
Proof.
  cbv zeta. repeat split; try (vm_compute; reflexivity).
  vm_compute. intros H.
  repeat (destruct H as [H|H]; [discriminate H|]). exact H.
Qed.

(** C4, amended.  On a well-formed report [failed_details.py] prints,
    for each suite with a failed assertion, the name of the suite and
    then, for each failed assertion, its full name and the first line
    of its first failure message, which is the empty string when it
    has none; [vitest-report-summary.py] prints, for each failed
    assertion, its full name and the first line of its first failure
    message, or [No message] when its messages, joined by newlines,
    are the empty string. *)
Theorem failure_details_printed :
  (forall data, wf_report data = true ->
     FailedDetails.main data
     = (flat_map details_of (suites_of data), Ok tt))
  /\ (forall data, wf_report data = true ->
        VitestReportSummary.main data
        = (summary_head data
           ++ (NL :: lit "FAILURES:")
           :: map summary_failure_line
                  (flat_map failed_of (suites_of data)), Ok tt)).
Proof.
  split; [exact details_main_wf | exact main_wf].
Qed.

Lemma failure_details_printed_witness :
  FailedDetails.main (loaded sample_report)
  = (flat_map details_of (suites_of (loaded sample_report)), Ok tt)
  /\ VitestReportSummary.main (loaded sample_report)
     = (summary_head (loaded sample_report)
        ++ (NL :: lit "FAILURES:")
        :: map summary_failure_line
               (flat_map failed_of (suites_of (loaded sample_report))),
        Ok tt).
Proof.
  split.
  - apply (proj1 failure_details_printed); vm_compute; reflexivity.
  - apply (proj2 failure_details_printed); vm_compute; reflexivity.
Defined.

(** ** Suites without failures *)

Lemma dict_get_set_same k v d : dict_get k (dict_set k v d) = Some v.
Proof.
  induction d as [|[k' v'] d IH]; simpl.
  - now rewrite text_eqb_refl.
  - destruct (text_eqb k k') eqn:E; simpl.
    + now rewrite text_eqb_refl.
    + now rewrite E.
Qed.

Lemma suite_block_nothing suite :
  failed_assertions suite = Ok [] ->
  FailedDetails.suite_block suite = ([], Ok tt).
Proof. intros H. unfold FailedDetails.suite_block. now rewrite H. Qed.

(** C7. A suite with no failed assertion prints nothing in
    [failed_details.py]: neither its name nor a line of an assertion.
    The output of the script is the output for the report without
    that suite. *)
Theorem suite_without_failures_not_printed d before suite after :
  dict_get (lit "testResults") d = Some (JList (before ++ suite :: after)) ->
  failed_assertions suite = Ok [] ->
  FailedDetails.suite_block suite = ([], Ok tt)
  /\ FailedDetails.main (JDict d)
     = FailedDetails.main
         (JDict (dict_set (lit "testResults") (JList (before ++ after)) d)).
Proof.
  intros Hd Hs. split; [now apply suite_block_nothing|].
  unfold FailedDetails.main, subscript.
  rewrite Hd, dict_get_set_same, !bind_lift_ok. cbn [iter].
  rewrite !bind_lift_ok, !for_each_app. cbn [for_each].
  rewrite (suite_block_nothing _ Hs).
  unfold bind.
  destruct (for_each before FailedDetails.suite_block) as [o [[]|e]];
    [|reflexivity].
  destruct (for_each after FailedDetails.suite_block); reflexivity.
Qed.

Lemma suite_without_failures_not_printed_witness :
  let d := entries (loaded sample_report) in
  let suite := nth 0 (suites_of (loaded sample_report)) JNull in
  let after := tl (suites_of (loaded sample_report)) in
  FailedDetails.suite_block suite = ([], Ok tt)
  /\ FailedDetails.main (JDict d)
     = FailedDetails.main
         (JDict (dict_set (lit "testResults") (JList ([] ++ after)) d)).
Proof.
  cbv zeta.
  apply (suite_without_failures_not_printed
           (entries (loaded sample_report)) []
           (nth 0 (suites_of (loaded sample_report)) JNull)
           (tl (suites_of (loaded sample_report))));
    vm_compute; reflexivity.
Defined.

(** ** The totals *)

Lemma has_int_of d k z :
  dict_get (lit k) d = Some (JInt z) ->
  has d k is_int = true /\ counter k (JDict d) = z.
Proof.
  intros H. unfold has, counter, field. now rewrite H.
Qed.

(** C6, as stated, fails on [vitest-report-summary.py]: for
    [sample_report], with 3 tests of which 2 failed, no line of its
    output contains [total=3] or [failed=2]; the line of the totals is
    [TOTAL TESTS 3 PASS 1 FAIL 2 SKIPPED 0]. *)
Lemma summary_totals_line_differs :
  let data := loaded sample_report in
  let out := fst (output_on "vitest-results-clean.json" sample_report
                    vitest_report_summary) in
  field "numTotalTests" data = Some (JInt 3)
  /\ field "numFailedTests" data = Some (JInt 2)
  /\ nth_error out 1 = Some (lit "TOTAL TESTS 3 PASS 1 FAIL 2 SKIPPED 0")
  /\ forallb (fun line => negb (contains (lit "total=3") line)
                          && negb (contains (lit "failed=2") line)) out
     = true.
Proof. cbv zeta. repeat split; vm_compute; reflexivity. Qed.

(** C6, amended.  For a report with [numTotalTests = T] and
    [numFailedTests = F], the first line [check_full.py] prints
    contains [total=T] and [failed=F]; the second line
    [vitest-report-summary.py] prints is
    [TOTAL TESTS T PASS P FAIL F SKIPPED K]. *)
Theorem totals_line_printed :
  (forall d T P F S,
     dict_get (lit "numTotalTests") d = Some (JInt T) ->
     dict_get (lit "numPassedTests") d = Some (JInt P) ->
     dict_get (lit "numFailedTests") d = Some (JInt F) ->
     dict_get (lit "numFailedTestSuites") d = Some (JInt S) ->
     exists line rest r,
       CheckFull.main (JDict d) = (line :: rest, r)
       /\ substring (lit "total=" ++ dec T) line
       /\ substring (lit "failed=" ++ dec F) line)
  /\ (forall d T P F K,
        has d "numTotalTestSuites" is_int = true ->
        has d "numPassedTestSuites" is_int = true ->
        has d "numFailedTestSuites" is_int = true ->
        has d "numPendingTestSuites" is_int = true ->
        dict_get (lit "numTotalTests") d = Some (JInt T) ->
        dict_get (lit "numPassedTests") d = Some (JInt P) ->
        dict_get (lit "numFailedTests") d = Some (JInt F) ->
        dict_get (lit "numPendingTests") d = Some (JInt K) ->
        exists suites_line rest r,
          VitestReportSummary.main (JDict d)
          = (suites_line
             :: (lit "TOTAL TESTS " ++ dec T ++ lit " PASS " ++ dec P
                 ++ lit " FAIL " ++ dec F ++ lit " SKIPPED " ++ dec K)
             :: rest, r)).
Proof.
  split.
  - intros d T P F S HT HP HF HS.
    unfold CheckFull.main, CheckFull.totals, subscript at 1 2 3 4, str.
    rewrite HT, HP, HF, HS, !bind_lift_ok, bind_print.
    cbn [app fst snd].
    eexists _, _, _. split; [reflexivity|]. split.
    + exists [], (lit " passed=" ++ dec P ++ lit " failed=" ++ dec F
                  ++ lit " failedSuites=" ++ dec S).
      now rewrite <- !app_assoc.
    + exists (lit "total=" ++ dec T ++ lit " passed=" ++ dec P ++ lit " "),
             (lit " failedSuites=" ++ dec S).
      now rewrite <- !app_assoc.
  - intros d T P F K H1 H2 H3 H4 HT HP HF HK.
    destruct (has_int_of _ _ _ HT) as [HT' CT].
    destruct (has_int_of _ _ _ HP) as [HP' CP].
    destruct (has_int_of _ _ _ HF) as [HF' CF].
    destruct (has_int_of _ _ _ HK) as [HK' CK].
    unfold VitestReportSummary.main.
    rewrite !counters_line_wf by assumption.
    rewrite CT, CP, CF, CK, !bind_out. cbn [app fst snd].
    eexists _, _, _. reflexivity.
Qed.

Lemma totals_line_printed_witness :
  (exists line rest r,
     CheckFull.main (JDict (entries (loaded sample_report)))
     = (line :: rest, r)
     /\ substring (lit "total=" ++ dec 3) line
     /\ substring (lit "failed=" ++ dec 2) line)
  /\ (exists suites_line rest r,
        VitestReportSummary.main (JDict (entries (loaded sample_report)))
        = (suites_line
           :: (lit "TOTAL TESTS " ++ dec 3 ++ lit " PASS " ++ dec 1
               ++ lit " FAIL " ++ dec 2 ++ lit " SKIPPED " ++ dec 0)
           :: rest, r)).
Proof.
  split.
  - apply (proj1 totals_line_printed
             (entries (loaded sample_report)) 3%Z 1%Z 2%Z 1%Z);
      vm_compute; reflexivity.
  - apply (proj2 totals_line_printed
             (entries (loaded sample_report)) 3%Z 1%Z 2%Z 0%Z);
      vm_compute; reflexivity.
Defined.

(** ** Absent fields *)

Lemma for_acc_app {A S} (l1 l2 : list A) (body : S -> A -> res S) (s : S) :
  VitestReportSummary.for_acc (l1 ++ l2) body s
  = res_bind (VitestReportSummary.for_acc l1 body s)
             (VitestReportSummary.for_acc l2 body).
Proof.
  revert s; induction l1 as [|x l1 IH]; intros s; [reflexivity|].
  cbn [app VitestReportSummary.for_acc].
  destruct (body s x) as [s'|e]; [apply IH | reflexivity].
Qed.

Lemma collect_suite_without_assertions acc suite name :
  dict_get (lit "name") suite = Some name ->
  dict_get (lit "assertionResults") suite = None ->
  VitestReportSummary.collect_suite acc (JDict suite)
  = Raise (KeyError (JStr (lit "assertionResults"))).
Proof.
  intros Hn Ha. unfold VitestReportSummary.collect_suite, subscript.
  now rewrite Hn, Ha.
Qed.

(** C3, as stated, fails: the failed suite of
    [report_without_assertions] has no [assertionResults], and both
    [check_full.py] and [failed_details.py] end normally on it. *)
Lemma absent_assertions_are_tolerated :
  let data := loaded report_without_assertions in
  field "assertionResults" (nth 0 (suites_of data) JNull) = None
  /\ shown (output_on "vitest-results.json" report_without_assertions
              check_full)
     = (["total=1 passed=0 failed=1 failedSuites=1";
         "src/team.test.ts :: 0"]%string, Ok tt)
  /\ output_on "vitest-results.json" report_without_assertions failed_details
     = ([], Ok tt).
Proof. cbv zeta. repeat split; vm_compute; reflexivity. Qed.

(** C3, amended.  A field a script reads with a subscript is
    required: when it is absent the run stops with [KeyError].  That
    holds for [numTotalTests] in [check_full.py] and
    [vitest-report-summary.py], for [numFailedTests] in
    [temp_decode.py], for [testResults] in [failed_details.py] and for
    [assertionResults] of a suite in [vitest-report-summary.py].  A
    field read with [get] is optional: a suite without
    [assertionResults] has no failed assertion for [check_full.py] and
    [failed_details.py], and a report without [testResults] has no
    suite for [vitest-report-summary.py]. *)
Theorem absent_fields :
  (forall d, dict_get (lit "numTotalTests") d = None ->
     CheckFull.main (JDict d)
     = ([], Raise (KeyError (JStr (lit "numTotalTests")))))
  /\ (forall d, dict_get (lit "numFailedTests") d = None ->
        TempDecode.main (JDict d)
        = ([], Raise (KeyError (JStr (lit "numFailedTests")))))
  /\ (forall d, dict_get (lit "testResults") d = None ->
        FailedDetails.main (JDict d)
        = ([], Raise (KeyError (JStr (lit "testResults")))))
  /\ (forall d,
        has d "numTotalTestSuites" is_int = true ->
        has d "numPassedTestSuites" is_int = true ->
        has d "numFailedTestSuites" is_int = true ->
        has d "numPendingTestSuites" is_int = true ->
        dict_get (lit "numTotalTests") d = None ->
        exists suites_line,
          VitestReportSummary.main (JDict d)
          = ([suites_line], Raise (KeyError (JStr (lit "numTotalTests")))))
  /\ (forall d before suite name after,
        has d "numTotalTestSuites" is_int = true ->
        has d "numPassedTestSuites" is_int = true ->
        has d "numFailedTestSuites" is_int = true ->
        has d "numPendingTestSuites" is_int = true ->
        has d "numTotalTests" is_int = true ->
        has d "numPassedTests" is_int = true ->
        has d "numFailedTests" is_int = true ->
        has d "numPendingTests" is_int = true ->
        dict_get (lit "testResults") d
        = Some (JList (before ++ JDict suite :: after)) ->
        forallb wf_suite before = true ->
        dict_get (lit "name") suite = Some name ->
        dict_get (lit "assertionResults") suite = None ->
        exists suites_line tests_line,
          VitestReportSummary.main (JDict d)
          = ([suites_line; tests_line],
             Raise (KeyError (JStr (lit "assertionResults")))))
  /\ (forall suite, dict_get (lit "assertionResults") suite = None ->
        failed_assertions (JDict suite) = Ok [])
  /\ (forall d,
        has d "numTotalTestSuites" is_int = true ->
        has d "numPassedTestSuites" is_int = true ->
        has d "numFailedTestSuites" is_int = true ->
        has d "numPendingTestSuites" is_int = true ->
        has d "numTotalTests" is_int = true ->
        has d "numPassedTests" is_int = true ->
        has d "numFailedTests" is_int = true ->
        has d "numPendingTests" is_int = true ->
        dict_get (lit "testResults") d = None ->
        exists suites_line tests_line,
          VitestReportSummary.main (JDict d)
          = ([suites_line; tests_line; lit "FAILURE COUNT 0";
              lit "E2E FILE STATUS:"; NL :: lit "FAILURES:"], Ok tt)).
Proof.
  repeat apply conj.
  - intros d H. unfold CheckFull.main, CheckFull.totals, subscript at 1.
    now rewrite H.
  - intros d H. unfold TempDecode.main, subscript. now rewrite H.
  - intros d H. unfold FailedDetails.main, subscript. now rewrite H.
  - intros d H1 H2 H3 H4 H.
    unfold VitestReportSummary.main.
    rewrite counters_line_wf by assumption.
    unfold VitestReportSummary.counters_line, subscript at 1. rewrite H.
    rewrite bind_lift_raise, bind_out. cbn. eauto.
  - intros d before suite name after H1 H2 H3 H4 H5 H6 H7 H8 Hd Hwf Hn Ha.
    unfold VitestReportSummary.main.
    rewrite !counters_line_wf by assumption.
    unfold get_default. rewrite Hd.
    rewrite !bind_out. cbv beta. rewrite !bind_lift_ok. cbn [iter].
    rewrite !bind_lift_ok, for_acc_app, (collect_wf _ _ Hwf).
    cbn [res_bind VitestReportSummary.for_acc].
    rewrite (collect_suite_without_assertions _ _ _ Hn Ha).
    cbn. eauto.
  - intros suite H. unfold failed_assertions, get_default. now rewrite H.
  - intros d H1 H2 H3 H4 H5 H6 H7 H8 Hd.
    unfold VitestReportSummary.main.
    rewrite !counters_line_wf by assumption.
    unfold get_default. rewrite Hd.
    rewrite !bind_out. cbv beta. rewrite !bind_lift_ok. cbn. eauto.
Qed.

Lemma absent_fields_witness :
  CheckFull.main (JDict []) = ([], Raise (KeyError (JStr (lit "numTotalTests"))))
  /\ TempDecode.main (JDict [])
     = ([], Raise (KeyError (JStr (lit "numFailedTests"))))
  /\ FailedDetails.main (JDict [])
     = ([], Raise (KeyError (JStr (lit "testResults"))))
  /\ (exists suites_line,
        VitestReportSummary.main
          (JDict (entries (loaded report_without_totals)))
        = ([suites_line], Raise (KeyError (JStr (lit "numTotalTests")))))
  /\ (exists suites_line tests_line,
        VitestReportSummary.main
          (JDict (entries (loaded report_with_bare_suite)))
        = ([suites_line; tests_line],
           Raise (KeyError (JStr (lit "assertionResults")))))
  /\ failed_assertions
       (JDict (entries (nth 0 (suites_of (loaded report_without_assertions))
                            JNull)))
     = Ok []
  /\ (exists suites_line tests_line,
        VitestReportSummary.main
          (JDict (entries (loaded report_without_results)))
        = ([suites_line; tests_line; lit "FAILURE COUNT 0";
            lit "E2E FILE STATUS:"; NL :: lit "FAILURES:"], Ok tt)).
Proof.
  destruct absent_fields as (A1 & A2 & A3 & A4 & A5 & A6 & A7).
  repeat apply conj.
  - apply A1. reflexivity.
  - apply A2. reflexivity.
  - apply A3. reflexivity.
  - apply A4; vm_compute; reflexivity.
  - apply (A5 (entries (loaded report_with_bare_suite)) []
              (entries (nth 0 (suites_of (loaded report_with_bare_suite))
                            JNull))
              (JStr (lit "src/team.test.ts")) []);
      vm_compute; reflexivity.
  - apply A6. vm_compute. reflexivity.
  - apply A7; vm_compute; reflexivity.
Defined.

(** ** Effects of a script *)

Lemma preserves_files_bind {A B} (m : IO A) (k : A -> IO B) :
  preserves_files m -> (forall a, preserves_files (k a)) ->
  preserves_files (io_bind m k).
Proof.
  intros Hm Hk w. unfold io_bind. specialize (Hm w).
  destruct (m w) as [w' [a|e]]; cbn [fst] in *.
  - now rewrite Hk.
  - exact Hm.
Qed.

Lemma preserves_files_read_text path enc errors :
  preserves_files (read_text path enc errors).
Proof. intros w. unfold read_text. now destruct (files w path). Qed.

Lemma preserves_files_loads s : preserves_files (loads s).
Proof. intros w. reflexivity. Qed.

Lemma preserves_files_run {A} (m : W A) : preserves_files (run m).
Proof. intros w. reflexivity. Qed.

Create HintDb effects.

#[local] Hint Resolve preserves_files_read_text preserves_files_loads
  preserves_files_run : effects.

Ltac files_kept :=
  repeat (apply preserves_files_bind; [|intro]); auto with effects.

(** C9. No script writes a file: after a run, from any world, every
    path holds what it held before, and a path that held nothing
    still holds nothing.  What a script changes is the standard
    output. *)
Theorem scripts_write_no_file :
  preserves_files check_full
  /\ preserves_files failed_details
  /\ preserves_files temp_decode
  /\ preserves_files vitest_report_summary.
Proof.
  unfold check_full, failed_details, temp_decode, vitest_report_summary.
  repeat split; files_kept.
Qed.

(** What a script of the common shape does: it reads one file and
    appends lines to the standard output. *)
Lemma script_effect path enc errors (main : value -> W unit) (w : world) :
  io_bind (read_text path enc errors)
    (fun text => io_bind (loads text) (fun j => run (main j))) w
  = match files w path with
    | None => (w, Raise FileNotFoundError)
    | Some bytes =>
        match res_bind (res_bind (decode enc errors (map Byte.to_N bytes))
                                 (fun t => Ok (universal_newlines t)))
                       json_loads with
        | Ok j => ({| files := files w; stdout := stdout w ++ fst (main j) |},
                   snd (main j))
        | Raise e => (w, Raise e)
        end
    end.
Proof.
  unfold io_bind, read_text, loads, run.
  destruct (files w path) as [bytes|]; [|reflexivity].
  destruct (res_bind (decode enc errors (map Byte.to_N bytes)) _)
    as [t|e]; [|reflexivity].
  cbn [res_bind]. destruct (json_loads t); reflexivity.
Qed.






(** ** Decoding *)

Lemma emit_ok c r t : emit c r = Ok t -> exists t', r = Ok t' /\ t = c :: t'.
Proof.
  unfold emit. destruct r as [t'|e]; cbn; [|discriminate].
  intros [= <-]. now exists t'.
Qed.

(** With [errors='ignore'] the decoders never raise. *)
Lemma utf8_decode_ignore_total (s : list N) :
  exists t, utf8_decode ignore s = Ok t.
Proof.
  remember (List.length s) as n eqn:Hn.
  assert (Hle : (List.length s <= n)%nat) by lia. clear Hn.
  revert s Hle. induction n as [|n IH]; intros s Hle.
  - destruct s; [now exists [] | cbn in Hle; lia].
  - destruct s as [|ch s1]; [now exists []|].
    cbn [List.length] in Hle.
    assert (H1 : exists t, utf8_decode ignore s1 = Ok t) by (apply IH; lia).
    destruct H1 as [t1 H1].
    cbn [utf8_decode on_error]. unfold emit.
    repeat
      match goal with
      | |- exists t, Ok _ = Ok t => eexists; reflexivity
      | |- exists t, utf8_decode ignore s1 = Ok t => now exists t1
      | |- exists t, utf8_decode ignore ?s = Ok t =>
          apply IH; cbn [List.length] in *; lia
      | |- exists t, res_bind (utf8_decode ignore ?s) _ = Ok t =>
          let t' := fresh "t" in let H := fresh "H" in
          assert (H : exists t, utf8_decode ignore s = Ok t)
            by (apply IH; cbn [List.length] in *; lia);
          destruct H as [t' H]; rewrite H; cbn [res_bind]
      | |- context [match ?l with [] => _ | _ :: _ => _ end] =>
          is_var l; destruct l
      | |- context [if ?c then _ else _] => destruct c
      end.
Qed.

Lemma utf16_le_decode_ignore_total (q : list N) :
  exists t, utf16_le_decode ignore q = Ok t.
Proof.
  remember (List.length q) as n eqn:Hn.
  assert (Hle : (List.length q <= n)%nat) by lia. clear Hn.
  revert q Hle. induction n as [|n IH]; intros q Hle.
  - destruct q; [now exists [] | cbn in Hle; lia].
  - destruct q as [|lo [|hi q2]]; [now exists [] | now exists [] |].
    cbn [List.length] in Hle.
    cbn [utf16_le_decode on_error]. unfold emit.
    repeat
      match goal with
      | |- exists t, Ok _ = Ok t => eexists; reflexivity
      | |- exists t, utf16_le_decode ignore ?s = Ok t =>
          apply IH; cbn [List.length] in *; lia
      | |- exists t, res_bind (utf16_le_decode ignore ?s) _ = Ok t =>
          let t' := fresh "t" in let H := fresh "H" in
          assert (H : exists t, utf16_le_decode ignore s = Ok t)
            by (apply IH; cbn [List.length] in *; lia);
          destruct H as [t' H]; rewrite H; cbn [res_bind]
      | |- context [match ?l with [] => _ | _ :: _ => _ end] =>
          is_var l; destruct l
      | |- context [if ?c then _ else _] => destruct c
      end.
Qed.

(** ** UTF-8: the decoder and the encoder *)

Ltac decide_test :=
  match goal with
  | |- context [(?a <? ?b)%N] =>
      first [ replace (a <? b)%N with true by (symmetry; apply N.ltb_lt; lia)
            | replace (a <? b)%N with false by (symmetry; apply N.ltb_ge; lia) ]
  | |- context [(?a <=? ?b)%N] =>
      first [ replace (a <=? b)%N with true by (symmetry; apply N.leb_le; lia)
            | replace (a <=? b)%N with false by (symmetry; apply N.leb_gt; lia) ]
  | |- context [(?a =? ?b)%N] =>
      first [ replace (a =? b)%N with true by (symmetry; apply N.eqb_eq; lia)
            | replace (a =? b)%N with false by (symmetry; apply N.eqb_neq; lia) ]
  end.

Lemma decode_2 ch ch2 rest :
  (194 <= ch < 224)%N -> (128 <= ch2 < 192)%N ->
  utf8_decode strict (ch :: ch2 :: rest)
  = emit (ch * 64 + ch2 - 12416)%N (utf8_decode strict rest).
Proof.
  intros H1 H2. cbn [utf8_decode]. unfold is_continuation.
  repeat decide_test. reflexivity.
Qed.

Lemma decode_3 ch ch2 ch3 rest :
  (224 <= ch < 240)%N -> (128 <= ch2 < 192)%N -> (128 <= ch3 < 192)%N ->
  (ch = 224 -> 160 <= ch2)%N -> (ch = 237 -> ch2 < 160)%N ->
  utf8_decode strict (ch :: ch2 :: ch3 :: rest)
  = emit (ch * 4096 + ch2 * 64 + ch3 - 925824)%N (utf8_decode strict rest).
Proof.
  intros H1 H2 H3 H4 H5. cbn [utf8_decode]. unfold is_continuation.
  repeat (decide_test; cbn [andb orb negb]).
  destruct (N.ltb_spec ch2 160); repeat decide_test; reflexivity.
Qed.

Lemma decode_4 ch ch2 ch3 ch4 rest :
  (240 <= ch < 245)%N -> (128 <= ch2 < 192)%N -> (128 <= ch3 < 192)%N ->
  (128 <= ch4 < 192)%N ->
  (ch = 240 -> 144 <= ch2)%N -> (ch = 244 -> ch2 < 144)%N ->
  utf8_decode strict (ch :: ch2 :: ch3 :: ch4 :: rest)
  = emit (ch * 262144 + ch2 * 4096 + ch3 * 64 + ch4 - 63447168)%N
         (utf8_decode strict rest).
Proof.
  intros H1 H2 H3 H4 H5 H6. cbn [utf8_decode]. unfold is_continuation.
  repeat (decide_test; cbn [andb orb negb]).
  destruct (N.ltb_spec ch2 144); repeat decide_test; reflexivity.
Qed.

Opaque N.add N.mul N.div N.modulo N.sub.

Lemma decode_encoded_char c bs rest :
  utf8_encode_char c = Some bs ->
  utf8_decode strict (bs ++ rest) = emit c (utf8_decode strict rest).
Proof.
  unfold utf8_encode_char, is_surrogate.
  destruct (N.ltb_spec c 128).
  { intros [= <-]. cbn [app utf8_decode].
    now replace (c <? 128)%N with true by (symmetry; apply N.ltb_lt; lia). }
  destruct (N.ltb_spec c 2048).
  { intros [= <-]. cbn [app]. rewrite decode_2 by lia. f_equal. lia. }
  destruct (N.ltb_spec c 65536).
  { destruct (N.leb_spec 55296 c); destruct (N.ltb_spec c 57344);
      cbn [andb]; try discriminate;
      intros [= <-]; cbn [app]; rewrite decode_3 by lia; f_equal; lia. }
  destruct (N.ltb_spec c 1114112); [|discriminate].
  intros [= <-]. cbn [app]. rewrite decode_4 by lia. f_equal. lia.
Qed.

Transparent N.add N.mul N.div N.modulo N.sub.

Lemma utf8_decode_encode t bs :
  utf8_encode t = Some bs -> utf8_decode strict bs = Ok t.
Proof.
  revert bs; induction t as [|c t IH]; intros bs; cbn [utf8_encode].
  - now intros [= <-].
  - destruct (utf8_encode_char c) as [bc|] eqn:Ec; [|discriminate].
    destruct (utf8_encode t) as [bt|]; [|discriminate].
    intros [= <-]. rewrite (decode_encoded_char _ _ _ Ec), (IH _ eq_refl).
    reflexivity.
Qed.

Opaque N.add N.mul N.div N.modulo N.sub.

Lemma encode_1 ch : (ch < 128)%N -> utf8_encode_char ch = Some [ch].
Proof. intros H. unfold utf8_encode_char. now repeat decide_test. Qed.

Lemma encode_2 ch ch2 :
  (194 <= ch < 224)%N -> (128 <= ch2 < 192)%N ->
  utf8_encode_char (ch * 64 + ch2 - 12416)%N = Some [ch; ch2].
Proof.
  intros H1 H2. unfold utf8_encode_char. repeat decide_test.
  repeat f_equal; lia.
Qed.

Lemma encode_3 ch ch2 ch3 :
  (224 <= ch < 240)%N -> (128 <= ch2 < 192)%N -> (128 <= ch3 < 192)%N ->
  (ch = 224 -> 160 <= ch2)%N -> (ch = 237 -> ch2 < 160)%N ->
  utf8_encode_char (ch * 4096 + ch2 * 64 + ch3 - 925824)%N
  = Some [ch; ch2; ch3].
Proof.
  intros H1 H2 H3 H4 H5. unfold utf8_encode_char, is_surrogate.
  repeat decide_test.
  destruct (N.leb_spec 55296 (ch * 4096 + ch2 * 64 + ch3 - 925824));
    destruct (N.ltb_spec (ch * 4096 + ch2 * 64 + ch3 - 925824) 57344);
    cbn [andb]; try lia; repeat f_equal; lia.
Qed.

Lemma encode_4 ch ch2 ch3 ch4 :
  (240 <= ch < 245)%N -> (128 <= ch2 < 192)%N -> (128 <= ch3 < 192)%N ->
  (128 <= ch4 < 192)%N ->
  (ch = 240 -> 144 <= ch2)%N -> (ch = 244 -> ch2 < 144)%N ->
  utf8_encode_char (ch * 262144 + ch2 * 4096 + ch3 * 64 + ch4 - 63447168)%N
  = Some [ch; ch2; ch3; ch4].
Proof.
  intros H1 H2 H3 H4 H5 H6. unfold utf8_encode_char.
  repeat decide_test. repeat f_equal; lia.
Qed.

Transparent N.add N.mul N.div N.modulo N.sub.

Ltac step_done :=
  cbn [app List.length]; repeat split; auto; lia.

(** One step of the strict decoder: the bytes it takes are the
    encoding of the character it gives. *)
Lemma utf8_decode_strict_step ch s1 t :
  utf8_decode strict (ch :: s1) = Ok t ->
  exists c bs rest t',
    ch :: s1 = bs ++ rest /\ utf8_encode_char c = Some bs
    /\ t = c :: t' /\ utf8_decode strict rest = Ok t'
    /\ (List.length rest < List.length (ch :: s1))%nat.
Proof.
  intros H. cbn [utf8_decode on_error] in H.
  destruct (N.ltb_spec ch 128).
  { apply emit_ok in H as (t' & Ht & ->).
    exists ch, [ch], s1, t'. rewrite encode_1 by lia. step_done. }
  destruct (N.ltb_spec ch 194); [discriminate|].
  destruct (N.ltb_spec ch 224).
  { destruct s1 as [|ch2 s2]; [discriminate|]. unfold is_continuation in H.
    destruct (N.leb_spec 128 ch2); destruct (N.ltb_spec ch2 192);
      cbn [andb] in H; try discriminate.
    apply emit_ok in H as (t' & Ht & ->).
    exists (ch * 64 + ch2 - 12416)%N, [ch; ch2], s2, t'.
    rewrite encode_2 by lia.
    step_done. }
  destruct (N.ltb_spec ch 240).
  { destruct s1 as [|ch2 s2]; [discriminate|]. unfold is_continuation in H.
    destruct (N.leb_spec 128 ch2); destruct (N.ltb_spec ch2 192);
      cbn [andb negb orb] in H; try discriminate.
    destruct (N.ltb_spec ch2 160);
      [destruct (N.eqb_spec ch 224) | destruct (N.eqb_spec ch 237)];
      try discriminate.
    all: destruct s2 as [|ch3 s3]; [discriminate|].
    all: destruct (N.leb_spec 128 ch3); destruct (N.ltb_spec ch3 192);
      cbn [andb negb orb] in H; try discriminate.
    all: apply emit_ok in H as (t' & Ht & ->).
    all: exists (ch * 4096 + ch2 * 64 + ch3 - 925824)%N, [ch; ch2; ch3], s3, t';
      rewrite encode_3 by lia.
    all: step_done. }
  destruct (N.ltb_spec ch 245); [|discriminate].
  destruct s1 as [|ch2 s2]; [discriminate|]. unfold is_continuation in H.
  destruct (N.leb_spec 128 ch2); destruct (N.ltb_spec ch2 192);
    cbn [andb negb orb] in H; try discriminate.
  destruct (N.ltb_spec ch2 144);
    [destruct (N.eqb_spec ch 240) | destruct (N.eqb_spec ch 244)];
    try discriminate.
  all: destruct s2 as [|ch3 s3]; [discriminate|].
  all: destruct (N.leb_spec 128 ch3); destruct (N.ltb_spec ch3 192);
    cbn [andb negb orb] in H; try discriminate.
  all: destruct s3 as [|ch4 s4]; [discriminate|].
  all: destruct (N.leb_spec 128 ch4); destruct (N.ltb_spec ch4 192);
    cbn [andb negb orb] in H; try discriminate.
  all: apply emit_ok in H as (t' & Ht & ->).
  all: exists (ch * 262144 + ch2 * 4096 + ch3 * 64 + ch4 - 63447168)%N,
         [ch; ch2; ch3; ch4], s4, t';
    rewrite encode_4 by lia.
  all: step_done.
Qed.

(** What the strict decoder accepts is the encoding of what it
    gives. *)
Lemma utf8_encode_decode s t :
  utf8_decode strict s = Ok t -> utf8_encode t = Some s.
Proof.
  remember (List.length s) as n eqn:Hn.
  assert (Hle : (List.length s <= n)%nat) by lia. clear Hn.
  revert s t Hle. induction n as [|n IH]; intros s t Hle H.
  - destruct s; [|cbn in Hle; lia]. cbn in H. now injection H as <-.
  - destruct s as [|ch s1]; [cbn in H; now injection H as <-|].
    destruct (utf8_decode_strict_step _ _ _ H)
      as (c & bs & rest & t' & E & Ec & -> & Hr & Hlen).
    cbn [utf8_encode]. rewrite Ec, (IH rest t'), E; auto.
    cbn [List.length] in *. lia.
Qed.

(** The strict decoder gives a text or raises [UnicodeDecodeError]. *)
Lemma utf8_decode_strict_result (s : list N) :
  (exists t, utf8_decode strict s = Ok t)
  \/ utf8_decode strict s = Raise UnicodeDecodeError.
Proof.
  remember (List.length s) as n eqn:Hn.
  assert (Hle : (List.length s <= n)%nat) by lia. clear Hn.
  revert s Hle. induction n as [|n IH]; intros s Hle.
  - destruct s; [left; now exists [] | cbn in Hle; lia].
  - destruct s as [|ch s1]; [left; now exists []|].
    cbn [List.length] in Hle.
    cbn [utf8_decode on_error]. unfold emit.
    repeat
      match goal with
      | |- _ \/ Raise _ = Raise _ => right; reflexivity
      | |- (exists t, res_bind (utf8_decode strict ?s) _ = Ok t) \/ _ =>
          let H := fresh "H" in
          assert (H : (exists t, utf8_decode strict s = Ok t)
                      \/ utf8_decode strict s = Raise UnicodeDecodeError)
            by (apply IH; cbn [List.length] in *; lia);
          destruct H as [[? H] | H]; rewrite H; cbn [res_bind];
          [left; eexists; reflexivity | right; reflexivity]
      | |- context [match ?l with [] => _ | _ :: _ => _ end] =>
          is_var l; destruct l
      | |- context [if ?c then _ else _] => destruct c
      end.
Qed.

Lemma utf16_le_encode_even t bs :
  utf16_le_encode t = Some bs -> Nat.even (List.length bs) = true.
Proof.
  revert bs; induction t as [|c t IH]; intros bs; cbn [utf16_le_encode].
  - now intros [= <-].
  - unfold utf16_le_encode_char.
    destruct (utf16_le_encode t) as [bt|];
      repeat match goal with
             | |- context [if ?c then _ else _] => destruct c
             end; try discriminate; intros [= <-];
      cbn [app List.length Nat.even]; now apply IH.
Qed.

Lemma output_on_script path enc errors (main : value -> W unit) bytes :
  output_on path bytes
    (io_bind (read_text path enc errors)
       (fun text => io_bind (loads text) (fun j => run (main j))))
  = match res_bind (res_bind (decode enc errors (map Byte.to_N bytes))
                             (fun t => Ok (universal_newlines t)))
                   json_loads with
    | Ok j => main j
    | Raise e => ([], Raise e)
    end.
Proof.
  unfold output_on. rewrite script_effect. unfold one_file. cbn [files].
  rewrite String.eqb_refl.
  destruct (res_bind _ json_loads) as [j|e]; cbn [stdout app].
  - now destruct (main j).
  - reflexivity.
Qed.

(** ** Files in another encoding *)

(** C1, as stated, fails on the scripts that pass [errors='ignore'].
    [latin1_report] is not UTF-8, and [check_full.py] prints a suite
    name that has lost a letter; [truncated_utf16_report] is not
    UTF-16, and [temp_decode.py] prints the counter. *)
Lemma undecodable_bytes_are_dropped :
  ~ well_encoded utf_8 (map Byte.to_N latin1_report)
  /\ shown (output_on "vitest-results.json" latin1_report check_full)
     = (["total=1 passed=0 failed=1 failedSuites=1";
         "src/caf.test.ts :: 1"]%string, Ok tt)
  /\ ~ well_encoded utf_16_le (map Byte.to_N truncated_utf16_report)
  /\ shown (output_on "vitest-results.json" truncated_utf16_report
              temp_decode)
     = (["3"]%string, Ok tt).
Proof.
  repeat apply conj.
  - intros [t Ht]. apply utf8_decode_encode in Ht.
    vm_compute in Ht. discriminate Ht.
  - vm_compute. reflexivity.
  - intros [t Ht]. apply utf16_le_encode_even in Ht.
    vm_compute in Ht. discriminate Ht.
  - vm_compute. reflexivity.
Qed.

Lemma strict_sig_rejects bytes :
  ~ well_encoded utf_8_sig bytes -> starts_mark bytes = false ->
  decode utf_8_sig strict bytes = Raise UnicodeDecodeError.
Proof.
  intros Hno Hmark. unfold decode.
  assert (Hplain : utf8_decode strict bytes = Raise UnicodeDecodeError).
  { destruct (utf8_decode_strict_result bytes) as [[t Ht]|Hr]; [|exact Hr].
    exfalso. apply Hno. exists t, bytes. split; [|now left].
    now apply utf8_encode_decode. }
  destruct bytes as [|b1 [|b2 [|b3 bytes']]];
    try (rewrite Hmark; exact Hplain).
  destruct ((b1 =? 239)%N && (b2 =? 187)%N && (b3 =? 191)%N) eqn:E;
    [|exact Hplain].
  apply andb_true_iff in E as [E E3]. apply andb_true_iff in E as [E1 E2].
  apply N.eqb_eq in E1, E2, E3. subst b1 b2 b3.
  destruct (utf8_decode_strict_result bytes') as [[t Ht]|Hr]; [|exact Hr].
  exfalso. apply Hno. exists t, bytes'. split; [|now right].
  now apply utf8_encode_decode.
Qed.

Lemma strict_sig_partial_mark bytes :
  starts_mark bytes = true -> decode utf_8_sig strict bytes = Ok [].
Proof.
  intros H. unfold decode.
  destruct bytes as [|b1 [|b2 [|b3 bytes']]];
    try discriminate H; now rewrite H.
Qed.

(** C1, amended.  [vitest-report-summary.py] decodes strictly: on a
    file that is not UTF-8, with or without the byte-order mark, it
    prints nothing and ends with [UnicodeDecodeError]; when the file
    is only the first byte or the first two bytes of the mark, it is
    read as the empty text and the run ends with [JSONDecodeError].
    The three scripts that pass [errors='ignore'] never fail to
    decode: the decoder drops what it cannot decode, and the run goes
    on with the text that is left, so that it ends with a decoding
    error only when that text is no JSON. *)
Theorem decoding_of_the_file :
  (forall bytes,
     ~ well_encoded utf_8_sig (map Byte.to_N bytes) ->
     output_on "vitest-results-clean.json" bytes vitest_report_summary
     = ([], Raise (if starts_mark (map Byte.to_N bytes)
                   then JSONDecodeError else UnicodeDecodeError)))
  /\ (forall bytes, exists text,
        decode utf_8 ignore (map Byte.to_N bytes) = Ok text
        /\ output_on "vitest-results.json" bytes check_full
           = match json_loads (universal_newlines text) with
             | Ok j => CheckFull.main j
             | Raise e => ([], Raise e)
             end
        /\ output_on "vitest-results.json" bytes failed_details
           = match json_loads (universal_newlines text) with
             | Ok j => FailedDetails.main j
             | Raise e => ([], Raise e)
             end)
  /\ (forall bytes, exists text,
        decode utf_16_le ignore (map Byte.to_N bytes) = Ok text
        /\ output_on "vitest-results.json" bytes temp_decode
           = match json_loads (universal_newlines text) with
             | Ok data => TempDecode.main data
             | Raise e => ([], Raise e)
             end).
Proof.
  repeat apply conj.
  - intros bytes H. unfold vitest_report_summary.
    rewrite output_on_script.
    destruct (starts_mark (map Byte.to_N bytes)) eqn:Hmark.
    + now rewrite (strict_sig_partial_mark _ Hmark).
    + now rewrite (strict_sig_rejects _ H Hmark).
  - intros bytes.
    destruct (utf8_decode_ignore_total (map Byte.to_N bytes)) as [text Ht].
    exists text. unfold check_full, failed_details.
    rewrite !output_on_script. unfold decode. rewrite Ht. auto.
  - intros bytes.
    destruct (utf16_le_decode_ignore_total (map Byte.to_N bytes))
      as [text Ht].
    exists text. unfold temp_decode.
    rewrite !output_on_script. unfold decode. rewrite Ht. auto.
Qed.

Lemma latin1_report_is_no_utf8 :
  ~ well_encoded utf_8_sig (map Byte.to_N latin1_report).
Proof.
  intros (t & bs & Ht & [E|E]); apply utf8_decode_encode in Ht.
  - rewrite <- E in Ht. vm_compute in Ht. discriminate Ht.
  - vm_compute in E. discriminate E.
Qed.

Lemma partial_mark_is_no_utf8 :
  ~ well_encoded utf_8_sig (map Byte.to_N [Byte.xef; Byte.xbb]).
Proof.
  intros (t & bs & Ht & [E|E]); apply utf8_decode_encode in Ht.
  - rewrite <- E in Ht. vm_compute in Ht. discriminate Ht.
  - vm_compute in E. discriminate E.
Qed.

Lemma decoding_of_the_file_witness :
  (~ well_encoded utf_8_sig (map Byte.to_N latin1_report)
   /\ output_on "vitest-results-clean.json" latin1_report
        vitest_report_summary
      = ([], Raise UnicodeDecodeError))
  /\ (~ well_encoded utf_8_sig (map Byte.to_N [Byte.xef; Byte.xbb])
      /\ output_on "vitest-results-clean.json" [Byte.xef; Byte.xbb]
           vitest_report_summary
         = ([], Raise JSONDecodeError)).
Proof.
  split; split.
  - exact latin1_report_is_no_utf8.
  - exact (proj1 decoding_of_the_file latin1_report
             latin1_report_is_no_utf8).
  - exact partial_mark_is_no_utf8.
  - exact (proj1 decoding_of_the_file [Byte.xef; Byte.xbb]
             partial_mark_is_no_utf8).
Defined.

(** ** Strings: written, then read *)





Opaque N.add N.mul N.div N.modulo N.sub.




Transparent N.add N.mul N.div N.modulo N.sub.

(** ** The failure list: written, then read *)

(** The equations of the scanner. *)
Lemma scan_once_quote fuel s1 :
  scan_once (S fuel) (QUOTE :: s1)
  = then_close (scanstring s1) (fun t rest => Parsed (JStr t) rest).
Proof. reflexivity. Qed.

Lemma scan_once_brace fuel s1 :
  scan_once (S fuel) (ch "{" :: s1)
  = match skip_whitespace s1 with
    | [] => Fail
    | c' :: s2 =>
        if (c' =? ch "}")%N then Parsed (JDict []) s2
        else parse_object fuel [] (c' :: s2)
    end.
Proof. reflexivity. Qed.

Lemma scan_once_bracket fuel s1 :
  scan_once (S fuel) (ch "[" :: s1)
  = match skip_whitespace s1 with
    | [] => Fail
    | c' :: s2 =>
        if (c' =? ch "]")%N then Parsed (JList []) s2
        else parse_array fuel [] (c' :: s2)
    end.
Proof. reflexivity. Qed.

Lemma parse_object_quote fuel rval s1 :
  parse_object (S fuel) rval (QUOTE :: s1)
  = then_close (scanstring s1) (fun key s2 =>
    match skip_whitespace s2 with
    | [] => Fail
    | c2 :: s3 =>
        if (c2 =? ch ":")%N then
          then_close (scan_once fuel (skip_whitespace s3)) (fun val s4 =>
          let rval := dict_set key val rval in
          match skip_whitespace s4 with
          | [] => Fail
          | c3 :: s5 =>
              if (c3 =? ch "}")%N then Parsed (JDict rval) s5
              else if (c3 =? ch ",")%N
              then parse_object fuel rval (skip_whitespace s5)
              else Fail
          end)
        else Fail
    end).
Proof. reflexivity. Qed.

Lemma parse_array_step fuel rval s :
  parse_array (S fuel) rval s
  = then_close (scan_once fuel s) (fun val s1 =>
    let rval := rval ++ [val] in
    match skip_whitespace s1 with
    | [] => Fail
    | c :: s2 =>
        if (c =? ch "]")%N then Parsed (JList rval) s2
        else if (c =? ch ",")%N
        then parse_array fuel rval (skip_whitespace s2)
        else Fail
    end).
Proof. reflexivity. Qed.









Lemma skip_whitespace_item v item tail :
  reads_as v item -> skip_whitespace (item ++ tail) = item ++ tail.
Proof. intros (_ & (item' & ->) & _). reflexivity. Qed.




(** ** The strings of a loaded report *)
















(** ** The values of a loaded report *)












Lemma then_close_parsed {A} (p : parsed A) k v r :
  then_close p k = Parsed v r ->
  exists a rest, p = Parsed a rest /\ k a rest = Parsed v r.
Proof.
  destruct p as [a rest| |]; cbn [then_close]; try discriminate. eauto.
Qed.



(** ** The failure list of a loaded report *)












(** ** The fuel of the scanner *)

Lemma skip_whitespace_length s :
  (List.length (skip_whitespace s) <= List.length s)%nat.
Proof.
  induction s as [|c s IH]; [reflexivity|]. cbn [skip_whitespace].
  destruct (is_whitespace c); cbn [List.length]; lia.
Qed.

Lemma span_digits_length s ds r :
  span_digits s = (ds, r) -> (List.length r <= List.length s)%nat.
Proof.
  revert ds r; induction s as [|c s IH]; intros ds r; cbn [span_digits].
  - now intros [= <- <-].
  - destruct (is_digit c).
    + destruct (span_digits s) as [ds' r'] eqn:E. intros [= <- <-].
      specialize (IH _ _ eq_refl). cbn [List.length]. lia.
    + now intros [= <- <-].
Qed.

Lemma sign_part_length s sign s1 :
  sign_part s = (sign, s1) -> (List.length s1 <= List.length s)%nat.
Proof.
  unfold sign_part. destruct s as [|c s']; [now intros [= <- <-]|].
  destruct (c =? ch "-")%N; intros [= <- <-]; cbn [List.length]; lia.
Qed.

Lemma int_part_length c s2 ds s3 :
  int_part c s2 = (ds, s3) -> (List.length s3 <= List.length s2)%nat.
Proof.
  unfold int_part. destruct (c =? ch "0")%N; [now intros [= <- <-]|].
  destruct (span_digits s2) as [ds' r] eqn:E. intros [= <- <-].
  now apply (span_digits_length _ _ _ E).
Qed.

Lemma frac_part_length s3 frac s4 :
  frac_part s3 = (frac, s4) -> (List.length s4 <= List.length s3)%nat.
Proof.
  unfold frac_part.
  destruct s3 as [|dot [|d s']]; try (now intros [= <- <-]).
  destruct ((dot =? ch ".")%N && is_digit d); [|now intros [= <- <-]].
  destruct (span_digits s') as [ds r] eqn:E. intros [= <- <-].
  apply span_digits_length in E. cbn [List.length]. lia.
Qed.

Lemma exp_part_length s4 e s5 :
  exp_part s4 = (e, s5) -> (List.length s5 <= List.length s4)%nat.
Proof.
  unfold exp_part. destruct s4 as [|c s']; [now intros [= <- <-]|].
  destruct ((c =? ch "e") || (c =? ch "E"))%N; [|now intros [= <- <-]].
  intros E.
  destruct s' as [|c' r].
  - destruct (span_digits []) as [[|d ds] rest] eqn:Ed;
      injection E as <- <-; [lia|].
    apply span_digits_length in Ed. cbn [List.length] in *. lia.
  - destruct ((c' =? ch "-") || (c' =? ch "+"))%N.
    + destruct (span_digits r) as [[|d ds] rest] eqn:Ed;
        injection E as <- <-; [lia|].
      apply span_digits_length in Ed. cbn [List.length] in *. lia.
    + destruct (span_digits (c' :: r)) as [[|d ds] rest] eqn:Ed;
        injection E as <- <-; [lia|].
      apply span_digits_length in Ed. cbn [List.length] in *. lia.
Qed.

Lemma match_number_length s v r :
  match_number s = Parsed v r -> (List.length r <= List.length s)%nat.
Proof.
  intros H. unfold match_number in H.
  destruct (sign_part s) as [sign s1] eqn:E1.
  apply sign_part_length in E1.
  destruct s1 as [|c s2]; [discriminate|].
  destruct (is_digit c); [|discriminate].
  destruct (int_part c s2) as [ds s3] eqn:E2. apply int_part_length in E2.
  destruct (frac_part s3) as [frac s4] eqn:E3. apply frac_part_length in E3.
  destruct (exp_part s4) as [e s5] eqn:E4. apply exp_part_length in E4.
  cbn [List.length] in *.
  destruct frac; destruct e; injection H as <- <-; lia.
Qed.

Lemma constant_length name c s p v r :
  constant name c s = Some p -> p = Parsed v r ->
  (List.length r <= List.length s)%nat.
Proof.
  intros H ->. unfold constant in H.
  destruct (prefixb (lit name) s); [|discriminate].
  injection H as <- <-. rewrite length_skipn. lia.
Qed.

Lemma push_length c p t r n :
  (forall t' , p = Parsed t' r -> (List.length r <= n)%nat) ->
  push c p = Parsed t r -> (List.length r <= n)%nat.
Proof.
  intros Hp H. destruct p as [t' r'| |]; cbn [push] in H; try discriminate.
  injection H as <- <-. now apply (Hp t').
Qed.

Lemma scanstring_length s t r :
  scanstring s = Parsed t r -> (List.length r <= List.length s)%nat.
Proof.
  remember (List.length s) as n eqn:Hn.
  assert (Hle : (List.length s <= n)%nat) by lia.
  assert (Hgoal : forall t r, scanstring s = Parsed t r ->
                              (List.length r <= List.length s)%nat);
    [|intros H; subst n; now apply (Hgoal t r)].
  clear Hn t r. revert s Hle. induction n as [|n IH]; intros s Hle t r H.
  - destruct s; [discriminate H | cbn in Hle; lia].
  - destruct s as [|c s1]; [discriminate|].
    cbn [scanstring] in H. cbn [List.length] in *.
    assert (Hrec : forall s' t', (List.length s' <= List.length s1)%nat ->
                     scanstring s' = Parsed t' r ->
                     (List.length r <= S (List.length s1))%nat).
    { intros s' t' Hs' Hp. apply IH in Hp; lia. }
    repeat match type of H with
           | (if ?b then _ else _) = _ => destruct b
           | match ?l with [] => _ | _ :: _ => _ end = _ =>
               destruct l; cbn [List.length] in *
           | match ?o with Some _ => _ | None => _ end = _ => destruct o
           | Fail = _ => discriminate H
           | Parsed _ _ = _ => injection H as <- <-; lia
           | push _ (scanstring ?s') = _ =>
               apply (push_length _ _ _ _ _
                        (fun t' Hp => Hrec s' t' ltac:(cbn [List.length]; lia)
                                             Hp)) in H;
               exact H
           end.
Qed.

(** A term the scanner reads with some fuel, it reads with any fuel
    above the number of characters the term takes. *)
Lemma scanner_fuel m :
  (forall s v r,
     scan_once m s = Parsed v r ->
     (List.length r <= List.length s)%nat
     /\ forall n, (List.length s - List.length r < n)%nat ->
                  scan_once n s = Parsed v r)
  /\ (forall rval s v r,
        parse_object m rval s = Parsed v r ->
        (List.length r <= List.length s)%nat
        /\ forall n, (List.length s - List.length r < n)%nat ->
                     parse_object n rval s = Parsed v r)
  /\ (forall rval s v r,
        parse_array m rval s = Parsed v r ->
        (List.length r <= List.length s)%nat
        /\ forall n, (List.length s - List.length r < n)%nat ->
                     parse_array n rval s = Parsed v r).
Proof.
  induction m as [|m (IHs & IHo & IHa)].
  { repeat split; intros; discriminate. }
  split; [|split].
  - intros s v r H. destruct s as [|c s1]; [discriminate|].
    cbn [scan_once] in H. cbn [List.length].
    destruct (c =? QUOTE)%N eqn:E1.
    { apply then_close_parsed in H as (t & rest & Hp & [= <- <-]).
      pose proof (scanstring_length _ _ _ Hp). split; [lia|].
      intros [|n] Hn; [lia|]. cbn [scan_once]. now rewrite E1, Hp. }
    destruct (c =? ch "{")%N eqn:E2.
    { pose proof (skip_whitespace_length s1) as Hw.
      destruct (skip_whitespace s1) as [|c' s2] eqn:Ew; [discriminate|].
      cbn [List.length] in Hw.
      destruct (c' =? ch "}")%N eqn:E3.
      - injection H as <- <-. split; [lia|].
        intros [|n] Hn; [lia|]. cbn [scan_once]. now rewrite E1, E2, Ew, E3.
      - apply IHo in H as [Hl Hf]. cbn [List.length] in Hl. split; [lia|].
        intros [|n] Hn; [lia|]. cbn [scan_once]. rewrite E1, E2, Ew, E3.
        apply Hf. cbn [List.length]. lia. }
    destruct (c =? ch "[")%N eqn:E3.
    { pose proof (skip_whitespace_length s1) as Hw.
      destruct (skip_whitespace s1) as [|c' s2] eqn:Ew; [discriminate|].
      cbn [List.length] in Hw.
      destruct (c' =? ch "]")%N eqn:E4.
      - injection H as <- <-. split; [lia|].
        intros [|n] Hn; [lia|].
        cbn [scan_once]. now rewrite E1, E2, E3, Ew, E4.
      - apply IHa in H as [Hl Hf]. cbn [List.length] in Hl. split; [lia|].
        intros [|n] Hn; [lia|]. cbn [scan_once]. rewrite E1, E2, E3, Ew, E4.
        apply Hf. cbn [List.length]. lia. }
    assert (Hl : (List.length r <= S (List.length s1))%nat).
    { repeat match type of H with
             | match constant ?name ?k ?x with _ => _ end = _ =>
                 let E := fresh "E" in
                 destruct (constant name k x) as [p|] eqn:E;
                 [exact (constant_length _ _ _ _ _ _ E H) |]
             end.
      exact (match_number_length _ _ _ H). }
    split; [exact Hl|].
    intros [|n] Hn; [lia|]. cbn [scan_once]. rewrite E1, E2, E3. exact H.
  - intros rval s v r H. destruct s as [|c s1]; [discriminate|].
    cbn [parse_object] in H. cbn [List.length].
    destruct (c =? QUOTE)%N eqn:E1; [|discriminate].
    apply then_close_parsed in H as (key & s2 & Hp & H).
    pose proof (scanstring_length _ _ _ Hp) as Hk.
    pose proof (skip_whitespace_length s2) as Hw.
    destruct (skip_whitespace s2) as [|c2 s3] eqn:Ew; [discriminate|].
    cbn [List.length] in Hw.
    destruct (c2 =? ch ":")%N eqn:E2; [|discriminate].
    apply then_close_parsed in H as (val & s4 & Hv & H).
    apply IHs in Hv as [Hvl Hvf].
    pose proof (skip_whitespace_length s3) as Hw3.
    cbv zeta in H.
    pose proof (skip_whitespace_length s4) as Hw4.
    destruct (skip_whitespace s4) as [|c3 s5] eqn:Ew4; [discriminate|].
    cbn [List.length] in Hw4.
    destruct (c3 =? ch "}")%N eqn:E3.
    + injection H as <- <-. split; [lia|].
      intros [|n] Hn; [lia|]. cbn [parse_object].
      rewrite E1, Hp. cbn [then_close]. rewrite Ew, E2.
      rewrite Hvf by lia. cbn [then_close]. now rewrite Ew4, E3.
    + destruct (c3 =? ch ",")%N eqn:E4; [|discriminate].
      pose proof (skip_whitespace_length s5) as Hw5.
      apply IHo in H as [Hl Hf]. split; [lia|].
      intros [|n] Hn; [lia|]. cbn [parse_object].
      rewrite E1, Hp. cbn [then_close]. rewrite Ew, E2.
      rewrite Hvf by lia. cbn [then_close]. rewrite Ew4, E3, E4.
      apply Hf. lia.
  - intros rval s v r H. cbn [parse_array] in H.
    apply then_close_parsed in H as (val & s1 & Hv & H).
    apply IHs in Hv as [Hvl Hvf].
    cbv zeta in H.
    pose proof (skip_whitespace_length s1) as Hw.
    destruct (skip_whitespace s1) as [|c s2] eqn:Ew; [discriminate|].
    cbn [List.length] in Hw.
    destruct (c =? ch "]")%N eqn:E1.
    + injection H as <- <-. split; [lia|].
      intros [|n] Hn; [lia|]. cbn [parse_array].
      rewrite Hvf by lia. cbn [then_close]. now rewrite Ew, E1.
    + destruct (c =? ch ",")%N eqn:E2; [|discriminate].
      pose proof (skip_whitespace_length s2) as Hw2.
      apply IHa in H as [Hl Hf]. split; [lia|].
      intros [|n] Hn; [lia|]. cbn [parse_array].
      rewrite Hvf by lia. cbn [then_close]. rewrite Ew, E1, E2.
      apply Hf. lia.
Qed.

(** The fuel [json_loads] gives the scanner is enough: more fuel
    changes nothing. *)
Lemma json_loads_fuel m s :
  (S (List.length (skip_whitespace s)) <= m)%nat ->
  match scan_once m (skip_whitespace s) with
  | Parsed obj rest =>
      match skip_whitespace rest with
      | [] => Ok obj
      | _ :: _ => Raise JSONDecodeError
      end
  | _ => Raise JSONDecodeError
  end = json_loads s.
Proof.
  intros Hm. unfold json_loads.
  set (s' := skip_whitespace s) in *.
  destruct (scan_once m s') as [obj rest| |] eqn:Em.
  - destruct (proj1 (scanner_fuel m) _ _ _ Em) as [Hl Hf].
    rewrite (Hf (S (List.length s'))) by lia. reflexivity.
  - destruct (scan_once (S (List.length s')) s') as [obj rest| |] eqn:Es;
      try reflexivity.
    destruct (proj1 (scanner_fuel _) _ _ _ Es) as [Hl Hf].
    rewrite (Hf m) in Em by lia. discriminate Em.
  - destruct (scan_once (S (List.length s')) s') as [obj rest| |] eqn:Es;
      try reflexivity.
    destruct (proj1 (scanner_fuel _) _ _ _ Es) as [Hl Hf].
    rewrite (Hf m) in Em by lia. discriminate Em.
Qed.

(** * Further properties of the scripts *)

(** ** check_full.py on a well-formed report *)

Lemma totals_wf d :
  has d "numTotalTests" is_int = true ->
  has d "numPassedTests" is_int = true ->
  has d "numFailedTests" is_int = true ->
  has d "numFailedTestSuites" is_int = true ->
  CheckFull.totals (JDict d) = ([totals_text (JDict d)], Ok tt).
Proof.
  intros H1 H2 H3 H4.
  destruct (has_int _ _ H1) as [z1 E1]. destruct (has_int _ _ H2) as [z2 E2].
  destruct (has_int _ _ H3) as [z3 E3]. destruct (has_int _ _ H4) as [z4 E4].
  unfold CheckFull.totals, totals_text, counter, field, subscript.
  rewrite E1, E2, E3, E4. reflexivity.
Qed.

Lemma suite_line_wf suite :
  wf_suite suite = true ->
  CheckFull.suite_line suite
  = (if is_failed suite then [suite_count_line suite] else [], Ok tt).
Proof.
  intros H. unfold CheckFull.suite_line.
  rewrite (failed_assertions_wf _ H).
  destruct (wf_suite_inv _ H) as (d & name & status & l & -> & Hn & Hs & _).
  assert (Tn : text_field "name" (JDict d) = name)
    by (unfold text_field, field; now rewrite Hn).
  unfold suite_count_line. rewrite Tn.
  unfold is_failed, field, get, subscript. rewrite Hs, Hn.
  rewrite bind_lift_ok.
  destruct (eq_str (JStr status) (lit "failed")); [|reflexivity].
  rewrite !bind_lift_ok. unfold str. rewrite bind_lift_ok. reflexivity.
Qed.

Lemma for_each_suite_line suites :
  forallb wf_suite suites = true ->
  for_each suites CheckFull.suite_line
  = (map suite_count_line (filter is_failed suites), Ok tt).
Proof.
  induction suites as [|s suites IH]; [reflexivity|].
  cbn [forallb for_each filter]. rewrite andb_true_iff. intros [Hs Hl].
  rewrite (suite_line_wf _ Hs), (IH Hl).
  destruct (is_failed s); reflexivity.
Qed.

Lemma check_full_main_wf data :
  wf_report data = true ->
  CheckFull.main data = (check_full_of data, Ok tt).
Proof.
  destruct data as [| | | | |l|d]; try discriminate. unfold wf_report.
  rewrite !andb_true_iff.
  intros [[[[[[[[H1 H2] H3] H4] H5] H6] H7] H8] H9].
  destruct (dict_get (lit "testResults") d) as [[| | | | |suites|]|] eqn:E;
    try discriminate.
  unfold CheckFull.main, check_full_of, failed_suites, suites_of, list_field,
    field.
  rewrite (totals_wf _ H1 H2 H3 H7), E.
  unfold subscript. rewrite E.
  rewrite bind_out. cbv beta. rewrite bind_lift_ok. cbn [iter].
  rewrite bind_lift_ok, (for_each_suite_line _ H9). reflexivity.
Qed.

(** X1. On a well-formed report [check_full.py] ends normally and
    prints the line of the totals and then, for each suite whose
    status is [failed] and in the order of the report, the name of the
    suite and the number of its assertions whose status is [failed];
    a suite with another status prints no line, whatever its
    assertions are. *)
Theorem check_full_output (data : value) :
  wf_report data = true ->
  CheckFull.main data
  = (totals_text data :: map suite_count_line (failed_suites data), Ok tt).
Proof. exact (check_full_main_wf data). Qed.

Lemma check_full_output_witness :
  wf_report (loaded sample_report) = true
  /\ CheckFull.main (loaded sample_report)
     = (totals_text (loaded sample_report)
        :: map suite_count_line (failed_suites (loaded sample_report)),
        Ok tt)
  /\ shown (check_full_of (loaded sample_report), Ok tt)
     = (["total=3 passed=1 failed=2 failedSuites=1";
         "src/team.test.ts :: 2"]%string, Ok tt).
Proof.
  split; [vm_compute; reflexivity|].
  split; [|vm_compute; reflexivity].
  apply (check_full_output (loaded sample_report)).
  vm_compute; reflexivity.
Defined.

(** ** Runs that end normally *)





Section Normal_runs.
Import VitestReportSummary.






End Normal_runs.


(** ** Files that are missing *)

(** X3. A script whose file is missing ends with [FileNotFoundError]
    and leaves the world as it was: nothing is printed.  The first
    three scripts look for [vitest-results.json], the last one for
    [vitest-results-clean.json]. *)
Theorem missing_file (w : world) :
  (files w "vitest-results.json" = None ->
   check_full w = (w, Raise FileNotFoundError)
   /\ failed_details w = (w, Raise FileNotFoundError)
   /\ temp_decode w = (w, Raise FileNotFoundError))
  /\ (files w "vitest-results-clean.json" = None ->
      vitest_report_summary w = (w, Raise FileNotFoundError)).
Proof.
  unfold check_full, failed_details, temp_decode, vitest_report_summary.
  split; intros H; rewrite ?script_effect, H; auto.
Qed.

Lemma missing_file_witness :
  (check_full (one_file "vitest-results-clean.json" sample_report)
   = (one_file "vitest-results-clean.json" sample_report,
      Raise FileNotFoundError)
   /\ failed_details (one_file "vitest-results-clean.json" sample_report)
      = (one_file "vitest-results-clean.json" sample_report,
         Raise FileNotFoundError)
   /\ temp_decode (one_file "vitest-results-clean.json" sample_report)
      = (one_file "vitest-results-clean.json" sample_report,
         Raise FileNotFoundError))
  /\ vitest_report_summary (one_file "vitest-results.json" sample_report)
     = (one_file "vitest-results.json" sample_report,
        Raise FileNotFoundError).
Proof.
  split.
  - apply (proj1 (missing_file
                    (one_file "vitest-results-clean.json" sample_report))).
    reflexivity.
  - apply (proj2 (missing_file
                    (one_file "vitest-results.json" sample_report))).
    reflexivity.
Defined.

(** ** Documents that are no object *)

(** X4. When the document is a list, a string, a number, a boolean or
    [null], each script ends with [TypeError] at its first subscript
    and prints nothing. *)
Theorem document_not_an_object (data : value) :
  is_dict data = false ->
  CheckFull.main data = ([], Raise TypeError)
  /\ FailedDetails.main data = ([], Raise TypeError)
  /\ TempDecode.main data = ([], Raise TypeError)
  /\ VitestReportSummary.main data = ([], Raise TypeError).
Proof.
  destruct data; try discriminate; intros _; repeat split.
Qed.

Lemma document_not_an_object_witness :
  json_loads (lit "[1, 2]") = Ok (JList [JInt 1; JInt 2])
  /\ CheckFull.main (JList [JInt 1; JInt 2]) = ([], Raise TypeError)
  /\ FailedDetails.main (JList [JInt 1; JInt 2]) = ([], Raise TypeError)
  /\ TempDecode.main (JList [JInt 1; JInt 2]) = ([], Raise TypeError)
  /\ VitestReportSummary.main (JList [JInt 1; JInt 2])
     = ([], Raise TypeError).
Proof.
  split; [vm_compute; reflexivity|].
  apply (document_not_an_object (JList [JInt 1; JInt 2])). reflexivity.
Defined.

(** ** Texts that are no JSON *)

Lemma constant_mismatch name v c x :
  match list_ascii_of_string name with
  | a :: _ => N_of_ascii a <> c
  | [] => False
  end ->
  constant name v (c :: x) = None.
Proof.
  unfold constant, lit.
  destruct (list_ascii_of_string name) as [|a l]; [intros []|].
  intros H. cbn [map prefixb].
  apply N.eqb_neq in H. now rewrite H.
Qed.

(** No term starts with the character [NUL] or with a character
    above 127. *)
Lemma scan_once_bad_start fuel c x :
  (c = 0 \/ 128 <= c)%N -> scan_once (S fuel) (c :: x) = Fail.
Proof.
  intros H. cbn [scan_once].
  replace (c =? QUOTE)%N with false
    by (symmetry; apply N.eqb_neq; unfold QUOTE; lia).
  replace (c =? ch "{")%N with false
    by (symmetry; apply N.eqb_neq; cbn; lia).
  replace (c =? ch "[")%N with false
    by (symmetry; apply N.eqb_neq; cbn; lia).
  rewrite !constant_mismatch by (cbn; lia).
  unfold match_number, sign_part.
  replace (c =? ch "-")%N with false
    by (symmetry; apply N.eqb_neq; cbn; lia).
  unfold is_digit.
  destruct H as [-> | H]; [reflexivity|].
  replace (c <=? 57)%N with false by (symmetry; apply N.leb_gt; lia).
  now rewrite andb_false_r.
Qed.

Lemma skip_whitespace_bad_start c x :
  (c = 0 \/ 128 <= c)%N -> skip_whitespace (c :: x) = c :: x.
Proof.
  intros H. cbn [skip_whitespace]. unfold is_whitespace.
  replace (c =? 32)%N with false by (symmetry; apply N.eqb_neq; lia).
  replace (c =? 9)%N with false by (symmetry; apply N.eqb_neq; lia).
  replace (c =? 10)%N with false by (symmetry; apply N.eqb_neq; lia).
  replace (c =? 13)%N with false by (symmetry; apply N.eqb_neq; lia).
  reflexivity.
Qed.

Lemma json_loads_bad_start c x :
  (c = 0 \/ 128 <= c)%N -> json_loads (c :: x) = Raise JSONDecodeError.
Proof.
  intros H. unfold json_loads.
  rewrite (skip_whitespace_bad_start _ _ H).
  cbn [List.length]. now rewrite (scan_once_bad_start _ _ _ H).
Qed.

Lemma universal_newlines_bad_start c x :
  (c = 0 \/ 128 <= c)%N ->
  universal_newlines (c :: x) = c :: universal_newlines x.
Proof.
  intros H. cbn [universal_newlines].
  now replace (c =? 13)%N with false by (symmetry; apply N.eqb_neq; lia).
Qed.

(** A text of white space only is no JSON. *)
Lemma json_loads_blank t :
  forallb is_whitespace t = true -> json_loads t = Raise JSONDecodeError.
Proof.
  intros H. unfold json_loads.
  assert (E : skip_whitespace t = []).
  { induction t as [|c t IH]; [reflexivity|].
    cbn [forallb] in H. apply andb_true_iff in H as [Hc Ht].
    cbn [skip_whitespace]. rewrite Hc. now apply IH. }
  rewrite E. reflexivity.
Qed.

Lemma universal_newlines_blank t :
  forallb is_whitespace t = true ->
  forallb is_whitespace (universal_newlines t) = true.
Proof.
  remember (List.length t) as n eqn:Hn.
  assert (Hle : (List.length t <= n)%nat) by lia. clear Hn.
  revert t Hle. induction n as [|n IH]; intros t Hle H.
  - destruct t; [reflexivity | cbn in Hle; lia].
  - destruct t as [|c t]; [reflexivity|].
    cbn [forallb List.length] in *. apply andb_true_iff in H as [Hc Ht].
    cbn [universal_newlines].
    destruct (c =? 13)%N.
    + destruct t as [|c' t'']; [reflexivity|].
      cbn [forallb List.length] in *.
      apply andb_true_iff in Ht as [Hc' Ht''].
      destruct (c' =? 10)%N; cbn [forallb];
        change (is_whitespace NL) with true; cbn [andb]; apply IH;
        cbn [forallb List.length]; try lia; auto.
      now rewrite Hc', Ht''.
    + cbn [forallb]. rewrite Hc. apply IH; [lia | exact Ht].
Qed.

(** ** Bytes below 128 *)

Lemma utf8_decode_ascii errors (bs : list N) :
  forallb (fun b => (b <? 128)%N) bs = true -> utf8_decode errors bs = Ok bs.
Proof.
  induction bs as [|b bs IH]; [reflexivity|].
  cbn [forallb]. rewrite andb_true_iff. intros [Hb Hbs].
  cbn [utf8_decode]. rewrite Hb, (IH Hbs). reflexivity.
Qed.

Lemma forallb_to_N (p : N -> bool) (bytes : list Byte.byte) :
  forallb p (map Byte.to_N bytes) = forallb (fun b => p (Byte.to_N b)) bytes.
Proof.
  induction bytes as [|b bytes IH]; [reflexivity|].
  cbn [map forallb]. now rewrite IH.
Qed.

Lemma is_blank_ascii bytes : is_blank bytes = true -> is_ascii bytes = true.
Proof.
  unfold is_blank, is_ascii. rewrite !forallb_forall. intros H b Hb.
  specialize (H b Hb). unfold is_whitespace in H.
  apply N.ltb_lt.
  repeat (apply orb_true_iff in H as [H|H]); apply N.eqb_eq in H; lia.
Qed.

(** ** A text with [NUL] after its first character *)

Lemma prefixb_second a b p c rest :
  b <> 0%N -> prefixb (a :: b :: p) (c :: 0%N :: rest) = false.
Proof.
  intros H. cbn [prefixb]. apply N.eqb_neq in H. rewrite H.
  cbn [andb]. apply andb_false_r.
Qed.

Lemma match_number_wide c rest :
  match match_number (c :: 0%N :: rest) with
  | Parsed _ r => r = 0%N :: rest
  | Fail => True
  | OutOfFuel => False
  end.
Proof.
  unfold match_number, sign_part.
  destruct (c =? ch "-")%N; [exact I|].
  destruct (is_digit c); [|exact I].
  assert (E3 : int_part c (0%N :: rest)
               = (if (c =? ch "0")%N then [c] else [c], 0%N :: rest)).
  { unfold int_part. now destruct (c =? ch "0")%N. }
  rewrite E3.
  assert (E4 : frac_part (0%N :: rest) = ([], 0%N :: rest))
    by (now destruct rest).
  rewrite E4.
  assert (E5 : exp_part (0%N :: rest) = ([], 0%N :: rest)) by reflexivity.
  rewrite E5. reflexivity.
Qed.

Lemma json_loads_wide c rest :
  json_loads (c :: 0%N :: rest) = Raise JSONDecodeError.
Proof.
  unfold json_loads.
  destruct (is_whitespace c) eqn:Ew.
  - assert (E : skip_whitespace (c :: 0%N :: rest) = 0%N :: rest)
      by (cbn [skip_whitespace]; now rewrite Ew).
    rewrite E. cbn [List.length]. now rewrite scan_once_bad_start by lia.
  - assert (E : skip_whitespace (c :: 0%N :: rest) = c :: 0%N :: rest)
      by (cbn [skip_whitespace]; now rewrite Ew).
    rewrite E. cbn [List.length].
    destruct (N.eqb_spec c QUOTE) as [->|H1].
    { rewrite scan_once_quote. reflexivity. }
    destruct (N.eqb_spec c (ch "{")) as [->|H2].
    { rewrite scan_once_brace.
      rewrite (skip_whitespace_bad_start 0 rest) by lia. reflexivity. }
    destruct (N.eqb_spec c (ch "[")) as [->|H3].
    { rewrite scan_once_bracket.
      rewrite (skip_whitespace_bad_start 0 rest) by lia.
      change (0 =? ch "]")%N with false. cbn iota.
      rewrite parse_array_step. now rewrite scan_once_bad_start by lia. }
    cbn [scan_once].
    apply N.eqb_neq in H1, H2, H3. rewrite H1, H2, H3.
    unfold constant.
    change (lit "null") with [110; 117; 108; 108]%N.
    change (lit "true") with [116; 114; 117; 101]%N.
    change (lit "false") with [102; 97; 108; 115; 101]%N.
    change (lit "NaN") with [78; 97; 78]%N.
    change (lit "Infinity") with [73; 110; 102; 105; 110; 105; 116; 121]%N.
    change (lit "-Infinity")
      with [45; 73; 110; 102; 105; 110; 105; 116; 121]%N.
    rewrite !prefixb_second by lia.
    pose proof (match_number_wide c rest) as Hn.
    destruct (match_number (c :: 0%N :: rest)) as [v r| |];
      [|reflexivity|destruct Hn].
    subst r. now rewrite (skip_whitespace_bad_start 0 rest) by lia.
Qed.

(** The text of a file of bytes below 128 that is read as UTF-16:
    with no [NUL] in the file, its first character is above 127. *)
Lemma utf16_of_ascii (bs : list N) :
  forallb (fun b => (b <? 128)%N) bs = true ->
  forallb (fun b => negb (b =? 0)%N) bs = true ->
  exists t, utf16_le_decode ignore bs = Ok t
            /\ match t with
               | [] => True
               | c :: _ => (128 <= c)%N
               end.
Proof.
  intros Ha Hn. destruct bs as [|lo [|hi q2]].
  - now exists [].
  - now exists [].
  - cbn [forallb] in Ha, Hn.
    apply andb_true_iff in Ha as [Hl Ha]. apply andb_true_iff in Ha as [Ha _].
    apply andb_true_iff in Hn as [_ Hn]. apply andb_true_iff in Hn as [Hn _].
    apply N.ltb_lt in Hl, Ha. apply negb_true_iff, N.eqb_neq in Hn.
    destruct (utf16_le_decode_ignore_total q2) as [t Ht].
    exists ((hi * 256 + lo)%N :: t). split; [|lia].
    cbn [utf16_le_decode]. unfold is_surrogate.
    replace (hi * 256 + lo <? 57344)%N with true
      by (symmetry; apply N.ltb_lt; lia).
    replace (55296 <=? hi * 256 + lo)%N with false
      by (symmetry; apply N.leb_gt; lia).
    cbn [andb negb]. now rewrite Ht.
Qed.

Lemma json_loads_high_start t :
  match t with
  | [] => True
  | c :: _ => (128 <= c)%N
  end ->
  json_loads (universal_newlines t) = Raise JSONDecodeError.
Proof.
  destruct t as [|c x]; [reflexivity|]. intros H.
  rewrite universal_newlines_bad_start by lia.
  apply json_loads_bad_start. lia.
Qed.

(** The UTF-16 encoding of bytes below 128 puts [NUL] after each. *)
Lemma universal_newlines_wide c rest :
  exists c' rest', universal_newlines (c :: 0%N :: rest) = c' :: 0%N :: rest'.
Proof.
  cbn [universal_newlines].
  destruct (c =? 13)%N; cbn; eauto.
Qed.

Lemma is_ascii_utf16 s : is_ascii s = true -> is_ascii (utf16_le_bytes s) = true.
Proof.
  unfold is_ascii, utf16_le_bytes.
  induction s as [|b s IH]; [reflexivity|].
  cbn [forallb flat_map app]. rewrite andb_true_iff. intros [Hb Hs].
  rewrite Hb, (IH Hs). reflexivity.
Qed.

Lemma utf16_le_encode_ascii s :
  is_ascii s = true ->
  utf16_le_encode (map Byte.to_N s) = Some (map Byte.to_N (utf16_le_bytes s)).
Proof.
  unfold is_ascii, utf16_le_bytes.
  induction s as [|b s IH]; [reflexivity|].
  cbn [forallb flat_map app map utf16_le_encode].
  rewrite andb_true_iff. intros [Hb Hs].
  rewrite (IH Hs). apply N.ltb_lt in Hb.
  unfold utf16_le_encode_char, is_surrogate.
  replace (Byte.to_N b <? 65536)%N with true
    by (symmetry; apply N.ltb_lt; lia).
  replace (55296 <=? Byte.to_N b)%N with false
    by (symmetry; apply N.leb_gt; lia).
  cbn [andb app]. rewrite N.mod_small, N.div_small by lia. reflexivity.
Qed.

(** ** Files the scripts cannot read *)

Lemma decode_sig_ascii errors (bs : list N) :
  forallb (fun b => (b <? 128)%N) bs = true ->
  decode utf_8_sig errors bs = Ok bs.
Proof.
  intros H. unfold decode, starts_mark.
  pose proof (utf8_decode_ascii errors bs H) as Hd.
  destruct bs as [|b1 bs]; [reflexivity|].
  cbn [forallb] in H. apply andb_true_iff in H as [H1 _].
  apply N.ltb_lt in H1.
  replace (b1 =? 239)%N with false by (symmetry; apply N.eqb_neq; lia).
  cbn [andb]. now destruct bs as [|b2 [|b3 bs]].
Qed.

Lemma is_blank_no_nul bytes : is_blank bytes = true -> no_nul bytes = true.
Proof.
  unfold is_blank, no_nul. rewrite !forallb_forall. intros H b Hb.
  specialize (H b Hb). unfold is_whitespace in H.
  apply negb_true_iff, N.eqb_neq.
  repeat (apply orb_true_iff in H as [H|H]); apply N.eqb_eq in H; lia.
Qed.

Lemma temp_decode_of_ascii bytes :
  is_ascii bytes = true -> no_nul bytes = true ->
  output_on "vitest-results.json" bytes temp_decode
  = ([], Raise JSONDecodeError).
Proof.
  intros Ha Hn. unfold temp_decode. rewrite output_on_script.
  unfold is_ascii, no_nul in *.
  rewrite <- (forallb_to_N (fun b => (b <? 128)%N)) in Ha.
  rewrite <- (forallb_to_N (fun b => negb (b =? 0)%N)) in Hn.
  destruct (utf16_of_ascii _ Ha Hn) as (t & Ht & Hstart).
  unfold decode. rewrite Ht. cbn [res_bind].
  now rewrite (json_loads_high_start _ Hstart).
Qed.

(** X5. A file that is empty, or holds white space only, is no JSON:
    each of the four scripts prints nothing and ends with
    [JSONDecodeError]. *)
Theorem blank_file (bytes : list Byte.byte) :
  is_blank bytes = true ->
  output_on "vitest-results.json" bytes check_full
  = ([], Raise JSONDecodeError)
  /\ output_on "vitest-results.json" bytes failed_details
     = ([], Raise JSONDecodeError)
  /\ output_on "vitest-results.json" bytes temp_decode
     = ([], Raise JSONDecodeError)
  /\ output_on "vitest-results-clean.json" bytes vitest_report_summary
     = ([], Raise JSONDecodeError).
Proof.
  intros H.
  pose proof (is_blank_ascii _ H) as Ha.
  assert (Hw : forallb is_whitespace (map Byte.to_N bytes) = true)
    by (now rewrite forallb_to_N).
  assert (Hb : forallb (fun b => (b <? 128)%N) (map Byte.to_N bytes) = true)
    by (now rewrite forallb_to_N).
  pose proof (json_loads_blank _ (universal_newlines_blank _ Hw)) as Hj.
  unfold check_full, failed_details, vitest_report_summary.
  rewrite !output_on_script.
  rewrite (decode_sig_ascii strict _ Hb).
  unfold decode. rewrite (utf8_decode_ascii ignore _ Hb).
  cbn [res_bind]. rewrite Hj.
  repeat split.
  apply temp_decode_of_ascii; [exact Ha | now apply is_blank_no_nul].
Qed.

Lemma blank_file_witness :
  output_on "vitest-results.json" [Byte.x20; Byte.x0d; Byte.x0a] check_full
  = ([], Raise JSONDecodeError)
  /\ output_on "vitest-results.json" [Byte.x20; Byte.x0d; Byte.x0a]
       failed_details
     = ([], Raise JSONDecodeError)
  /\ output_on "vitest-results.json" [Byte.x20; Byte.x0d; Byte.x0a]
       temp_decode
     = ([], Raise JSONDecodeError)
  /\ output_on "vitest-results-clean.json" [Byte.x20; Byte.x0d; Byte.x0a]
       vitest_report_summary
     = ([], Raise JSONDecodeError).
Proof.
  apply (blank_file [Byte.x20; Byte.x0d; Byte.x0a]). reflexivity.
Defined.

(** X6. The three scripts that do not decode with [utf-8-sig] keep
    a byte-order mark as the character U+FEFF, with which no JSON text
    starts.  On every file that starts with the UTF-8 mark [EF BB BF],
    whatever follows it, [check_full.py] and [failed_details.py] print
    nothing and end with [JSONDecodeError]; so does [temp_decode.py]
    on every file that starts with the UTF-16 mark [FF FE]. *)
Theorem byte_order_mark_rejected (bytes : list Byte.byte) :
  output_on "vitest-results.json"
    (Byte.xef :: Byte.xbb :: Byte.xbf :: bytes) check_full
  = ([], Raise JSONDecodeError)
  /\ output_on "vitest-results.json"
       (Byte.xef :: Byte.xbb :: Byte.xbf :: bytes) failed_details
     = ([], Raise JSONDecodeError)
  /\ output_on "vitest-results.json"
       (Byte.xff :: Byte.xfe :: bytes) temp_decode
     = ([], Raise JSONDecodeError).
Proof.
  unfold check_full, failed_details, temp_decode. rewrite !output_on_script.
  unfold decode. cbn [map].
  change (utf8_decode ignore
            (Byte.to_N Byte.xef :: Byte.to_N Byte.xbb :: Byte.to_N Byte.xbf
             :: map Byte.to_N bytes))
    with (emit 65279 (utf8_decode ignore (map Byte.to_N bytes))).
  change (utf16_le_decode ignore
            (Byte.to_N Byte.xff :: Byte.to_N Byte.xfe :: map Byte.to_N bytes))
    with (emit 65279 (utf16_le_decode ignore (map Byte.to_N bytes))).
  destruct (utf8_decode_ignore_total (map Byte.to_N bytes)) as [t ->].
  destruct (utf16_le_decode_ignore_total (map Byte.to_N bytes)) as [t' ->].
  cbn [emit res_bind].
  rewrite !universal_newlines_bad_start by lia.
  rewrite !json_loads_bad_start by lia. repeat split.
Qed.

(** X7. A report in UTF-16, the encoding [temp_decode.py] reads,
    cannot be read by [check_full.py] and [failed_details.py]: for
    every text of characters below 128, on the file that is its
    UTF-16 encoding both print nothing and end with
    [JSONDecodeError]. *)
Theorem utf16_file_rejected (s : list Byte.byte) :
  is_ascii s = true ->
  utf16_le_encode (map Byte.to_N s) = Some (map Byte.to_N (utf16_le_bytes s))
  /\ output_on "vitest-results.json" (utf16_le_bytes s) check_full
     = ([], Raise JSONDecodeError)
  /\ output_on "vitest-results.json" (utf16_le_bytes s) failed_details
     = ([], Raise JSONDecodeError).
Proof.
  intros H. split; [now apply utf16_le_encode_ascii|].
  pose proof (is_ascii_utf16 _ H) as Ha. unfold is_ascii in Ha.
  rewrite <- (forallb_to_N (fun b => (b <? 128)%N)) in Ha.
  unfold check_full, failed_details. rewrite !output_on_script.
  unfold decode. rewrite (utf8_decode_ascii ignore _ Ha). cbn [res_bind].
  assert (Hj : json_loads (universal_newlines
                             (map Byte.to_N (utf16_le_bytes s)))
               = Raise JSONDecodeError).
  { destruct s as [|b s]; [reflexivity|].
    unfold utf16_le_bytes. cbn [flat_map app map].
    change (Byte.to_N Byte.x00) with 0%N.
    destruct (universal_newlines_wide (Byte.to_N b)
                (map Byte.to_N (flat_map (fun b => [b; Byte.x00]) s)))
      as (c' & rest' & ->).
    apply json_loads_wide. }
  rewrite Hj. split; reflexivity.
Qed.

Lemma utf16_file_rejected_witness :
  utf16_le_encode (map Byte.to_N sample_report)
  = Some (map Byte.to_N (utf16_le_bytes sample_report))
  /\ output_on "vitest-results.json" (utf16_le_bytes sample_report) check_full
     = ([], Raise JSONDecodeError)
  /\ output_on "vitest-results.json" (utf16_le_bytes sample_report)
       failed_details
     = ([], Raise JSONDecodeError).
Proof.
  apply (utf16_file_rejected sample_report). vm_compute. reflexivity.
Defined.

(** X8. A report in UTF-8, the encoding the other scripts read,
    cannot be read by [temp_decode.py]: on every file of bytes from 1
    to 127 it prints nothing and ends with [JSONDecodeError], because
    read as UTF-16 two such bytes are one character above 127. *)
Theorem ascii_file_rejected (bytes : list Byte.byte) :
  is_ascii bytes = true -> no_nul bytes = true ->
  output_on "vitest-results.json" bytes temp_decode
  = ([], Raise JSONDecodeError).
Proof. exact (temp_decode_of_ascii bytes). Qed.

Lemma ascii_file_rejected_witness :
  fst (output_on "vitest-results.json" sample_report check_full) <> []
  /\ output_on "vitest-results.json" sample_report temp_decode
     = ([], Raise JSONDecodeError).
Proof.
  split; [vm_compute; discriminate|].
  apply (ascii_file_rejected sample_report); vm_compute; reflexivity.
Defined.

(** ** Well-encoded files *)

(** On bytes the strict decoder accepts, the decoder that ignores
    errors gives the same text: it has nothing to drop. *)
Lemma utf8_decode_strict_ignore (s : list N) (t : text) :
  utf8_decode strict s = Ok t -> utf8_decode ignore s = Ok t.
Proof.
  remember (List.length s) as n eqn:Hn.
  assert (Hle : (List.length s <= n)%nat) by lia. clear Hn.
  revert s t Hle. induction n as [|n IH]; intros s t Hle H.
  - destruct s; [exact H | cbn in Hle; lia].
  - destruct s as [|ch s1]; [exact H|].
    cbn [List.length] in Hle.
    cbn [utf8_decode on_error] in H |- *.
    repeat
      match goal with
      | H : Raise _ = Ok _ |- _ => discriminate H
      | H : emit ?c (utf8_decode strict ?r) = Ok _ |- _ =>
          let t' := fresh "t" in let Ht := fresh "Ht" in
          apply emit_ok in H as (t' & Ht & ->);
          rewrite (IH r t') by (cbn [List.length] in *; auto; lia);
          reflexivity
      | H : context [match ?l with [] => _ | _ :: _ => _ end] |- _ =>
          is_var l; destruct l
      | H : context [if ?c then _ else _] |- _ => destruct c
      end.
Qed.

Opaque N.add N.mul N.div N.modulo N.sub.

Lemma utf16_decode_encoded_char errors c bs rest :
  utf16_le_encode_char c = Some bs ->
  utf16_le_decode errors (bs ++ rest)
  = emit c (utf16_le_decode errors rest).
Proof.
  unfold utf16_le_encode_char, is_surrogate.
  destruct (N.ltb_spec c 65536).
  - destruct (N.leb_spec 55296 c); destruct (N.ltb_spec c 57344);
      cbn [andb]; try discriminate; try (exfalso; lia);
      intros [= <-]; cbn [app utf16_le_decode];
      replace (c / 256 * 256 + c mod 256)%N with c by lia;
      unfold is_surrogate; repeat decide_test; reflexivity.
  - destruct (N.ltb_spec c 1114112); [|discriminate].
    intros [= <-]. cbn [app utf16_le_decode].
    set (hi := (55296 + (c - 65536) / 1024)%N).
    set (lo := (56320 + (c - 65536) mod 1024)%N).
    replace (hi / 256 * 256 + hi mod 256)%N with hi by lia.
    replace (lo / 256 * 256 + lo mod 256)%N with lo by lia.
    assert (Hhi : (55296 <= hi < 56320)%N) by (unfold hi; lia).
    assert (Hlo : (56320 <= lo < 57344)%N) by (unfold lo; lia).
    unfold is_surrogate, is_high_surrogate, is_low_surrogate.
    repeat decide_test. cbn [andb negb].
    unfold join_surrogates. f_equal. unfold hi, lo. lia.
Qed.

Transparent N.add N.mul N.div N.modulo N.sub.

Lemma utf16_le_decode_encode errors t bs :
  utf16_le_encode t = Some bs -> utf16_le_decode errors bs = Ok t.
Proof.
  revert bs; induction t as [|c t IH]; intros bs; cbn [utf16_le_encode].
  - now intros [= <-].
  - destruct (utf16_le_encode_char c) as [bc|] eqn:Ec; [|discriminate].
    destruct (utf16_le_encode t) as [bt|]; [|discriminate].
    intros [= <-].
    rewrite (utf16_decode_encoded_char _ _ _ _ Ec), (IH _ eq_refl).
    reflexivity.
Qed.

Lemma utf8_decode_any_encode errors t bs :
  utf8_encode t = Some bs -> utf8_decode errors bs = Ok t.
Proof.
  intros H. apply utf8_decode_encode in H.
  destruct errors; [exact H | now apply utf8_decode_strict_ignore].
Qed.

(** The encoding of a text that does not start with U+FEFF does not
    start with the mark, nor with a part of it. *)
Lemma decode_sig_no_mark errors t bs :
  utf8_encode t = Some bs ->
  match t with
  | [] => True
  | c :: _ => c <> 65279%N
  end ->
  decode utf_8_sig errors bs = Ok t.
Proof.
  intros H Hc. pose proof (utf8_decode_encode _ _ H) as Hs.
  unfold decode.
  destruct bs as [|b1 [|b2 [|b3 bs']]].
  - now apply utf8_decode_any_encode.
  - unfold starts_mark. destruct (N.eqb_spec b1 239) as [->|_];
      [discriminate Hs | now apply utf8_decode_any_encode].
  - unfold starts_mark. destruct (N.eqb_spec b1 239) as [->|_];
      [|now apply utf8_decode_any_encode].
    destruct (N.eqb_spec b2 187) as [->|_];
      [discriminate Hs | now apply utf8_decode_any_encode].
  - destruct (N.eqb_spec b1 239) as [->|_];
      [|now apply utf8_decode_any_encode].
    destruct (N.eqb_spec b2 187) as [->|_];
      [|now apply utf8_decode_any_encode].
    destruct (N.eqb_spec b3 191) as [->|_];
      [|now apply utf8_decode_any_encode].
    exfalso.
    change (utf8_decode strict (239 :: 187 :: 191 :: bs')%N)
      with (emit 65279 (utf8_decode strict bs')) in Hs.
    apply emit_ok in Hs as (t' & _ & ->). now apply Hc.
Qed.

(** X9. A file that is the encoding of a text is read as that text,
    whether errors are ignored or not: in UTF-8 by [utf-8], in UTF-16
    by [utf-16-le], and in UTF-8 by [utf-8-sig] when a byte-order mark
    is put before it, or when the text does not start with U+FEFF. *)
Theorem encoded_text_is_read_back (errors : error_handler) (t : text)
    (bs : list N) :
  (utf8_encode t = Some bs ->
   decode utf_8 errors bs = Ok t
   /\ decode utf_8_sig errors (BOM_UTF8 ++ bs) = Ok t
   /\ (match t with
       | [] => True
       | c :: _ => c <> 65279%N
       end -> decode utf_8_sig errors bs = Ok t))
  /\ (utf16_le_encode t = Some bs -> decode utf_16_le errors bs = Ok t).
Proof.
  split.
  - intros H. pose proof (utf8_decode_any_encode errors _ _ H) as Hd.
    split; [exact Hd|]. split; [exact Hd|].
    now apply decode_sig_no_mark.
  - apply utf16_le_decode_encode.
Qed.

Lemma encoded_text_is_read_back_witness :
  (decode utf_8 ignore [123; 195; 169; 226; 130; 172; 240; 159; 152; 128]%N
   = Ok [123; 233; 8364; 128512]%N
   /\ decode utf_8_sig strict
        (BOM_UTF8 ++ [123; 195; 169; 226; 130; 172; 240; 159; 152; 128]%N)
      = Ok [123; 233; 8364; 128512]%N
   /\ decode utf_8_sig strict
        [123; 195; 169; 226; 130; 172; 240; 159; 152; 128]%N
      = Ok [123; 233; 8364; 128512]%N)
  /\ decode utf_16_le ignore [123; 0; 233; 0; 172; 32; 61; 216; 0; 222]%N
     = Ok [123; 233; 8364; 128512]%N.
Proof.
  split.
  - destruct (proj1 (encoded_text_is_read_back ignore
                       [123; 233; 8364; 128512]%N
                       [123; 195; 169; 226; 130; 172; 240; 159; 152; 128]%N)
                eq_refl) as (H1 & _).
    destruct (proj1 (encoded_text_is_read_back strict
                       [123; 233; 8364; 128512]%N
                       [123; 195; 169; 226; 130; 172; 240; 159; 152; 128]%N)
                eq_refl) as (_ & H2 & H3).
    split; [exact H1|]. split; [exact H2|].
    apply H3. cbv. discriminate.
  - apply (proj2 (encoded_text_is_read_back ignore
                    [123; 233; 8364; 128512]%N
                    [123; 0; 233; 0; 172; 32; 61; 216; 0; 222]%N)).
    reflexivity.
Defined.

(** ** From the file to the output *)

Lemma loaded_text_has_no_mark t data :
  json_loads (universal_newlines t) = Ok data ->
  match t with
  | [] => True
  | c :: _ => c <> 65279%N
  end.
Proof.
  destruct t as [|c x]; [exact (fun _ => I)|].
  intros H ->. rewrite universal_newlines_bad_start in H by lia.
  rewrite json_loads_bad_start in H by lia. discriminate H.
Qed.

(** X10. From the file to the output.  When the file is the UTF-8
    encoding of a text that [json.loads] reads as a well-formed
    report, [check_full.py], [failed_details.py] and
    [vitest-report-summary.py] end normally and print their lines for
    that report; [vitest-report-summary.py] does the same when a
    byte-order mark stands before the text.  The standard output is
    taken to accept every character. *)
Theorem well_formed_file_output (t : text) (bytes : list Byte.byte)
    (data : value) :
  utf8_encode t = Some (map Byte.to_N bytes) ->
  json_loads (universal_newlines t) = Ok data ->
  wf_report data = true ->
  output_on "vitest-results.json" bytes check_full
  = (check_full_of data, Ok tt)
  /\ output_on "vitest-results.json" bytes failed_details
     = (flat_map details_of (suites_of data), Ok tt)
  /\ output_on "vitest-results-clean.json" bytes vitest_report_summary
     = (summary_of data, Ok tt)
  /\ output_on "vitest-results-clean.json"
       (Byte.xef :: Byte.xbb :: Byte.xbf :: bytes) vitest_report_summary
     = (summary_of data, Ok tt).
Proof.
  intros He Hj Hwf.
  pose proof (utf8_decode_any_encode ignore _ _ He) as Hi.
  pose proof (utf8_decode_any_encode strict _ _ He) as Hs.
  pose proof (decode_sig_no_mark strict _ _ He
                (loaded_text_has_no_mark _ _ Hj)) as Hsig.
  unfold check_full, failed_details, vitest_report_summary.
  rewrite !output_on_script.
  rewrite Hsig.
  change (decode utf_8_sig strict
            (map Byte.to_N (Byte.xef :: Byte.xbb :: Byte.xbf :: bytes)))
    with (utf8_decode strict (map Byte.to_N bytes)).
  unfold decode. rewrite Hi, Hs. cbn [res_bind]. rewrite Hj.
  rewrite (check_full_main_wf _ Hwf), (details_main_wf _ Hwf),
    (main_wf _ Hwf).
  repeat split.
Qed.

Lemma well_formed_file_output_witness :
  output_on "vitest-results.json" sample_report check_full
  = (check_full_of (loaded sample_report), Ok tt)
  /\ output_on "vitest-results.json" sample_report failed_details
     = (flat_map details_of (suites_of (loaded sample_report)), Ok tt)
  /\ output_on "vitest-results-clean.json" sample_report
       vitest_report_summary
     = (summary_of (loaded sample_report), Ok tt)
  /\ output_on "vitest-results-clean.json"
       (Byte.xef :: Byte.xbb :: Byte.xbf :: sample_report)
       vitest_report_summary
     = (summary_of (loaded sample_report), Ok tt).
Proof.
  apply (well_formed_file_output (map Byte.to_N sample_report)
           sample_report (loaded sample_report));
    vm_compute; reflexivity.
Defined.

(** X11. [temp_decode.py], from the file to the output.  When the
    file is the UTF-16 encoding of a text that [json.loads] reads as
    an object whose [numFailedTests] is the integer [F], the script
    prints [F] and nothing else, and ends normally, whatever else the
    object holds. *)
Theorem utf16_report_failed_count (t : text) (bytes : list Byte.byte)
    (d : list (text * value)) (F : Z) :
  utf16_le_encode t = Some (map Byte.to_N bytes) ->
  json_loads (universal_newlines t) = Ok (JDict d) ->
  dict_get (lit "numFailedTests") d = Some (JInt F) ->
  output_on "vitest-results.json" bytes temp_decode = ([dec F], Ok tt).
Proof.
  intros He Hj Hf. unfold temp_decode. rewrite output_on_script.
  unfold decode. rewrite (utf16_le_decode_encode ignore _ _ He).
  cbn [res_bind]. rewrite Hj.
  unfold TempDecode.main, subscript. rewrite Hf. reflexivity.
Qed.

Lemma utf16_report_failed_count_witness :
  output_on "vitest-results.json" (utf16_le_bytes sample_report) temp_decode
  = ([dec 2], Ok tt).
Proof.
  apply (utf16_report_failed_count (map Byte.to_N sample_report)
           (utf16_le_bytes sample_report)
           (entries (loaded sample_report)) 2%Z);
    vm_compute; reflexivity.
Defined.

(** ** The first line of a message, again *)

Lemma first_line_of_no_newline (m : text) : ~ In NL (first_line_of m).
Proof.
  induction m as [|c m IH]; cbn [first_line_of]; [intros []|].
  destruct (N.eqb_spec c NL) as [_|Hc]; [intros []|].
  intros [H|H]; [now apply Hc | now apply IH].
Qed.

Lemma first_line_of_prefix (m : text) :
  m = first_line_of m \/ exists rest, m = first_line_of m ++ NL :: rest.
Proof.
  induction m as [|c m IH]; cbn [first_line_of]; [now left|].
  destruct (N.eqb_spec c NL) as [->|Hc].
  - right. now exists m.
  - destruct IH as [IH | [rest IH]].
    + left. now rewrite <- IH.
    + right. exists rest. cbn [app]. now rewrite <- IH.
Qed.

(** X12. The first line of a message.  What [failed_details.py] takes
    with [split('\n')[0]] and what [vitest-report-summary.py] takes
    with [split('\n', 1)[0]] is the same text: the longest start of
    the message without a newline.  And the first line of messages
    joined by newlines is the first line of the first message, so
    that both scripts show the same line for an assertion. *)
Theorem first_line_of_message (m : text) (ms : list text) :
  exists line,
    res_bind (split (JStr m)) head_piece = Ok line
    /\ res_bind (split1 (JStr m)) head_piece = Ok line
    /\ ~ In NL line
    /\ (m = line \/ exists rest, m = line ++ NL :: rest)
    /\ res_bind (split1 (JStr (join [NL] (m :: ms)))) head_piece = Ok line.
Proof.
  exists (first_line_of m). cbn [split split1 res_bind].
  destruct (split_on_head m) as [r1 ->].
  destruct (split_on_1_head m) as [r2 ->].
  destruct (split_on_1_head (join [NL] (m :: ms))) as [r3 ->].
  rewrite first_line_of_join. cbn [head_piece].
  repeat split.
  - apply first_line_of_no_newline.
  - apply first_line_of_prefix.
Qed.

(** ** Failure messages of another shape *)

Lemma strings_of_not_all l :
  forallb is_str l = false -> strings_of l = Raise TypeError.
Proof.
  induction l as [|v l IH]; [discriminate|].
  cbn [forallb strings_of].
  destruct v; cbn [is_str andb]; try reflexivity.
  intros H. now rewrite (IH H).
Qed.

(** X13. [failed_details.py] and failure messages that are no list of
    strings.  When [failureMessages] is absent or is [null], [false],
    [0], an empty string, an empty list or an empty object, the
    message printed is empty.  When it is a list whose first element
    is no string, the run stops with [AttributeError] before any line
    of the assertion is printed. *)
Theorem failure_messages_in_details (d : list (text * value)) :
  (forall n,
     res_bind (get (JDict d) (lit "failureMessages")) truth = Ok false ->
     dict_get (lit "fullName") d = Some (JStr n) ->
     FailedDetails.assertion_lines (JDict d)
     = ([lit "- " ++ n; lit "   "], Ok tt))
  /\ (forall x l,
        dict_get (lit "failureMessages") d = Some (JList (x :: l)) ->
        is_str x = false ->
        FailedDetails.assertion_lines (JDict d)
        = ([], Raise AttributeError)).
Proof.
  split.
  - intros n Ht Hn. unfold FailedDetails.assertion_lines.
    destruct (get (JDict d) (lit "failureMessages")) as [v|e];
      [|discriminate Ht].
    cbn [res_bind] in Ht |- *. rewrite Ht. cbn [res_bind index0 split].
    unfold subscript. rewrite Hn. reflexivity.
  - intros x l Hm Hx. unfold FailedDetails.assertion_lines, get.
    rewrite Hm. cbn [res_bind truth index0].
    destruct x; try discriminate Hx; reflexivity.
Qed.

Lemma failure_messages_in_details_witness :
  FailedDetails.assertion_lines
    (JDict [(lit "fullName", JStr (lit "times out"));
            (lit "failureMessages", JNull)])
  = ([lit "- " ++ lit "times out"; lit "   "], Ok tt)
  /\ FailedDetails.assertion_lines
       (JDict [(lit "fullName", JStr (lit "times out"));
               (lit "failureMessages", JList [JNull])])
     = ([], Raise AttributeError).
Proof.
  split.
  - apply (proj1 (failure_messages_in_details
                    [(lit "fullName", JStr (lit "times out"));
                     (lit "failureMessages", JNull)]));
      reflexivity.
  - apply (proj2 (failure_messages_in_details
                    [(lit "fullName", JStr (lit "times out"));
                     (lit "failureMessages", JList [JNull])])
             JNull []);
      reflexivity.
Defined.

(** X14. [vitest-report-summary.py] and failure messages that are no
    list of strings.  For an assertion with failed status whose
    [failureMessages] is [null], a boolean or a number, or a list with
    an element that is no string, joining the messages raises
    [TypeError]: no record is added, whatever else the assertion
    holds. *)
Theorem failure_messages_in_summary (suite_name : value)
    (failures : list value) (d : list (text * value)) (v : value) :
  dict_get (lit "status") d = Some (JStr (lit "failed")) ->
  dict_get (lit "failureMessages") d = Some v ->
  match v with
  | JList l => forallb is_str l = false
  | JStr _ | JDict _ => False
  | _ => True
  end ->
  VitestReportSummary.collect_assertion suite_name failures (JDict d)
  = Raise TypeError.
Proof.
  intros Hs Hm Hv.
  unfold VitestReportSummary.collect_assertion, subscript, get_default.
  rewrite Hs, Hm. cbn [res_bind].
  change (eq_str (JStr (lit "failed")) (lit "failed"))
    with (text_eqb (lit "failed") (lit "failed")).
  rewrite text_eqb_refl. unfold join_lines.
  destruct v; try contradiction; try reflexivity.
  cbn [iter res_bind]. now rewrite (strings_of_not_all _ Hv).
Qed.

Lemma failure_messages_in_summary_witness :
  VitestReportSummary.collect_assertion (JStr (lit "src/team.test.ts")) []
    (JDict [(lit "fullName", JStr (lit "times out"));
            (lit "status", JStr (lit "failed"));
            (lit "failureMessages", JNull)])
  = Raise TypeError
  /\ VitestReportSummary.collect_assertion (JStr (lit "src/team.test.ts")) []
       (JDict [(lit "fullName", JStr (lit "times out"));
               (lit "status", JStr (lit "failed"));
               (lit "failureMessages", JList [JStr (lit "boom"); JInt 1])])
     = Raise TypeError.
Proof.
  split.
  - apply (failure_messages_in_summary (JStr (lit "src/team.test.ts")) []
             [(lit "fullName", JStr (lit "times out"));
              (lit "status", JStr (lit "failed"));
              (lit "failureMessages", JNull)] JNull);
      reflexivity.
  - apply (failure_messages_in_summary (JStr (lit "src/team.test.ts")) []
             [(lit "fullName", JStr (lit "times out"));
              (lit "status", JStr (lit "failed"));
              (lit "failureMessages", JList [JStr (lit "boom"); JInt 1])]
             (JList [JStr (lit "boom"); JInt 1]));
      reflexivity.
Defined.

(** ** The same failures in both lists *)











(** X16. On a well-formed report [failed_details.py] prints nothing
    exactly when no assertion of the report has failed status: an
    empty output means that there is no failure. *)
Theorem silent_when_nothing_failed (data : value) :
  wf_report data = true ->
  (fst (FailedDetails.main data) = [] <-> failed_total data = 0%nat).
Proof.
  intros H. rewrite (details_main_wf _ H). cbn [fst].
  unfold failed_total.
  induction (suites_of data) as [|s suites IH]; [now split|].
  cbn [flat_map map].
  change (list_sum (?x :: ?l)) with (x + list_sum l)%nat.
  split.
  - intros E. apply app_eq_nil in E as [Es El].
    apply IH in El. rewrite El.
    unfold details_of in Es.
    destruct (failed_of s); [reflexivity | discriminate Es].
  - intros E.
    assert (Es : failed_of s = [])
      by (destruct (failed_of s); [reflexivity | cbn [List.length] in E; lia]).
    unfold details_of at 1. rewrite Es. cbn [app]. apply IH.
    rewrite Es in E. exact E.
Qed.

Lemma silent_when_nothing_failed_witness :
  fst (FailedDetails.main (loaded e2e_report)) = []
  /\ failed_total (loaded e2e_report) = 0%nat.
Proof.
  pose proof (silent_when_nothing_failed (loaded e2e_report)) as H.
  split; [apply H | ]; vm_compute; reflexivity.
Defined.

(** ** A suite that is no object *)

Lemma for_each_stops {A} (before after : list A) x (body : A -> W unit)
    out out_x e :
  for_each before body = (out, Ok tt) ->
  body x = (out_x, Raise e) ->
  for_each (before ++ x :: after) body = (out ++ out_x, Raise e).
Proof.
  intros Hb Hx. rewrite for_each_app, Hb. cbn [for_each].
  rewrite Hx. reflexivity.
Qed.

(** X17. What was printed before an exception stays printed.  On a
    report with its counters whose suites are well-formed up to one
    that is no object, [check_full.py] prints the totals and the lines
    of the suites before that one and ends with [AttributeError];
    [failed_details.py] prints the suites before that one and ends
    with [AttributeError]; [vitest-report-summary.py], which collects
    the failures before it prints them, prints its two lines of
    counters and ends with [TypeError]. *)
Theorem suite_not_an_object (d : list (text * value))
    (before after : list value) (x : value) :
  has_counters d = true ->
  dict_get (lit "testResults") d = Some (JList (before ++ x :: after)) ->
  forallb wf_suite before = true ->
  is_dict x = false ->
  CheckFull.main (JDict d)
  = (totals_text (JDict d)
     :: map suite_count_line (filter is_failed before),
     Raise AttributeError)
  /\ FailedDetails.main (JDict d)
     = (flat_map details_of before, Raise AttributeError)
  /\ exists suites_line tests_line,
       VitestReportSummary.main (JDict d)
       = ([suites_line; tests_line], Raise TypeError).
Proof.
  unfold has_counters. rewrite !andb_true_iff.
  intros [[[[[[[H1 H2] H3] H4] H5] H6] H7] H8] Hd Hwf Hx.
  repeat apply conj.
  - unfold CheckFull.main. rewrite (totals_wf _ H1 H2 H3 H7).
    unfold subscript. rewrite Hd.
    rewrite bind_out. cbv beta. rewrite bind_lift_ok. cbn [iter].
    rewrite bind_lift_ok.
    rewrite (for_each_stops before after x CheckFull.suite_line
               _ [] AttributeError (for_each_suite_line _ Hwf)).
    + now rewrite app_nil_r.
    + destruct x; try discriminate Hx; reflexivity.
  - unfold FailedDetails.main, subscript. rewrite Hd.
    rewrite bind_lift_ok. cbn [iter]. rewrite bind_lift_ok.
    rewrite (for_each_stops before after x FailedDetails.suite_block
               _ [] AttributeError (for_each_suite_block _ Hwf)).
    + now rewrite app_nil_r.
    + destruct x; try discriminate Hx; reflexivity.
  - unfold VitestReportSummary.main.
    rewrite !counters_line_wf by assumption.
    unfold get_default. rewrite Hd.
    rewrite !bind_out. cbv beta. rewrite !bind_lift_ok. cbn [iter].
    rewrite !bind_lift_ok, for_acc_app, (collect_wf _ _ Hwf).
    cbn [res_bind VitestReportSummary.for_acc].
    assert (E : VitestReportSummary.collect_suite
                  ([] ++ flat_map (fun suite => map (failure_of suite)
                                                    (failed_of suite)) before)
                  x = Raise TypeError)
      by (destruct x; try discriminate Hx; reflexivity).
    rewrite E. cbn. eauto.
Qed.

Lemma suite_not_an_object_witness :
  let d := entries (loaded sample_report) in
  let before := suites_of (loaded sample_report) in
  CheckFull.main
    (JDict (dict_set (lit "testResults") (JList (before ++ [JNull])) d))
  = ([lit "total=3 passed=1 failed=2 failedSuites=1";
      lit "src/team.test.ts :: 2"], Raise AttributeError)
  /\ fst (FailedDetails.main
            (JDict (dict_set (lit "testResults")
                      (JList (before ++ [JNull])) d)))
     = flat_map details_of before
  /\ snd (VitestReportSummary.main
            (JDict (dict_set (lit "testResults")
                      (JList (before ++ [JNull])) d)))
     = Raise TypeError.
Proof.
  cbv zeta.
  destruct (suite_not_an_object
              (dict_set (lit "testResults")
                 (JList (suites_of (loaded sample_report) ++ [JNull]))
                 (entries (loaded sample_report)))
              (suites_of (loaded sample_report)) [] JNull)
    as (H1 & H2 & l1 & l2 & H3); try (vm_compute; reflexivity).
  rewrite H1, H2, H3. repeat split.
Defined.

(** ** Line endings *)

Lemma universal_newlines_no_cr t : no_cr t = true -> universal_newlines t = t.
Proof.
  induction t as [|c t IH]; [reflexivity|].
  unfold no_cr in *. cbn [forallb]. rewrite andb_true_iff. intros [Hc Ht].
  cbn [universal_newlines]. apply negb_true_iff in Hc. rewrite Hc.
  now rewrite (IH Ht).
Qed.

Opaque N.add N.mul N.div N.modulo N.sub.

(** A byte of the encoding of a character is 10 only when the
    character is a line feed. *)
Lemma utf8_encode_char_crlf c (bs : list Byte.byte) :
  utf8_encode_char c = Some (map Byte.to_N bs) ->
  crlf bs = (if (c =? 10)%N then [Byte.x0d; Byte.x0a] else bs).
Proof.
  unfold utf8_encode_char.
  assert (Hhigh : forall b n, Byte.to_N b = (n + 128)%N \/
                              Byte.to_N b = (128 + n)%N \/
                              Byte.to_N b = (192 + n)%N \/
                              Byte.to_N b = (224 + n)%N \/
                              Byte.to_N b = (240 + n)%N ->
                              (Byte.to_N b =? 10)%N = false)
    by (intros b n H; apply N.eqb_neq; lia).
  destruct (N.ltb_spec c 128).
  { destruct bs as [|b [|b' bs]]; try discriminate.
    cbn [map]. intros [= ->]. unfold crlf. cbn [flat_map app].
    now destruct (Byte.to_N b =? 10)%N. }
  replace (c =? 10)%N with false by (symmetry; apply N.eqb_neq; lia).
  destruct (c <? 2048)%N.
  { destruct bs as [|b1 [|b2 [|b3 bs]]]; try discriminate.
    cbn [map]. intros [= E1 E2]. unfold crlf. cbn [flat_map app].
    rewrite (Hhigh b1 (c / 64)%N), (Hhigh b2 (c mod 64)%N) by auto.
    reflexivity. }
  destruct (c <? 65536)%N.
  { destruct (is_surrogate c); [discriminate|].
    destruct bs as [|b1 [|b2 [|b3 [|b4 bs]]]]; try discriminate.
    cbn [map]. intros [= E1 E2 E3]. unfold crlf. cbn [flat_map app].
    rewrite (Hhigh b1 (c / 4096)%N), (Hhigh b2 ((c / 64) mod 64)%N),
      (Hhigh b3 (c mod 64)%N) by auto.
    reflexivity. }
  destruct (c <? 1114112)%N; [|discriminate].
  destruct bs as [|b1 [|b2 [|b3 [|b4 [|b5 bs]]]]]; try discriminate.
  cbn [map]. intros [= E1 E2 E3 E4]. unfold crlf. cbn [flat_map app].
  rewrite (Hhigh b1 (c / 262144)%N), (Hhigh b2 ((c / 4096) mod 64)%N),
    (Hhigh b3 ((c / 64) mod 64)%N), (Hhigh b4 (c mod 64)%N) by auto.
  reflexivity.
Qed.

Transparent N.add N.mul N.div N.modulo N.sub.

(** The file with the line endings of Windows is the encoding of a
    text that the translation of line endings turns into the text of
    the file as it was. *)
Lemma crlf_encoded t :
  forall bytes,
    utf8_encode t = Some (map Byte.to_N bytes) ->
    no_cr t = true ->
    exists t2, utf8_encode t2 = Some (map Byte.to_N (crlf bytes))
               /\ universal_newlines t2 = t
               /\ match t, t2 with
                  | c :: _, c2 :: _ => c <> 65279%N -> c2 <> 65279%N
                  | [], [] => True
                  | _, _ => False
                  end.
Proof.
  induction t as [|c t IH]; intros bytes He Hn.
  - destruct bytes; [|discriminate He]. now exists [].
  - cbn [utf8_encode] in He.
    destruct (utf8_encode_char c) as [bc|] eqn:Ec; [|discriminate He].
    destruct (utf8_encode t) as [bt|] eqn:Et; [|discriminate He].
    injection He as He. symmetry in He.
    apply map_eq_app in He as (b1 & b2 & -> & E1 & E2).
    unfold no_cr in Hn. cbn [forallb] in Hn.
    apply andb_true_iff in Hn as [Hc Hn]. apply negb_true_iff in Hc.
    destruct (IH b2) as (t2 & He2 & Hu & _); [now rewrite E2 | exact Hn |].
    rewrite <- E1 in Ec.
    pose proof (utf8_encode_char_crlf _ _ Ec) as Hcr.
    unfold crlf in *. rewrite flat_map_app, Hcr, map_app.
    destruct (N.eqb_spec c 10) as [->|Hc10].
    + exists (13 :: 10 :: t2)%N. repeat split.
      * cbn [utf8_encode]. rewrite He2. reflexivity.
      * cbn [universal_newlines]. now rewrite Hu.
      * intros _. discriminate.
    + exists (c :: t2). repeat split.
      * cbn [utf8_encode]. now rewrite Ec, He2.
      * cbn [universal_newlines]. now rewrite Hc, Hu.
      * auto.
Qed.

(** X18. Line endings.  For a file that is the UTF-8 encoding of a
    text without carriage returns, the same file with a carriage
    return before every line feed gives the same output and the same
    end in [check_full.py] and [failed_details.py], and in
    [vitest-report-summary.py] when the text does not start with
    U+FEFF. *)
Theorem crlf_line_endings (t : text) (bytes : list Byte.byte) :
  utf8_encode t = Some (map Byte.to_N bytes) ->
  no_cr t = true ->
  output_on "vitest-results.json" (crlf bytes) check_full
  = output_on "vitest-results.json" bytes check_full
  /\ output_on "vitest-results.json" (crlf bytes) failed_details
     = output_on "vitest-results.json" bytes failed_details
  /\ (match t with
      | [] => True
      | c :: _ => c <> 65279%N
      end ->
      output_on "vitest-results-clean.json" (crlf bytes)
        vitest_report_summary
      = output_on "vitest-results-clean.json" bytes vitest_report_summary).
Proof.
  intros He Hn.
  destruct (crlf_encoded _ _ He Hn) as (t2 & He2 & Hu & Hm).
  pose proof (universal_newlines_no_cr _ Hn) as Hu1.
  unfold check_full, failed_details, vitest_report_summary.
  rewrite !output_on_script. unfold decode at 1 2 3 4.
  rewrite (utf8_decode_any_encode ignore _ _ He),
    (utf8_decode_any_encode ignore _ _ He2).
  cbn [res_bind]. rewrite Hu, Hu1.
  split; [reflexivity|]. split; [reflexivity|].
  intros Hc.
  rewrite (decode_sig_no_mark strict _ _ He Hc).
  rewrite (decode_sig_no_mark strict _ _ He2).
  - cbn [res_bind]. now rewrite Hu, Hu1.
  - destruct t as [|c t], t2 as [|c2 t2]; try contradiction; auto.
Qed.

Lemma crlf_line_endings_witness :
  output_on "vitest-results.json" (crlf sample_report) check_full
  = output_on "vitest-results.json" sample_report check_full
  /\ output_on "vitest-results.json" (crlf sample_report) failed_details
     = output_on "vitest-results.json" sample_report failed_details
  /\ output_on "vitest-results-clean.json" (crlf sample_report)
       vitest_report_summary
     = output_on "vitest-results-clean.json" sample_report
         vitest_report_summary.
Proof.
  destruct (crlf_line_endings (map Byte.to_N sample_report) sample_report)
    as (H1 & H2 & H3); try (vm_compute; reflexivity).
  split; [exact H1|]. split; [exact H2|].
  apply H3. vm_compute. discriminate.
Defined.

(** ** The fields a script reads *)

Ltac agree H k :=
  let E := fresh "E" in
  assert (E := H k ltac:(cbn; tauto)); cbv beta in E; rewrite E; clear E.

(** X19. The output of a script depends on the document only through
    the fields the script reads: two objects that agree on the four
    counters of the tests and on [testResults] give the same run of
    [check_full.py]; on [testResults], of [failed_details.py]; on
    [numFailedTests], of [temp_decode.py]; on the eight counters and
    [testResults], of [vitest-report-summary.py].  Other fields, and
    the order of the fields, play no part. *)
Theorem only_read_fields_matter (d1 d2 : list (text * value)) :
  (agree_on ["numTotalTests"; "numPassedTests"; "numFailedTests";
             "numFailedTestSuites"; "testResults"]%string d1 d2 ->
   CheckFull.main (JDict d1) = CheckFull.main (JDict d2))
  /\ (agree_on ["testResults"]%string d1 d2 ->
      FailedDetails.main (JDict d1) = FailedDetails.main (JDict d2))
  /\ (agree_on ["numFailedTests"]%string d1 d2 ->
      TempDecode.main (JDict d1) = TempDecode.main (JDict d2))
  /\ (agree_on ["numTotalTestSuites"; "numPassedTestSuites";
                "numFailedTestSuites"; "numPendingTestSuites";
                "numTotalTests"; "numPassedTests"; "numFailedTests";
                "numPendingTests"; "testResults"]%string d1 d2 ->
      VitestReportSummary.main (JDict d1)
      = VitestReportSummary.main (JDict d2)).
Proof.
  unfold agree_on. repeat apply conj; intros H.
  - unfold CheckFull.main, CheckFull.totals, subscript.
    agree H "numTotalTests"%string. agree H "numPassedTests"%string.
    agree H "numFailedTests"%string. agree H "numFailedTestSuites"%string.
    agree H "testResults"%string. reflexivity.
  - unfold FailedDetails.main, subscript.
    agree H "testResults"%string. reflexivity.
  - unfold TempDecode.main, subscript.
    agree H "numFailedTests"%string. reflexivity.
  - unfold VitestReportSummary.main, VitestReportSummary.counters_line,
      subscript, get_default.
    agree H "numTotalTestSuites"%string. agree H "numPassedTestSuites"%string.
    agree H "numFailedTestSuites"%string.
    agree H "numPendingTestSuites"%string.
    agree H "numTotalTests"%string. agree H "numPassedTests"%string.
    agree H "numFailedTests"%string. agree H "numPendingTests"%string.
    agree H "testResults"%string. reflexivity.
Qed.

Lemma only_read_fields_matter_witness :
  let d1 := entries (loaded sample_report) in
  let d2 := (lit "startTime", JInt 1700000000) :: rev d1 in
  d1 <> d2
  /\ CheckFull.main (JDict d1) = CheckFull.main (JDict d2)
  /\ FailedDetails.main (JDict d1) = FailedDetails.main (JDict d2)
  /\ TempDecode.main (JDict d1) = TempDecode.main (JDict d2)
  /\ VitestReportSummary.main (JDict d1)
     = VitestReportSummary.main (JDict d2).
Proof.
  cbv zeta. split; [vm_compute; discriminate|].
  destruct (only_read_fields_matter
              (entries (loaded sample_report))
              ((lit "startTime", JInt 1700000000)
               :: rev (entries (loaded sample_report))))
    as (H1 & H2 & H3 & H4).
  split; [apply H1 | split; [apply H2 | split; [apply H3 | apply H4]]];
    intros k Hk; cbn [In] in Hk;
    repeat (destruct Hk as [<- | Hk]; [vm_compute; reflexivity|]);
    destruct Hk.
Defined.

(** ** Line endings and the scanner *)

(** [json.loads] reads the text after the translation of line
    endings.  The translation changes nothing for it: a carriage
    return ends a token or breaks it exactly as a line feed does. *)

Lemma un_other c s :
  c <> 13%N -> universal_newlines (c :: s) = c :: universal_newlines s.
Proof.
  intros H. cbn [universal_newlines]. apply N.eqb_neq in H. now rewrite H.
Qed.

Lemma un_head c s :
  exists x, universal_newlines (c :: s)
            = (if (c =? 13)%N then NL else c) :: x.
Proof.
  cbn [universal_newlines]. destruct (c =? 13)%N; [|eauto].
  destruct s as [|c' s']; [eauto|]. destruct (c' =? 10)%N; eauto.
Qed.

Lemma un_cr s :
  universal_newlines (13%N :: s)
  = NL :: universal_newlines
            (match s with
             | c' :: s'' => if (c' =? 10)%N then s'' else s
             | [] => s
             end).
Proof.
  cbn [universal_newlines]. change (13 =? 13)%N with true. cbn iota.
  destruct s as [|c' s'']; [reflexivity|].
  destruct (c' =? 10)%N; reflexivity.
Qed.

Lemma length_un s :
  (List.length (universal_newlines s) <= List.length s)%nat.
Proof.
  remember (List.length s) as n eqn:Hn.
  assert (Hle : (List.length s <= n)%nat) by lia. clear Hn.
  revert s Hle. induction n as [|n IH]; intros s Hle.
  - destruct s; [cbn; lia | cbn in Hle; lia].
  - destruct s as [|c s]; [cbn; lia|]. cbn [List.length] in Hle.
    destruct (N.eqb_spec c 13) as [->|Hc].
    + rewrite un_cr. cbn [List.length].
      destruct s as [|c' s'']; [cbn; lia|].
      cbn [List.length] in Hle.
      destruct (c' =? 10)%N.
      * specialize (IH s''). lia.
      * specialize (IH (c' :: s'')). cbn [List.length] in IH. lia.
    + rewrite (un_other _ _ Hc). cbn [List.length]. specialize (IH s). lia.
Qed.

Lemma skip_un s :
  skip_whitespace (universal_newlines s)
  = universal_newlines (skip_whitespace s).
Proof.
  remember (List.length s) as n eqn:Hn.
  assert (Hle : (List.length s <= n)%nat) by lia. clear Hn.
  revert s Hle. induction n as [|n IH]; intros s Hle.
  - destruct s; [reflexivity | cbn in Hle; lia].
  - destruct s as [|c s]; [reflexivity|]. cbn [List.length] in Hle.
    destruct (N.eqb_spec c 13) as [->|Hc].
    + rewrite un_cr. cbn [skip_whitespace].
      change (is_whitespace NL) with true. change (is_whitespace 13) with true.
      cbn iota.
      destruct s as [|c' s'']; [reflexivity|]. cbn [List.length] in Hle.
      destruct (N.eqb_spec c' 10) as [->|Hc'].
      * cbn [skip_whitespace]. change (is_whitespace 10) with true.
        cbn iota. apply IH. lia.
      * apply IH. cbn [List.length]. lia.
    + rewrite (un_other _ _ Hc). cbn [skip_whitespace].
      destruct (is_whitespace c).
      * apply IH. lia.
      * now rewrite (un_other _ _ Hc).
Qed.

Lemma skip_whitespace_head s c r :
  skip_whitespace s = c :: r -> is_whitespace c = false.
Proof.
  induction s as [|c0 s IH]; [discriminate|].
  cbn [skip_whitespace]. destruct (is_whitespace c0) eqn:E; [exact IH|].
  now intros [= <- _].
Qed.

Lemma not_whitespace_not_cr c : is_whitespace c = false -> c <> 13%N.
Proof. intros H ->. discriminate H. Qed.

Lemma span_digits_un s :
  span_digits (universal_newlines s)
  = (fst (span_digits s), universal_newlines (snd (span_digits s))).
Proof.
  induction s as [|c s IH]; [reflexivity|].
  cbn [span_digits]. destruct (is_digit c) eqn:Ed.
  - assert (Hc : c <> 13%N) by (intros ->; discriminate Ed).
    rewrite (un_other _ _ Hc). cbn [span_digits]. rewrite Ed, IH.
    now destruct (span_digits s).
  - destruct (un_head c s) as [x Hx]. cbn [fst snd]. rewrite Hx.
    cbn [span_digits].
    assert (E : is_digit (if (c =? 13)%N then NL else c) = false)
      by (destruct (c =? 13)%N; [reflexivity | exact Ed]).
    now rewrite E.
Qed.

Lemma sign_part_un s :
  sign_part (universal_newlines s)
  = (fst (sign_part s), universal_newlines (snd (sign_part s))).
Proof.
  destruct s as [|c s]; [reflexivity|]. unfold sign_part at 2 3.
  destruct (N.eqb_spec c (ch "-")) as [->|Hc].
  - reflexivity.
  - destruct (un_head c s) as [x Hx]. cbn [fst snd]. rewrite Hx.
    unfold sign_part.
    assert (E : ((if (c =? 13)%N then NL else c) =? ch "-")%N = false).
    { destruct (N.eqb_spec c 13); [reflexivity | now apply N.eqb_neq]. }
    now rewrite E.
Qed.

Lemma int_part_un c s :
  int_part c (universal_newlines s)
  = (fst (int_part c s), universal_newlines (snd (int_part c s))).
Proof.
  unfold int_part. destruct (c =? ch "0")%N; [reflexivity|].
  rewrite span_digits_un. now destruct (span_digits s).
Qed.

Lemma frac_part_un s :
  frac_part (universal_newlines s)
  = (fst (frac_part s), universal_newlines (snd (frac_part s))).
Proof.
  destruct s as [|dot s]; [reflexivity|].
  destruct (N.eqb_spec dot (ch ".")) as [->|Hdot].
  - rewrite un_other by discriminate.
    destruct s as [|d s']; [reflexivity|].
    unfold frac_part at 2 3. cbn [andb N.eqb].
    change (ch "." =? ch ".")%N with true. cbn [andb].
    destruct (is_digit d) eqn:Ed.
    + assert (Hd : d <> 13%N) by (intros ->; discriminate Ed).
      rewrite (un_other _ _ Hd). unfold frac_part.
      change (ch "." =? ch ".")%N with true. cbn [andb]. rewrite Ed.
      rewrite span_digits_un. now destruct (span_digits s').
    + destruct (un_head d s') as [x Hx]. cbn [fst snd].
      rewrite (un_other (ch ".")) by discriminate. rewrite Hx.
      unfold frac_part.
      assert (E : is_digit (if (d =? 13)%N then NL else d) = false)
        by (destruct (d =? 13)%N; [reflexivity | exact Ed]).
      rewrite E. now rewrite andb_false_r.
  - assert (E : frac_part (dot :: s) = ([], dot :: s)).
    { unfold frac_part. destruct s as [|d s']; [reflexivity|].
      apply N.eqb_neq in Hdot. now rewrite Hdot. }
    rewrite E. cbn [fst snd].
    destruct (un_head dot s) as [x Hx]. rewrite Hx.
    unfold frac_part. destruct x as [|d x']; [reflexivity|].
    assert (E' : ((if (dot =? 13)%N then NL else dot) =? ch ".")%N = false).
    { destruct (N.eqb_spec dot 13); [reflexivity | now apply N.eqb_neq]. }
    now rewrite E'.
Qed.

Lemma exp_part_un s :
  exp_part (universal_newlines s)
  = (fst (exp_part s), universal_newlines (snd (exp_part s))).
Proof.
  destruct s as [|e s]; [reflexivity|].
  destruct ((e =? ch "e") || (e =? ch "E"))%N eqn:Ee.
  - assert (He : e <> 13%N) by (intros ->; discriminate Ee).
    rewrite (un_other _ _ He). unfold exp_part. rewrite Ee.
    destruct s as [|c' r].
    + change (universal_newlines []) with (@nil N).
      cbn [span_digits fst snd]. now rewrite (un_other _ _ He).
    + destruct ((c' =? ch "-") || (c' =? ch "+"))%N eqn:Es.
      * assert (Hc : c' <> 13%N) by (intros ->; discriminate Es).
        rewrite (un_other _ _ Hc), Es, span_digits_un.
        destruct (span_digits r) as [[|d ds] rest]; cbn [fst snd];
          [now rewrite (un_other _ _ He), (un_other _ _ Hc) | reflexivity].
      * destruct (un_head c' r) as [x Hx]. rewrite Hx.
        assert (E : (((if (c' =? 13)%N then NL else c') =? ch "-")
                     || ((if (c' =? 13)%N then NL else c') =? ch "+"))%N
                    = false)
          by (destruct (c' =? 13)%N; [reflexivity | exact Es]).
        rewrite E, <- Hx, span_digits_un.
        destruct (span_digits (c' :: r)) as [[|d ds] rest]; cbn [fst snd];
          [now rewrite (un_other _ _ He) | reflexivity].
  - assert (E : exp_part (e :: s) = ([], e :: s))
      by (unfold exp_part; now rewrite Ee).
    rewrite E. cbn [fst snd].
    destruct (un_head e s) as [x Hx]. rewrite Hx. unfold exp_part.
    assert (E' : (((if (e =? 13)%N then NL else e) =? ch "e")
                  || ((if (e =? 13)%N then NL else e) =? ch "E"))%N = false)
      by (destruct (e =? 13)%N; [reflexivity | exact Ee]).
    now rewrite E'.
Qed.

Lemma match_number_un s :
  match_number (universal_newlines s)
  = on_rest universal_newlines (match_number s).
Proof.
  unfold match_number. rewrite sign_part_un.
  destruct (sign_part s) as [sign s1]. cbn [fst snd].
  destruct s1 as [|c s2]; [reflexivity|].
  destruct (is_digit c) eqn:Ed.
  - assert (Hc : c <> 13%N) by (intros ->; discriminate Ed).
    rewrite (un_other _ _ Hc), Ed, int_part_un.
    destruct (int_part c s2) as [ds s3]. cbn [fst snd].
    rewrite frac_part_un. destruct (frac_part s3) as [frac s4].
    cbn [fst snd]. rewrite exp_part_un.
    destruct (exp_part s4) as [exponent s5]. cbn [fst snd].
    destruct frac, exponent; reflexivity.
  - destruct (un_head c s2) as [x Hx]. rewrite Hx.
    assert (E : is_digit (if (c =? 13)%N then NL else c) = false)
      by (destruct (c =? 13)%N; [reflexivity | exact Ed]).
    now rewrite E.
Qed.

(** A name without line endings is at the head of the translated text
    when it is at the head of the text. *)
Lemma prefixb_un p s :
  forallb (fun x => negb (x =? 13)%N && negb (x =? 10)%N) p = true ->
  prefixb p (universal_newlines s) = prefixb p s
  /\ (prefixb p s = true ->
      skipn (List.length p) (universal_newlines s)
      = universal_newlines (skipn (List.length p) s)).
Proof.
  revert s; induction p as [|x p IH]; intros s Hp; [now split|].
  cbn [forallb] in Hp. apply andb_true_iff in Hp as [Hx Hp].
  apply andb_true_iff in Hx as [H13 H10].
  apply negb_true_iff in H13, H10.
  destruct s as [|c s]; [split; [reflexivity | discriminate]|].
  destruct (N.eqb_spec c 13) as [->|Hc].
  - destruct (un_head 13 s) as [y Hy]. rewrite Hy.
    cbn [prefixb]. change (13 =? 13)%N with true. cbn iota.
    change NL with 10%N. rewrite H10, H13. split; [reflexivity | discriminate].
  - rewrite (un_other _ _ Hc). cbn [prefixb List.length skipn].
    destruct (IH s Hp) as [E1 E2]. rewrite E1. split; [reflexivity|].
    intros H. apply andb_true_iff in H as [_ H]. now apply E2.
Qed.

Lemma constant_un name v s :
  forallb (fun x => negb (x =? 13)%N && negb (x =? 10)%N) (lit name) = true ->
  constant name v (universal_newlines s)
  = match constant name v s with
    | Some p => Some (on_rest universal_newlines p)
    | None => None
    end.
Proof.
  intros H. unfold constant.
  assert (L : String.length name = List.length (lit name)).
  { unfold lit. rewrite length_map. clear H.
    induction name as [|a name IH]; [reflexivity|]. cbn. now rewrite IH. }
  destruct (prefixb_un _ s H) as [E1 E2]. rewrite E1.
  destruct (prefixb (lit name) s); [|reflexivity].
  rewrite L, E2 by reflexivity. reflexivity.
Qed.

(** No term starts with a control character. *)
Lemma scan_once_control fuel c x :
  (c < 32)%N -> scan_once (S fuel) (c :: x) = Fail.
Proof.
  intros H. cbn [scan_once].
  replace (c =? QUOTE)%N with false
    by (symmetry; apply N.eqb_neq; unfold QUOTE; lia).
  replace (c =? ch "{")%N with false
    by (symmetry; apply N.eqb_neq; cbn; lia).
  replace (c =? ch "[")%N with false
    by (symmetry; apply N.eqb_neq; cbn; lia).
  rewrite !constant_mismatch by (cbn; lia).
  unfold match_number, sign_part.
  replace (c =? ch "-")%N with false
    by (symmetry; apply N.eqb_neq; cbn; lia).
  unfold is_digit.
  now replace (48 <=? c)%N with false by (symmetry; apply N.leb_gt; lia).
Qed.

Lemma push_on_rest c f p : push c (on_rest f p) = on_rest f (push c p).
Proof. now destruct p. Qed.

Lemma then_close_on_rest {A} (p : parsed A) f k k' :
  (forall a r, k a (f r) = on_rest f (k' a r)) ->
  then_close (on_rest f p) k = on_rest f (then_close p k').
Proof. intros H. destruct p; cbn; auto. Qed.

(** ** Strings *)

Lemma hex4_cr h1 h2 h3 h4 :
  h1 = 13%N \/ h2 = 13%N \/ h3 = 13%N \/ h4 = 13%N ->
  hex4 h1 h2 h3 h4 = None.
Proof.
  unfold hex4.
  intros [-> | [-> | [-> | ->]]];
    change (hex_digit 13) with (@None N);
    repeat match goal with
           | |- context [match hex_digit ?h with _ => _ end] =>
               destruct (hex_digit h)
           end; reflexivity.
Qed.

Lemma hex4_nl h1 h2 h3 h4 :
  h1 = NL \/ h2 = NL \/ h3 = NL \/ h4 = NL ->
  hex4 h1 h2 h3 h4 = None.
Proof.
  unfold hex4.
  intros [-> | [-> | [-> | ->]]];
    change (hex_digit NL) with (@None N);
    repeat match goal with
           | |- context [match hex_digit ?h with _ => _ end] =>
               destruct (hex_digit h)
           end; reflexivity.
Qed.

(** The first four characters of a translated text: the same four,
    when none is a carriage return; otherwise fewer than four, or four
    that are no hexadecimal number. *)
Lemma un_quad h1 h2 h3 h4 s6 :
  (universal_newlines (h1 :: h2 :: h3 :: h4 :: s6)
   = h1 :: h2 :: h3 :: h4 :: universal_newlines s6
   /\ h1 <> 13%N /\ h2 <> 13%N /\ h3 <> 13%N /\ h4 <> 13%N)
  \/ ((h1 = 13%N \/ h2 = 13%N \/ h3 = 13%N \/ h4 = 13%N)
      /\ match universal_newlines (h1 :: h2 :: h3 :: h4 :: s6) with
         | g1 :: g2 :: g3 :: g4 :: _ => hex4 g1 g2 g3 g4 = None
         | _ => True
         end).
Proof.
  destruct (N.eqb_spec h1 13) as [->|H1].
  { right. split; [auto|]. rewrite un_cr.
    destruct (universal_newlines _) as [|g2 [|g3 [|g4 ?]]]; auto;
      apply hex4_nl; auto. }
  rewrite (un_other _ _ H1).
  destruct (N.eqb_spec h2 13) as [->|H2].
  { right. split; [auto|]. rewrite un_cr.
    destruct (universal_newlines _) as [|g3 [|g4 ?]]; auto;
      apply hex4_nl; auto. }
  rewrite (un_other _ _ H2).
  destruct (N.eqb_spec h3 13) as [->|H3].
  { right. split; [auto|]. rewrite un_cr.
    destruct (universal_newlines _) as [|g4 ?]; auto;
      apply hex4_nl; auto. }
  rewrite (un_other _ _ H3).
  destruct (N.eqb_spec h4 13) as [->|H4].
  { right. split; [auto 6|]. rewrite un_cr. apply hex4_nl. auto 6. }
  rewrite (un_other _ _ H4). left. auto.
Qed.

(** The low half of a pair, after the escape of a high surrogate. *)
Lemma pair_un n c1 s6 :
  (forall s, (List.length s <= n)%nat ->
             scanstring (universal_newlines s)
             = on_rest universal_newlines (scanstring s)) ->
  (List.length s6 <= n)%nat ->
  match universal_newlines s6 with
  | b :: u :: g1 :: g2 :: g3 :: g4 :: s12 =>
      if ((b =? ch "\") && (u =? ch "u"))%N then
        match hex4 g1 g2 g3 g4 with
        | None => Fail
        | Some c2 =>
            if is_low_surrogate c2
            then push (join_surrogates c1 c2) (scanstring s12)
            else push c1 (scanstring (universal_newlines s6))
        end
      else push c1 (scanstring (universal_newlines s6))
  | _ => push c1 (scanstring (universal_newlines s6))
  end
  = on_rest universal_newlines
      (match s6 with
       | b :: u :: g1 :: g2 :: g3 :: g4 :: s12 =>
           if ((b =? ch "\") && (u =? ch "u"))%N then
             match hex4 g1 g2 g3 g4 with
             | None => Fail
             | Some c2 =>
                 if is_low_surrogate c2
                 then push (join_surrogates c1 c2) (scanstring s12)
                 else push c1 (scanstring s6)
             end
           else push c1 (scanstring s6)
       | _ => push c1 (scanstring s6)
       end).
Proof.
  intros IH Hle. rewrite (IH s6 Hle), push_on_rest.
  remember (push c1 (scanstring s6)) as P eqn:HP.
  destruct s6 as [|b s7]; [reflexivity|]. cbn [List.length] in Hle.
  destruct (N.eqb_spec b (ch "\")) as [->|Hb].
  2: { (* the next character is no backslash *)
    destruct (un_head b s7) as [x ->].
    assert (E : ((if (b =? 13)%N then NL else b) =? ch "\")%N = false).
    { destruct (N.eqb_spec b 13); [reflexivity | now apply N.eqb_neq]. }
    apply N.eqb_neq in Hb.
    destruct x as [|? [|? [|? [|? [|? ?]]]]];
      destruct s7 as [|? [|? [|? [|? [|? ?]]]]];
      rewrite ?E, ?Hb; reflexivity. }
  rewrite un_other by discriminate.
  destruct s7 as [|u s8]; [reflexivity|]. cbn [List.length] in Hle.
  change (ch "\" =? ch "\")%N with true. cbn [andb].
  destruct (N.eqb_spec u (ch "u")) as [->|Hu].
  2: { (* no [u] after the backslash *)
    destruct (un_head u s8) as [x ->].
    assert (E : ((if (u =? 13)%N then NL else u) =? ch "u")%N = false).
    { destruct (N.eqb_spec u 13); [reflexivity | now apply N.eqb_neq]. }
    apply N.eqb_neq in Hu.
    destruct x as [|? [|? [|? [|? ?]]]];
      destruct s8 as [|? [|? [|? [|? ?]]]];
      rewrite ?E, ?Hu; reflexivity. }
  rewrite un_other by discriminate.
  destruct s8 as [|g1 [|g2 [|g3 [|g4 s12]]]].
  1-4: match goal with
       | |- context [universal_newlines ?l] =>
           pose proof (length_un l) as Hl;
           destruct (universal_newlines l) as [|? [|? [|? [|? ?]]]];
           cbn [List.length] in Hl; try lia; reflexivity
       end.
  cbn [List.length] in Hle.
  destruct (un_quad g1 g2 g3 g4 s12) as [(E & _) | [Hcr Hno]].
  - rewrite E.
    destruct (hex4 g1 g2 g3 g4) as [c2|]; [|reflexivity].
    destruct (is_low_surrogate c2); [|reflexivity].
    rewrite IH by lia. apply push_on_rest.
  - rewrite (hex4_cr _ _ _ _ Hcr).
    assert (EP : P = Fail).
    { rewrite HP. cbn [scanstring].
      change (ch "\" =? QUOTE)%N with false.
      change (ch "\" =? ch "\")%N with true.
      change (ch "u" =? ch "u")%N with true. cbn iota.
      now rewrite (hex4_cr _ _ _ _ Hcr). }
    rewrite EP.
    destruct (universal_newlines (g1 :: g2 :: g3 :: g4 :: s12))
      as [|? [|? [|? [|? ?]]]]; try reflexivity.
    now rewrite Hno.
Qed.

Lemma scanstring_un_bounded n :
  forall s, (List.length s <= n)%nat ->
            scanstring (universal_newlines s)
            = on_rest universal_newlines (scanstring s).
Proof.
  induction n as [|n IH]; intros s Hle.
  - destruct s; [reflexivity | cbn in Hle; lia].
  - destruct s as [|c s1]; [reflexivity|]. cbn [List.length] in Hle.
    destruct (N.eqb_spec c 13) as [->|Hc].
    { destruct (un_head 13 s1) as [x ->]. reflexivity. }
    rewrite (un_other _ _ Hc). cbn [scanstring].
    destruct (c =? QUOTE)%N; [reflexivity|].
    destruct (c =? ch "\")%N.
    2: { destruct (c <=? 31)%N; [reflexivity|].
         rewrite IH by lia. apply push_on_rest. }
    destruct s1 as [|e s2]; [reflexivity|]. cbn [List.length] in Hle.
    destruct (N.eqb_spec e 13) as [->|He].
    { destruct (un_head 13 s2) as [x ->]. reflexivity. }
    rewrite (un_other _ _ He).
    destruct (e =? ch "u")%N.
    2: { destruct (simple_escape e); [|reflexivity].
         rewrite IH by lia. apply push_on_rest. }
    destruct s2 as [|h1 [|h2 [|h3 [|h4 s6]]]].
    1-4: match goal with
         | |- context [universal_newlines ?l] =>
             pose proof (length_un l) as Hl;
             destruct (universal_newlines l) as [|? [|? [|? [|? ?]]]];
             cbn [List.length] in Hl; try lia; reflexivity
         end.
    cbn [List.length] in Hle.
    destruct (un_quad h1 h2 h3 h4 s6) as [(E & _) | [Hcr Hno]].
    + rewrite E.
      destruct (hex4 h1 h2 h3 h4) as [c1|]; [|reflexivity].
      destruct (is_high_surrogate c1).
      * apply (pair_un n); [exact IH | lia].
      * rewrite IH by lia. apply push_on_rest.
    + rewrite (hex4_cr _ _ _ _ Hcr).
      destruct (universal_newlines (h1 :: h2 :: h3 :: h4 :: s6))
        as [|? [|? [|? [|? ?]]]]; try reflexivity.
      now rewrite Hno.
Qed.

Lemma scanstring_un s :
  scanstring (universal_newlines s)
  = on_rest universal_newlines (scanstring s).
Proof. apply (scanstring_un_bounded (List.length s)). lia. Qed.

(** ** Terms *)

Ltac clean_head E :=
  rewrite un_other
    by (apply not_whitespace_not_cr, (skip_whitespace_head _ _ _ E)).

Lemma scanner_un fuel :
  (forall s, scan_once fuel (universal_newlines s)
             = on_rest universal_newlines (scan_once fuel s))
  /\ (forall rval s,
        parse_object fuel rval (universal_newlines s)
        = on_rest universal_newlines (parse_object fuel rval s))
  /\ (forall rval s,
        parse_array fuel rval (universal_newlines s)
        = on_rest universal_newlines (parse_array fuel rval s)).
Proof.
  induction fuel as [|fuel (IHs & IHo & IHa)]; [repeat split; reflexivity|].
  repeat apply conj.
  - intros [|c s1]; [reflexivity|].
    destruct (N.eqb_spec c 13) as [->|Hc].
    { destruct (un_head 13 s1) as [x ->].
      change (if (13 =? 13)%N then NL else 13%N) with 10%N.
      now rewrite !scan_once_control by lia. }
    destruct (N.eqb_spec c QUOTE) as [->|H1].
    { rewrite (un_other _ _ Hc), !scan_once_quote, scanstring_un.
      now destruct (scanstring s1). }
    destruct (N.eqb_spec c (ch "{")) as [->|H2].
    { rewrite (un_other _ _ Hc), !scan_once_brace, skip_un.
      destruct (skip_whitespace s1) as [|c' s2] eqn:Ew; [reflexivity|].
      clean_head Ew.
      destruct (c' =? ch "}")%N; [reflexivity|].
      rewrite <- un_other
        by (apply not_whitespace_not_cr, (skip_whitespace_head _ _ _ Ew)).
      apply IHo. }
    destruct (N.eqb_spec c (ch "[")) as [->|H3].
    { rewrite (un_other _ _ Hc), !scan_once_bracket, skip_un.
      destruct (skip_whitespace s1) as [|c' s2] eqn:Ew; [reflexivity|].
      clean_head Ew.
      destruct (c' =? ch "]")%N; [reflexivity|].
      rewrite <- un_other
        by (apply not_whitespace_not_cr, (skip_whitespace_head _ _ _ Ew)).
      apply IHa. }
    rewrite (un_other _ _ Hc). cbn [scan_once].
    apply N.eqb_neq in H1, H2, H3. rewrite H1, H2, H3.
    rewrite <- (un_other _ _ Hc).
    rewrite !constant_un by reflexivity.
    repeat match goal with
           | |- context [constant ?n ?v (c :: s1)] =>
               destruct (constant n v (c :: s1)); [reflexivity|]
           end.
    apply match_number_un.
  - intros rval [|c s1]; [reflexivity|].
    destruct (N.eqb_spec c 13) as [->|Hc].
    { destruct (un_head 13 s1) as [x ->]. reflexivity. }
    rewrite (un_other _ _ Hc).
    destruct (N.eqb_spec c QUOTE) as [->|H1].
    2: { cbn [parse_object]. apply N.eqb_neq in H1. now rewrite H1. }
    rewrite !parse_object_quote, scanstring_un.
    destruct (scanstring s1) as [key s2| |]; [|reflexivity|reflexivity].
    cbn [on_rest then_close]. rewrite skip_un.
    destruct (skip_whitespace s2) as [|c2 s3] eqn:Ew2; [reflexivity|].
    clean_head Ew2.
    destruct (c2 =? ch ":")%N; [|reflexivity].
    rewrite skip_un, IHs.
    destruct (scan_once fuel (skip_whitespace s3)) as [val s4| |];
      [|reflexivity|reflexivity].
    cbn [on_rest then_close]. cbv zeta. rewrite skip_un.
    destruct (skip_whitespace s4) as [|c3 s5] eqn:Ew4; [reflexivity|].
    clean_head Ew4.
    destruct (c3 =? ch "}")%N; [reflexivity|].
    destruct (c3 =? ch ",")%N; [|reflexivity].
    rewrite skip_un. apply IHo.
  - intros rval s. rewrite !parse_array_step, IHs.
    destruct (scan_once fuel s) as [val s1| |]; [|reflexivity|reflexivity].
    cbn [on_rest then_close]. cbv zeta. rewrite skip_un.
    destruct (skip_whitespace s1) as [|c s2] eqn:Ew; [reflexivity|].
    clean_head Ew.
    destruct (c =? ch "]")%N; [reflexivity|].
    destruct (c =? ch ",")%N; [|reflexivity].
    rewrite skip_un. apply IHa.
Qed.

Lemma json_loads_un t : json_loads (universal_newlines t) = json_loads t.
Proof.
  rewrite <- (json_loads_fuel (S (List.length (skip_whitespace t)))
                (universal_newlines t)).
  2: { rewrite skip_un. pose proof (length_un (skip_whitespace t)). lia. }
  unfold json_loads. rewrite skip_un, (proj1 (scanner_un _)).
  destruct (scan_once _ (skip_whitespace t)) as [obj rest| |];
    try reflexivity.
  cbn [on_rest]. rewrite skip_un.
  destruct (skip_whitespace rest) as [|c r] eqn:E; [reflexivity|].
  clean_head E. reflexivity.
Qed.

(** X20. The translation of line endings that reading a file as text
    performs changes nothing for [json.loads]: for every text, with
    any mix of line feeds and carriage returns, the translated text
    is read as the same object or fails alike.  So each script gives
    the output it would give if the text were handed to [json.loads]
    as decoded. *)
Theorem line_endings_do_not_matter :
  (forall t, json_loads (universal_newlines t) = json_loads t)
  /\ (forall bytes,
        output_on "vitest-results.json" bytes check_full
        = match res_bind (decode utf_8 ignore (map Byte.to_N bytes))
                         json_loads with
          | Ok j => CheckFull.main j
          | Raise e => ([], Raise e)
          end
        /\ output_on "vitest-results.json" bytes failed_details
           = match res_bind (decode utf_8 ignore (map Byte.to_N bytes))
                            json_loads with
             | Ok j => FailedDetails.main j
             | Raise e => ([], Raise e)
             end
        /\ output_on "vitest-results.json" bytes temp_decode
           = match res_bind (decode utf_16_le ignore (map Byte.to_N bytes))
                            json_loads with
             | Ok j => TempDecode.main j
             | Raise e => ([], Raise e)
             end
        /\ output_on "vitest-results-clean.json" bytes vitest_report_summary
           = match res_bind (decode utf_8_sig strict (map Byte.to_N bytes))
                            json_loads with
             | Ok j => VitestReportSummary.main j
             | Raise e => ([], Raise e)
             end).
Proof.
  split; [exact json_loads_un|].
  intros bytes.
  unfold check_full, failed_details, temp_decode, vitest_report_summary.
  rewrite !output_on_script.
  repeat split;
    match goal with
    | |- context [decode ?enc ?errors ?bs] =>
        destruct (decode enc errors bs) as [t|e]; [|reflexivity]
    end;
    cbn [res_bind]; now rewrite json_loads_un.
Qed.

(** ** What [errors='ignore'] does *)

Ltac drop_to IH s' :=
  let k := fresh "k" in let t := fresh "t" in
  let Hk := fresh "Hk" in let Hi := fresh "Hi" in let Hs := fresh "Hs" in
  destruct (IH s') as (k & t & Hk & Hi & Hs);
  [cbn [List.length] in *; lia|];
  exists k, t; split; [repeat (first [exact Hk | apply kept_drop]) | split; assumption].

Ltac all_dropped :=
  exists (@nil N), (@nil N);
  split; [repeat constructor | split; reflexivity].

Lemma utf8_ignore_kept n :
  forall s, (List.length s <= n)%nat ->
  exists kept t,
    kept_of kept s /\ utf8_decode ignore s = Ok t
    /\ utf8_decode strict kept = Ok t.
Proof.
  induction n as [|n IH]; intros s Hle.
  - destruct s; [all_dropped | cbn in Hle; lia].
  - destruct s as [|ch s1]; [all_dropped|]. cbn [List.length] in Hle.
    cbn [utf8_decode on_error].
    destruct (N.ltb_spec ch 128).
    { destruct (IH s1) as (k & t & Hk & Hi & Hs); [lia|].
      exists (ch :: k), (ch :: t). split; [now constructor|].
      rewrite Hi. split; [reflexivity|]. cbn [utf8_decode].
      replace (ch <? 128)%N with true by (symmetry; apply N.ltb_lt; lia).
      now rewrite Hs. }
    destruct (N.ltb_spec ch 194); [drop_to IH s1|].
    destruct (N.ltb_spec ch 224).
    { destruct s1 as [|ch2 s2]; [all_dropped|]. unfold is_continuation.
      destruct (N.leb_spec 128 ch2); destruct (N.ltb_spec ch2 192);
        cbn [andb]; try (drop_to IH (ch2 :: s2)).
      destruct (IH s2) as (k & t & Hk & Hi & Hs);
        [cbn [List.length] in *; lia|].
      exists (ch :: ch2 :: k), ((ch * 64 + ch2 - 12416)%N :: t).
      split; [now repeat constructor|]. rewrite Hi.
      split; [reflexivity|]. rewrite decode_2 by lia. now rewrite Hs. }
    destruct (N.ltb_spec ch 240).
    { destruct s1 as [|ch2 s2]; [all_dropped|]. unfold is_continuation.
      destruct (N.leb_spec 128 ch2); destruct (N.ltb_spec ch2 192);
        cbn [andb negb orb]; try (drop_to IH (ch2 :: s2)).
      destruct (N.ltb_spec ch2 160);
        [destruct (N.eqb_spec ch 224) | destruct (N.eqb_spec ch 237)];
        try (drop_to IH (ch2 :: s2)).
      all: destruct s2 as [|ch3 s3]; [all_dropped|].
      all: destruct (N.leb_spec 128 ch3); destruct (N.ltb_spec ch3 192);
        cbn [andb negb orb]; try (drop_to IH (ch3 :: s3)).
      all: destruct (IH s3) as (k & t & Hk & Hi & Hs);
        [cbn [List.length] in *; lia|].
      all: exists (ch :: ch2 :: ch3 :: k),
             ((ch * 4096 + ch2 * 64 + ch3 - 925824)%N :: t).
      all: split; [now repeat constructor|]; rewrite Hi.
      all: split; [reflexivity|]; rewrite decode_3 by lia; now rewrite Hs. }
    destruct (N.ltb_spec ch 245); [|drop_to IH s1].
    destruct s1 as [|ch2 s2]; [all_dropped|]. unfold is_continuation.
    destruct (N.leb_spec 128 ch2); destruct (N.ltb_spec ch2 192);
      cbn [andb negb orb]; try (drop_to IH (ch2 :: s2)).
    destruct (N.ltb_spec ch2 144);
      [destruct (N.eqb_spec ch 240) | destruct (N.eqb_spec ch 244)];
      try (drop_to IH (ch2 :: s2)).
    all: destruct s2 as [|ch3 s3]; [all_dropped|].
    all: destruct (N.leb_spec 128 ch3); destruct (N.ltb_spec ch3 192);
      cbn [andb negb orb]; try (drop_to IH (ch3 :: s3)).
    all: destruct s3 as [|ch4 s4]; [all_dropped|].
    all: destruct (N.leb_spec 128 ch4); destruct (N.ltb_spec ch4 192);
      cbn [andb negb orb]; try (drop_to IH (ch4 :: s4)).
    all: destruct (IH s4) as (k & t & Hk & Hi & Hs);
      [cbn [List.length] in *; lia|].
    all: exists (ch :: ch2 :: ch3 :: ch4 :: k),
           ((ch * 262144 + ch2 * 4096 + ch3 * 64 + ch4 - 63447168)%N :: t).
    all: split; [now repeat constructor|]; rewrite Hi.
    all: split; [reflexivity|]; rewrite decode_4 by lia; now rewrite Hs.
Qed.

Lemma utf16_ignore_kept n :
  forall q, (List.length q <= n)%nat ->
  exists kept t,
    kept_of kept q /\ utf16_le_decode ignore q = Ok t
    /\ utf16_le_decode strict kept = Ok t.
Proof.
  induction n as [|n IH]; intros q Hle.
  - destruct q; [all_dropped | cbn in Hle; lia].
  - destruct q as [|lo [|hi q2]]; [all_dropped | all_dropped |].
    cbn [List.length] in Hle.
    cbn [utf16_le_decode on_error].
    destruct (is_surrogate (hi * 256 + lo)) eqn:Es; cbn [negb].
    2: { destruct (IH q2) as (k & t & Hk & Hi & Hs); [lia|].
         exists (lo :: hi :: k), ((hi * 256 + lo)%N :: t).
         split; [now repeat constructor|]. rewrite Hi.
         split; [reflexivity|]. cbn [utf16_le_decode].
         rewrite Es. cbn [negb]. now rewrite Hs. }
    destruct (is_high_surrogate (hi * 256 + lo)) eqn:Eh; cbn [negb];
      [|drop_to IH q2].
    destruct q2 as [|lo2 [|hi2 q4]]; [all_dropped | all_dropped |].
    destruct (is_low_surrogate (hi2 * 256 + lo2)) eqn:El;
      [|drop_to IH (lo2 :: hi2 :: q4)].
    destruct (IH q4) as (k & t & Hk & Hi & Hs);
      [cbn [List.length] in *; lia|].
    exists (lo :: hi :: lo2 :: hi2 :: k),
      (join_surrogates (hi * 256 + lo) (hi2 * 256 + lo2) :: t).
    split; [now repeat constructor|]. rewrite Hi.
    split; [reflexivity|]. cbn [utf16_le_decode].
    rewrite Es, Eh, El. cbn [negb]. now rewrite Hs.
Qed.

(** X21. What [errors='ignore'] does to a file.  The text read from
    any bytes is the strict decoding of what is left of the bytes when
    some of them are dropped: bytes are left out, and none is replaced
    or made up.  For UTF-8 the bytes left are the encoding of the text
    read. *)
Theorem ignored_bytes_are_dropped (bytes : list N) :
  (exists kept t,
     kept_of kept bytes
     /\ decode utf_8 ignore bytes = Ok t
     /\ decode utf_8 strict kept = Ok t
     /\ utf8_encode t = Some kept)
  /\ (exists kept t,
        kept_of kept bytes
        /\ decode utf_16_le ignore bytes = Ok t
        /\ decode utf_16_le strict kept = Ok t).
Proof.
  split.
  - destruct (utf8_ignore_kept _ bytes (le_n _)) as (k & t & Hk & Hi & Hs).
    exists k, t. repeat split; auto. now apply utf8_encode_decode.
  - destruct (utf16_ignore_kept _ bytes (le_n _)) as (k & t & Hk & Hi & Hs).
    exists k, t. auto.
Qed.

(** ** The test of the lookup *)

(** X22. One step of the lookup of [vitest-report-summary.py].  For a
    suite whose name and status are strings, the test
    ['e2e-quality-orchestration.test.ts' in suite['name']] is the
    substring relation: when the name has that text somewhere in it,
    the loop prints the name and the status and stops, whatever suites
    follow; when it has not, the loop goes on with the suites that
    follow.  When the name is a number, a boolean or [null], the test
    raises [TypeError]. *)
Theorem lookup_step (d : list (text * value)) (rest : list value) :
  (forall name status,
     dict_get (lit "name") d = Some (JStr name) ->
     dict_get (lit "status") d = Some (JStr status) ->
     (substring VitestReportSummary.e2e_name name ->
      VitestReportSummary.e2e_file_status (JDict d :: rest)
      = ([lit "   " ++ name ++ lit " " ++ status], Ok tt))
     /\ (~ substring VitestReportSummary.e2e_name name ->
         VitestReportSummary.e2e_file_status (JDict d :: rest)
         = VitestReportSummary.e2e_file_status rest))
  /\ (forall name,
        dict_get (lit "name") d = Some name ->
        match name with
        | JNull | JBool _ | JInt _ | JFloat _ => True
        | _ => False
        end ->
        VitestReportSummary.e2e_file_status (JDict d :: rest)
        = ([], Raise TypeError)).
Proof.
  split.
  - intros name status Hn Hs.
    cbn [VitestReportSummary.e2e_file_status]. unfold subscript.
    rewrite Hn, Hs, bind_lift_ok. unfold py_in. rewrite bind_lift_ok.
    split; intros H.
    + apply contains_substring in H. rewrite H.
      rewrite !bind_lift_ok. unfold str. now rewrite !bind_lift_ok.
    + destruct (contains VitestReportSummary.e2e_name name) eqn:E;
        [|reflexivity].
      exfalso. now apply H, contains_substring.
  - intros name Hn Hv.
    cbn [VitestReportSummary.e2e_file_status]. unfold subscript.
    rewrite Hn, bind_lift_ok.
    destruct name; try contradiction; reflexivity.
Qed.

Lemma lookup_step_witness :
  let suites := suites_of (loaded sample_report) in
  VitestReportSummary.e2e_file_status suites
  = ([lit "   a/b/e2e-quality-orchestration.test.ts passed"], Ok tt)
  /\ VitestReportSummary.e2e_file_status (tl suites) = ([], Ok tt)
  /\ VitestReportSummary.e2e_file_status
       (JDict [(lit "name", JInt 1)] :: suites)
     = ([], Raise TypeError).
Proof.
  cbv zeta. repeat apply conj.
  - apply (proj1 (proj1 (lookup_step
                           (entries (nth 0 (suites_of (loaded sample_report))
                                         JNull))
                           (tl (suites_of (loaded sample_report))))
                          (lit "a/b/e2e-quality-orchestration.test.ts")
                          (lit "passed") eq_refl eq_refl)).
    exists (lit "a/b/"), []. reflexivity.
  - transitivity (VitestReportSummary.e2e_file_status []); [|reflexivity].
    apply (proj2 (proj1 (lookup_step
                           (entries (nth 1 (suites_of (loaded sample_report))
                                         JNull))
                           [])
                          (lit "src/team.test.ts")
                          (lit "failed") eq_refl eq_refl)).
    intros H. apply contains_substring in H. vm_compute in H. discriminate H.
  - apply (proj2 (lookup_step [(lit "name", JInt 1)]
                    (suites_of (loaded sample_report)))
             (JInt 1) eq_refl I).
Defined.
